(** * MT-DNN data processing and pipeline driver

    A shallow embedding of [utils_nlp/models/mtdnn/process_mtdnn.py]:
    the task registration loop of [MTDNNDataProcess] and the training and
    evaluation drivers of [MTDNNPipelineProcess], with the properties of
    the derived configuration sequences and of the log and checkpoint
    cadence. *)

From Stdlib Require Import ZArith String Ascii List Lia.
From Stdlib Require Import Floats.PrimFloat.
From stdpp Require Import base option list gmap strings fin_maps pretty.

Local Open Scope Z_scope.

(* [naive_solver] clears hypotheses it has already used up. *)
#[local] Set Warnings "-clear-no-such-hyp".

(** ** Python values and exceptions *)

(** Python [float] values are IEEE binary64; they are only stored and
    passed on by this module, never computed with. *)
Abbreviation pyfloat := PrimFloat.float.

Inductive exn : Type :=
  | AssertionError (msg : string)
  | KeyError (key : string)
  | IndexError
  | NameError (name : string)
  | ZeroDivisionError
  | ExternalError (what : string)
  | ValueError
  | OverflowError
  | TypeError.

Inductive result (A : Type) : Type :=
  | Ok (a : A)
  | Raise (e : exn).
Arguments Ok {A} a.
Arguments Raise {A} e.

(** Sequencing: an exception aborts what follows.  With these instances
    the notation [x ← m; k] reads as a statement followed by the rest of
    the block. *)
Global Instance result_ret : MRet result := λ _ a, Ok a.
Global Instance result_bind : MBind result := λ _ _ k m,
  match m with
  | Ok a => k a
  | Raise e => Raise e
  end.

(** [assert cond] *)
Definition py_assert (cond : bool) (msg : string) : result unit :=
  if cond then Ok tt else Raise (AssertionError msg).

(** [d[key]] on a dict with string keys. *)
Definition getitem {V} (d : gmap string V) (key : string) : result V :=
  match d !! key with
  | Some v => Ok v
  | None => Raise (KeyError key)
  end.

(** [d[key]] on a dict with integer keys ([pretty] renders the key for
    the exception). *)
Definition getitemZ {V} (d : gmap Z V) (key : Z) : result V :=
  match d !! key with
  | Some v => Ok v
  | None => Raise (KeyError (pretty key))
  end.

(** [key in d] *)
Definition contains `{Countable K} {V} (d : gmap K V) (key : K) : bool :=
  bool_decide (is_Some (d !! key)).

(** [l[i]] on a list; negative indices do not occur (indices come from
    [len] and [enumerate]). *)
Definition list_getitem {A} (l : list A) (i : nat) : result A :=
  match l !! i with
  | Some x => Ok x
  | None => Raise IndexError
  end.

(** [x % d] on Python integers: floor remainder, [ZeroDivisionError] on a
    zero divisor. *)
Definition py_mod (x d : Z) : result Z :=
  if d =? 0 then Raise ZeroDivisionError else Ok (x mod d).

(** [s.split(sep)[0]] for a one-character separator: the text before
    its first occurrence, the whole string when there is none. *)
Fixpoint split_head (sep : ascii) (s : string) : string :=
  match s with
  | EmptyString => EmptyString
  | String c rest =>
      if Ascii.eqb c sep then EmptyString else String c (split_head sep rest)
  end.

(** [dataset.split("_")[0]] *)
Definition split_prefix (dataset : string) : string := split_head "_" dataset.

(** [os.path.join(a, b)] on POSIX paths. *)
Definition starts_with_sep (s : string) : bool :=
  match s with
  | String c _ => Ascii.eqb c "/"%char
  | EmptyString => false
  end.

Fixpoint ends_with_sep (s : string) : bool :=
  match s with
  | EmptyString => false
  | String c EmptyString => Ascii.eqb c "/"%char
  | String _ rest => ends_with_sep rest
  end.

Definition path_join (a b : string) : string :=
  if starts_with_sep b then b
  else if (String.eqb a "" || ends_with_sep a)%bool then a +:+ b
  else a +:+ "/" +:+ b.

(** ** External collaborators at their boundary *)

(** Modelled from the spec: the enum [TaskType] of [common/types.py],
    which is not among the sources.  The spec names Classification,
    Regression and Ranking and leaves the rest open; any other member is
    [OtherTask] with its integer value.  This module only compares a task
    type with [Ranking]. *)
Inductive TaskType : Type :=
  | Classification
  | Regression
  | Ranking
  | OtherTask (code : Z).

Global Instance TaskType_eq_dec : EqDecision TaskType.
Proof. solve_decision. Defined.

(** Loss criteria, data formats and encoder types are enum members that
    are only passed through; they are carried by their integer value. *)
Abbreviation LossType := Z (only parsing).
Abbreviation DataType := Z (only parsing).
Abbreviation EncoderType := Z (only parsing).

(** The maps of [TaskDefs] read by this module. *)
Record TaskDefs : Type := {
  n_class_map : gmap string Z;
  data_type_map : gmap string DataType;
  task_type_map : gmap string TaskType;
  enable_san_map : gmap string bool;
  loss_map : gmap string LossType;
  kd_loss_map : gmap string LossType;
  dropout_p_map : gmap string pyfloat;
  global_map : gmap string (list string);
  metric_meta_map : gmap string (list Z);
}.

(** The fields of [MTDNNConfig] read or set by this module. *)
Record MTDNNConfig : Type := {
  mtl_opt : Z;
  answer_opt : Z;
  dropout_p : pyfloat;
  dropout_w : pyfloat;
  max_seq_len : Z;
  encoder_type : EncoderType;
  batch_size : Z;
  batch_size_eval : Z;
  mix_opt : Z;
  ratio : pyfloat;
  cuda : bool;
  epochs : Z;
  grad_accumulation_step : Z;
  log_per_updates : Z;
  save_per_updates : Z;
  save_per_updates_on : bool;
  use_tensor_board : bool;
  use_glue_format : bool;
  (* attributes set by [update_config]; absent before *)
  cfg_decoder_opts : option (list Z);
  cfg_task_types : option (list TaskType);
  cfg_tasks_dropout_p : option (list pyfloat);
  cfg_loss_types : option (list LossType);
  cfg_kd_loss_types : option (list LossType);
  cfg_tasks_nclass_list : option (list Z);
}.

(** ** MTDNNDataProcess

    The methods of this class are functions from the object's state to a
    result and the state after; their [logger.info] lines change nothing
    and are left out. *)

(** [generate_decoder_opt(enable_san, max_opt)] *)
Definition generate_decoder_opt (enable_san : bool) (max_opt : Z) : Z :=
  if (enable_san && (max_opt <? 3))%bool then max_opt else 0.

(** The objects this module builds from the external dataset classes.
    Their constructors only store their arguments, except that
    [MTDNNSingleTaskDataset] reads its file. *)
Record MTDNNSingleTaskDataset : Type := {
  sd_path : string;
  sd_is_train : bool;
  sd_maxlen : Z;
  sd_task_id : nat;
  sd_task_type : TaskType;
  sd_data_type : DataType;
}.

(** Keyword arguments left out of a call are [None] here: the
    constructor's defaults are not this module's business. *)
Record MTDNNCollater : Type := {
  col_is_train : option bool;
  col_dropout_w : option pyfloat;
  col_encoder_type : EncoderType;
}.

Record MTDNNMultiTaskBatchSampler : Type := {
  bs_datasets : list MTDNNSingleTaskDataset;
  bs_batch_size : Z;
  bs_mix_opt : Z;
  bs_ratio : pyfloat;
}.

(** [DataLoader(MTDNNMultiTaskDataset(datasets), batch_sampler=...,
    collate_fn=..., pin_memory=...)] *)
Record TrainDataLoader : Type := {
  tdl_dataset : list MTDNNSingleTaskDataset;
  tdl_batch_sampler : MTDNNMultiTaskBatchSampler;
  tdl_collater : MTDNNCollater;
  tdl_pin_memory : bool;
}.

(** [DataLoader(dataset, batch_size=..., collate_fn=..., pin_memory=...)] *)
Record EvalDataLoader : Type := {
  edl_dataset : MTDNNSingleTaskDataset;
  edl_batch_size : Z;
  edl_collater : MTDNNCollater;
  edl_pin_memory : bool;
}.

(** The attributes of an [MTDNNDataProcess] object that its methods
    assign or mutate. *)
Record Registry : Type := {
  config : MTDNNConfig;
  tasks : gmap string nat;
  tasks_class : gmap Z nat;
  nclass_list : list Z;
  decoder_opts : list Z;
  task_types : list TaskType;
  dropout_list : list pyfloat;
  loss_types : list LossType;
  kd_loss_types : list LossType;
}.

Definition set_config (c : MTDNNConfig) (r : Registry) : Registry :=
  {| config := c; tasks := tasks r; tasks_class := tasks_class r;
     nclass_list := nclass_list r; decoder_opts := decoder_opts r;
     task_types := task_types r; dropout_list := dropout_list r;
     loss_types := loss_types r; kd_loss_types := kd_loss_types r |}.
Definition set_tasks (x : gmap string nat) (r : Registry) : Registry :=
  {| config := config r; tasks := x; tasks_class := tasks_class r;
     nclass_list := nclass_list r; decoder_opts := decoder_opts r;
     task_types := task_types r; dropout_list := dropout_list r;
     loss_types := loss_types r; kd_loss_types := kd_loss_types r |}.
Definition set_tasks_class (x : gmap Z nat) (r : Registry) : Registry :=
  {| config := config r; tasks := tasks r; tasks_class := x;
     nclass_list := nclass_list r; decoder_opts := decoder_opts r;
     task_types := task_types r; dropout_list := dropout_list r;
     loss_types := loss_types r; kd_loss_types := kd_loss_types r |}.
Definition set_nclass_list (x : list Z) (r : Registry) : Registry :=
  {| config := config r; tasks := tasks r; tasks_class := tasks_class r;
     nclass_list := x; decoder_opts := decoder_opts r;
     task_types := task_types r; dropout_list := dropout_list r;
     loss_types := loss_types r; kd_loss_types := kd_loss_types r |}.
Definition set_decoder_opts (x : list Z) (r : Registry) : Registry :=
  {| config := config r; tasks := tasks r; tasks_class := tasks_class r;
     nclass_list := nclass_list r; decoder_opts := x;
     task_types := task_types r; dropout_list := dropout_list r;
     loss_types := loss_types r; kd_loss_types := kd_loss_types r |}.
Definition set_task_types (x : list TaskType) (r : Registry) : Registry :=
  {| config := config r; tasks := tasks r; tasks_class := tasks_class r;
     nclass_list := nclass_list r; decoder_opts := decoder_opts r;
     task_types := x; dropout_list := dropout_list r;
     loss_types := loss_types r; kd_loss_types := kd_loss_types r |}.
Definition set_dropout_list (x : list pyfloat) (r : Registry) : Registry :=
  {| config := config r; tasks := tasks r; tasks_class := tasks_class r;
     nclass_list := nclass_list r; decoder_opts := decoder_opts r;
     task_types := task_types r; dropout_list := x;
     loss_types := loss_types r; kd_loss_types := kd_loss_types r |}.
Definition set_loss_types (x : list LossType) (r : Registry) : Registry :=
  {| config := config r; tasks := tasks r; tasks_class := tasks_class r;
     nclass_list := nclass_list r; decoder_opts := decoder_opts r;
     task_types := task_types r; dropout_list := dropout_list r;
     loss_types := x; kd_loss_types := kd_loss_types r |}.
Definition set_kd_loss_types (x : list LossType) (r : Registry) : Registry :=
  {| config := config r; tasks := tasks r; tasks_class := tasks_class r;
     nclass_list := nclass_list r; decoder_opts := decoder_opts r;
     task_types := task_types r; dropout_list := dropout_list r;
     loss_types := loss_types r; kd_loss_types := x |}.

(** [update_config]: the six derived sequences become attributes of the
    config. *)
Definition update_config (self : Registry) (c : MTDNNConfig) : MTDNNConfig :=
  {| mtl_opt := mtl_opt c; answer_opt := answer_opt c;
     dropout_p := dropout_p c; dropout_w := dropout_w c;
     max_seq_len := max_seq_len c; encoder_type := encoder_type c;
     batch_size := batch_size c; batch_size_eval := batch_size_eval c;
     mix_opt := mix_opt c; ratio := ratio c; cuda := cuda c;
     epochs := epochs c;
     grad_accumulation_step := grad_accumulation_step c;
     log_per_updates := log_per_updates c;
     save_per_updates := save_per_updates c;
     save_per_updates_on := save_per_updates_on c;
     use_tensor_board := use_tensor_board c;
     use_glue_format := use_glue_format c;
     cfg_decoder_opts := Some (decoder_opts self);
     cfg_task_types := Some (task_types self);
     cfg_tasks_dropout_p := Some (dropout_list self);
     cfg_loss_types := Some (loss_types self);
     cfg_kd_loss_types := Some (kd_loss_types self);
     cfg_tasks_nclass_list := Some (nclass_list self) |}.

Section DataProcess.

(** Constructor arguments that stay fixed, and the file system as the
    module sees it: which paths exist ([os.path.exists]) and which files
    the dataset class manages to read. *)
Variable task_defs : TaskDefs.
Variable data_dir : string.
Variable path_exists : string → bool.
Variable readable : string → bool.

Definition new_single_task_dataset (path : string) (is_train : bool)
    (maxlen : Z) (task_id : nat) (task_type : TaskType)
    (data_type : DataType) : result MTDNNSingleTaskDataset :=
  if readable path then
    Ok {| sd_path := path; sd_is_train := is_train; sd_maxlen := maxlen;
          sd_task_id := task_id; sd_task_type := task_type;
          sd_data_type := data_type |}
  else Raise (ExternalError path).

(** Lines 86-92: the id of a new task, [len(self.tasks)], or under
    class sharing the id of its label count. *)
Definition pick_task_id (self : Registry) (nclass : Z) : result nat :=
  let task_id := size (tasks self) in
  if 0 <? mtl_opt (config self) then
    if contains (tasks_class self) nclass
    then getitemZ (tasks_class self) nclass
    else Ok (size (tasks_class self))
  else Ok task_id.

(** Lines 99-102: the decoder option of [task_id]. *)
Definition reconcile_decoder_opt (self : Registry) (task_id : nat) (dopt : Z)
    : result Registry :=
  if (task_id <? length (decoder_opts self))%nat then
    cur ← list_getitem (decoder_opts self) task_id;
    Ok (set_decoder_opts (<[task_id := Z.min cur dopt]> (decoder_opts self)) self)
  else Ok (set_decoder_opts (decoder_opts self ++ [dopt]) self).

(** Lines 107-110 *)
Definition register_task (self : Registry) (prefix : string) (nclass : Z)
    : Registry :=
  if negb (contains (tasks self) prefix) then
    let self := set_tasks (<[prefix := size (tasks self)]> (tasks self)) self in
    if mtl_opt (config self) <? 1
    then set_nclass_list (nclass_list self ++ [nclass]) self
    else self
  else self.

(** Lines 112-115 *)
Definition register_task_class (self : Registry) (nclass : Z) : Registry :=
  if negb (contains (tasks_class self) nclass) then
    let self :=
      set_tasks_class (<[nclass := size (tasks_class self)]> (tasks_class self))
        self in
    if 0 <? mtl_opt (config self)
    then set_nclass_list (nclass_list self ++ [nclass]) self
    else self
  else self.

(** One iteration of the loop of [_process_train_datasets]: the
    registry and the list [train_datasets] after it. *)
Definition train_iteration (dataset : string) (self : Registry)
    (train_datasets : list MTDNNSingleTaskDataset)
    : result (Registry * list MTDNNSingleTaskDataset) :=
  let prefix := split_prefix dataset in
  if contains (tasks self) prefix then Ok (self, train_datasets) (* continue *)
  else
    py_assert (contains (n_class_map task_defs) prefix) "";;
    py_assert (contains (data_type_map task_defs) prefix) "";;
    data_type ← getitem (data_type_map task_defs) prefix;
    nclass ← getitem (n_class_map task_defs) prefix;
    task_id ← pick_task_id self nclass;
    task_type ← getitem (task_type_map task_defs) prefix;
    enable_san ← getitem (enable_san_map task_defs) prefix;
    let dopt := generate_decoder_opt enable_san (answer_opt (config self)) in
    self ← reconcile_decoder_opt self task_id dopt;
    let self := set_task_types (task_types self ++ [task_type]) self in
    loss ← getitem (loss_map task_defs) prefix;
    let self := set_loss_types (loss_types self ++ [loss]) self in
    kd_loss ← getitem (kd_loss_map task_defs) prefix;
    let self := set_kd_loss_types (kd_loss_types self ++ [kd_loss]) self in
    let self := register_task self prefix nclass in
    let self := register_task_class self nclass in
    let dropout := default (dropout_p (config self))
                           (dropout_p_map task_defs !! prefix) in
    let self := set_dropout_list (dropout_list self ++ [dropout]) self in
    let train_path := path_join data_dir (dataset +:+ "_train.json") in
    train_data_set ←
      new_single_task_dataset train_path true (max_seq_len (config self))
        task_id task_type data_type;
    Ok (self, train_datasets ++ [train_data_set]).

Fixpoint train_loop (datasets : list string) (self : Registry)
    (train_datasets : list MTDNNSingleTaskDataset)
    : result (Registry * list MTDNNSingleTaskDataset) :=
  match datasets with
  | [] => Ok (self, train_datasets)
  | dataset :: rest =>
      '(self, train_datasets) ← train_iteration dataset self train_datasets;
      train_loop rest self train_datasets
  end.

(** [_process_train_datasets] *)
Definition process_train_datasets (datasets : list string) (self : Registry)
    : result (Registry * TrainDataLoader) :=
  '(self, train_datasets) ← train_loop datasets self [];
  let train_collater :=
    {| col_is_train := None;
       col_dropout_w := Some (dropout_w (config self));
       col_encoder_type := encoder_type (config self) |} in
  let multitask_batch_sampler :=
    {| bs_datasets := train_datasets;
       bs_batch_size := batch_size (config self);
       bs_mix_opt := mix_opt (config self);
       bs_ratio := ratio (config self) |} in
  let multitask_train_data :=
    {| tdl_dataset := train_datasets;
       tdl_batch_sampler := multitask_batch_sampler;
       tdl_collater := train_collater;
       tdl_pin_memory := cuda (config self) |} in
  let self := set_config (update_config self (config self)) self in
  Ok (self, multitask_train_data).

(** Lines 162-166: the id of a test task. *)
Definition test_task_id (self : Registry) (prefix : string) : result nat :=
  if 0 <? mtl_opt (config self) then
    nclass ← getitem (n_class_map task_defs) prefix;
    getitemZ (tasks_class self) nclass
  else getitem (tasks self) prefix.

(** [DataLoader(dataset, batch_size=..., collate_fn=..., pin_memory=...)]
    of [torch.utils.data]: given no sampler, the loader builds a
    [BatchSampler] of its own, which raises [ValueError] on a batch size
    that is not positive. *)
Definition new_eval_dataloader (dataset : MTDNNSingleTaskDataset)
    (batch_size : Z) (collater : MTDNNCollater) (pin_memory : bool)
    : result EvalDataLoader :=
  if batch_size <=? 0 then Raise ValueError
  else Ok {| edl_dataset := dataset; edl_batch_size := batch_size;
             edl_collater := collater; edl_pin_memory := pin_memory |}.

(** One iteration of the loop of [_process_dev_test_datasets]. *)
Definition dev_test_iteration (dataset : string) (self : Registry)
    (dev_dataloaders_list test_dataloaders_list : list (option EvalDataLoader))
    (test_collater : MTDNNCollater)
    : result (list (option EvalDataLoader) * list (option EvalDataLoader)) :=
  let prefix := split_prefix dataset in
  task_id ← test_task_id self prefix;
  task_type ← getitem (task_type_map task_defs) prefix;
  let pw_task := bool_decide (task_type = Ranking) in
  py_assert (contains (data_type_map task_defs) prefix) "";;
  data_type ← getitem (data_type_map task_defs) prefix;
  let dev_path := path_join data_dir (dataset +:+ "_dev.json") in
  dev_data ← (if path_exists dev_path then
                dev_data_set ←
                  new_single_task_dataset dev_path false
                    (max_seq_len (config self)) task_id task_type data_type;
                dev_data ←
                  new_eval_dataloader dev_data_set
                    (batch_size_eval (config self)) test_collater
                    (cuda (config self));
                Ok (Some dev_data)
              else Ok None);
  let dev_dataloaders_list := dev_dataloaders_list ++ [dev_data] in
  let test_path := path_join data_dir (dataset +:+ "_test.json") in
  test_data ← (if path_exists test_path then
                 test_data_set ←
                   new_single_task_dataset test_path false
                     (max_seq_len (config self)) task_id task_type data_type;
                 test_data ←
                   new_eval_dataloader test_data_set
                     (batch_size_eval (config self)) test_collater
                     (cuda (config self));
                 Ok (Some test_data)
               else Ok None);
  let test_dataloaders_list := test_dataloaders_list ++ [test_data] in
  Ok (dev_dataloaders_list, test_dataloaders_list).

Fixpoint dev_test_loop (datasets : list string) (self : Registry)
    (dev_dataloaders_list test_dataloaders_list : list (option EvalDataLoader))
    (test_collater : MTDNNCollater)
    : result (list (option EvalDataLoader) * list (option EvalDataLoader)) :=
  match datasets with
  | [] => Ok (dev_dataloaders_list, test_dataloaders_list)
  | dataset :: rest =>
      '(devs, tests) ← dev_test_iteration dataset self
                         dev_dataloaders_list test_dataloaders_list test_collater;
      dev_test_loop rest self devs tests test_collater
  end.

(** [_process_dev_test_datasets] *)
Definition process_dev_test_datasets (datasets : list string) (self : Registry)
    : result (list (option EvalDataLoader) * list (option EvalDataLoader)) :=
  let test_collater :=
    {| col_is_train := Some false; col_dropout_w := None;
       col_encoder_type := encoder_type (config self) |} in
  dev_test_loop datasets self [] [] test_collater.

(** What [__init__] leaves in the object. *)
Record MTDNNDataProcess : Type := {
  dp_registry : Registry;
  dp_train_datasets : list string;
  dp_test_datasets : list string;
  dp_multitask_train_dataloader : TrainDataLoader;
  dp_dev_dataloaders_list : list (option EvalDataLoader);
  dp_test_dataloaders_list : list (option EvalDataLoader);
  dp_num_all_batches : Z;
}.

(** [len(dataloader)] is the batch sampler's count of batches. *)
Variable dataloader_len : TrainDataLoader → Z.

Definition new_registry (c : MTDNNConfig) : Registry :=
  {| config := c; tasks := ∅; tasks_class := ∅; nclass_list := [];
     decoder_opts := []; task_types := []; dropout_list := [];
     loss_types := []; kd_loss_types := [] |}.

(** [MTDNNDataProcess.__init__] *)
Definition init_data_process (c : MTDNNConfig)
    (train_datasets_list test_datasets_list : list string)
    : result MTDNNDataProcess :=
  py_assert (1 <=? length train_datasets_list)%nat
    "Train dataset list cannot be empty";;
  py_assert (1 <=? length test_datasets_list)%nat
    "Test dataset list cannot be empty";;
  let self := new_registry c in
  '(self, train_dl) ← process_train_datasets train_datasets_list self;
  '(devs, tests) ← process_dev_test_datasets test_datasets_list self;
  (if grad_accumulation_step (config self) =? 0
   then Raise ZeroDivisionError else Ok tt);;
  Ok {| dp_registry := self;
        dp_train_datasets := train_datasets_list;
        dp_test_datasets := test_datasets_list;
        dp_multitask_train_dataloader := train_dl;
        dp_dev_dataloaders_list := devs;
        dp_test_dataloaders_list := tests;
        dp_num_all_batches :=
          epochs (config self) * dataloader_len train_dl
            / grad_accumulation_step (config self) |}.

End DataProcess.

(** *** Sample runs *)

Module Samples.

Definition defs : TaskDefs :=
  {| n_class_map := {[ "mnli"%string := 3; "snli"%string := 3; "sst"%string := 2 ]};
     data_type_map := {[ "mnli"%string := 1; "snli"%string := 1; "sst"%string := 0 ]};
     task_type_map := {[ "mnli"%string := Classification;
                         "snli"%string := Classification;
                         "sst"%string := Classification ]};
     enable_san_map := {[ "mnli"%string := true; "snli"%string := false;
                          "sst"%string := false ]};
     loss_map := {[ "mnli"%string := 0; "snli"%string := 0; "sst"%string := 0 ]};
     kd_loss_map := {[ "mnli"%string := 1; "snli"%string := 1; "sst"%string := 1 ]};
     dropout_p_map := {[ "sst"%string := 0.25%float ]};
     global_map := ∅;
     metric_meta_map := {[ "mnli"%string := [0]; "snli"%string := [0];
                           "sst"%string := [0] ]} |}.

Definition cfg (mtl : Z) : MTDNNConfig :=
  {| mtl_opt := mtl; answer_opt := 1;
     dropout_p := 0.5%float; dropout_w := 0.125%float;
     max_seq_len := 512; encoder_type := 1;
     batch_size := 8; batch_size_eval := 8; mix_opt := 0;
     ratio := 0%float; cuda := false; epochs := 1;
     grad_accumulation_step := 1; log_per_updates := 500;
     save_per_updates := 1; save_per_updates_on := true;
     use_tensor_board := false; use_glue_format := false;
     cfg_decoder_opts := None; cfg_task_types := None;
     cfg_tasks_dropout_p := None; cfg_loss_types := None;
     cfg_kd_loss_types := None; cfg_tasks_nclass_list := None |}.

(** A data directory holding every train file, and the dev file of
    [mnli_matched] only. *)
Definition exists_ (p : string) : bool :=
  bool_decide (p = "data/mnli_matched_dev.json"%string).
Definition readable_ (p : string) : bool := true.

Definition run (mtl : Z) (train : list string) : result (Registry * TrainDataLoader) :=
  process_train_datasets defs "data" readable_ train (new_registry (cfg mtl)).

End Samples.

(** ** MTDNNPipelineProcess *)

(** *** [datetime.timedelta]

    A timedelta is its total number of microseconds, a datetime the
    microseconds since the first instant of the calendar. *)

(** The constructor of [timedelta], through which every operation below
    builds its result: the microseconds are normalised to days, seconds
    and microseconds, and more than 999999999 days in magnitude are
    refused with [OverflowError]. *)
Definition timedelta_new (us : Z) : result Z :=
  if 999999999 <? Z.abs (us / 86400000000) then Raise OverflowError
  else Ok us.

(** [a - b] on datetimes. *)
Definition datetime_sub (a b : Z) : result Z := timedelta_new (a - b).

(** [datetime._divide_and_round]: nearest integer to [a / b], ties to
    even. *)
Definition divide_and_round (a b : Z) : Z :=
  let q := a / b in
  let r := 2 * (a mod b) in
  let greater_than_half := if 0 <? b then b <? r else r <? b in
  if (greater_than_half || ((r =? b) && (q mod 2 =? 1)))%bool
  then q + 1 else q.

(** [td / n] and [td * n] for an integer [n]. *)
Definition timedelta_div (td n : Z) : result Z :=
  if n =? 0 then Raise ZeroDivisionError
  else timedelta_new (divide_and_round td n).
Definition timedelta_mul (td n : Z) : result Z := timedelta_new (td * n).

Fixpoint zeros (n : nat) : string :=
  match n with
  | O => ""
  | S n => String "0" (zeros n)
  end.

(** ["%0wd" % n] for [0 <= n] *)
Definition zero_pad (w : nat) (n : Z) : string :=
  zeros (w - String.length (pretty n)) +:+ pretty n.

(** [str(td)]: ["[D day[s], ]H:MM:SS[.ffffff]"] *)
Definition timedelta_str (td : Z) : string :=
  let days := td / 86400000000 in
  let seconds := (td mod 86400000000) / 1000000 in
  let microseconds := td mod 1000000 in
  let mm := seconds / 60 in
  let ss := seconds mod 60 in
  let hh := mm / 60 in
  let mm := mm mod 60 in
  let s := pretty hh +:+ ":" +:+ zero_pad 2 mm +:+ ":" +:+ zero_pad 2 ss in
  let s := if days =? 0 then s
           else pretty days +:+ " day"
                +:+ (if Z.abs days =? 1 then "" else "s") +:+ ", " +:+ s in
  if microseconds =? 0 then s else s +:+ "." +:+ zero_pad 6 microseconds.

(** *** Batches, evaluation output and events *)

(** A batch as the driver sees it: the task id of its metadata; the rest
    of the metadata and the payload are opaque. *)
Record Batch : Type := {
  batch_task_id : nat;
  batch_meta : list Z;
  batch_data : list Z;
}.

Inductive MetricVal : Type :=
  | MNum (x : pyfloat)
  | MStr (s : string).

(** What [eval_model] returns. *)
Record EvalOutput : Type := {
  eo_metrics : list (string * MetricVal);
  eo_predictions : list Z;
  eo_scores : list pyfloat;
  eo_golds : list Z;
  eo_ids : list string;
}.

(** The dict written to a score file. *)
Record ScoreResults : Type := {
  res_metrics : list (string * MetricVal);
  res_predictions : list Z;
  res_uids : list string;
  res_scores : list pyfloat;
}.

(** What the driver does to the outside: log records, prints, metric
    scalars, files, and the calls that hand a dataloader or a path to the
    model. *)
Inductive event : Type :=
  | EvTensorBoardOpen (log_dir : string)
  | EvInfoTotalParams (n : Z)
  | EvInfoEpoch (epoch : Z)
  | EvPrintLength (n : Z)
  | EvInfoBatch (patched : bool) (idx : nat) (b : Batch)
  | EvPrintTimeLeft (time_left : string)
  | EvInfoTrain (task_id : nat) (updates : Z) (loss_avg : pyfloat)
      (time_left : string)
  | EvScalar (tag : string) (value : MetricVal) (global_step : Z)
  | EvInfoSaving (model_file : string)
  | EvModelSave (model_file : string)
  | EvEvalModel (data : EvalDataLoader) (with_label : bool)
  | EvWarnDev (dataset : string) (epoch : Z) (key : string) (val : MetricVal)
  | EvDump (score_file : string) (results : ScoreResults)
  | EvSubmit (official_score_file : string) (results : ScoreResults)
      (label_dict : option (list string))
  | EvInfoTestSaved
  | EvTensorBoardClose.

(** A computation that emits events and returns or raises; the events
    emitted before an exception stay emitted. *)
Record eff (A : Type) : Type := Eff {
  trace : list event;
  outcome : result A;
}.
Arguments Eff {A} trace outcome.
Arguments trace {A} e.
Arguments outcome {A} e.

Global Instance eff_ret : MRet eff := λ _ a, Eff [] (Ok a).
Global Instance eff_bind : MBind eff := λ _ _ k m,
  match outcome m with
  | Ok a => Eff (trace m ++ trace (k a)) (outcome (k a))
  | Raise e => Eff (trace m) (Raise e)
  end.

Definition emit (ev : event) : eff unit := Eff [ev] (Ok tt).
Definition lift {A} (r : result A) : eff A := Eff [] r.

(** *** Module-level names

    [fit] and [predict] read the names [output_dir], [epoch],
    [task_defs] and [args] without the [self.] qualifier: these are
    looked up among the globals of the module. *)
Record Args : Type := {
  args_cuda : bool;
  args_glue_format_on : bool;
}.

Record Globals : Type := {
  g_output_dir : option string;
  g_epoch : option Z;
  g_task_defs : option TaskDefs;
  g_args : option Args;
}.

(** The module binds, by its imports and definitions, [json], [logging],
    [os], [random], [datetime], [torch], [SummaryWriter], [BatchSampler],
    [DataLoader], [Dataset], [submit], [TaskType], [MTDNNCommonUtils],
    [MTDNNConfig], the four dataset classes, [MTDNNModel], [TaskDefs],
    [logger] and its own two classes: none of the four names. *)
Definition module_globals : Globals :=
  {| g_output_dir := None; g_epoch := None;
     g_task_defs := None; g_args := None |}.

Definition global_name {A} (name : string) (binding : option A) : result A :=
  match binding with
  | Some v => Ok v
  | None => Raise (NameError name)
  end.

(** The attributes of an [MTDNNPipelineProcess] object other than the
    model. *)
Record Pipeline : Type := {
  pp_config : MTDNNConfig;
  pp_task_defs : TaskDefs;
  pp_multitask_train_dataloader : TrainDataLoader;
  pp_dev_dataloaders_list : list (option EvalDataLoader);
  pp_test_dataloaders_list : list (option EvalDataLoader);
  pp_test_datasets_list : list string;
  pp_output_dir : string;
  pp_log_dir : string;
}.

Section PipelineProcess.

(** The model collaborator: its state, the counters and the loss average
    the driver reads, its update and inference steps. *)
Variable Model : Type.
Variable local_updates : Model → Z.
Variable updates : Model → Z.
Variable train_loss_avg : Model → pyfloat.
Variable total_param : Model → Z.
Variable model_update : Model → Batch → result Model.
Variable eval_model :
  Model → EvalDataLoader → list Z → bool → bool → option (list string) →
  TaskType → result (EvalOutput * Model).

(** [MTDNNCollater.patch_data] *)
Variable patch_data : bool → Batch → Batch.

(** The train dataloader: its length, and the batches its [k]-th pass
    yields. *)
Variable dataloader_len : TrainDataLoader → Z.
Variable dataloader_pass : TrainDataLoader → nat → list Batch.

(** [datetime.now()]: the [k]-th reading, in microseconds. *)
Variable clock : nat → Z.

(** The globals of the module when the methods run. *)
Variable genv : Globals.

(** The model and the number of clock readings taken so far. *)
Record RunState : Type := {
  rs_model : Model;
  rs_ticks : nat;
}.

Definition with_model (m : Model) (st : RunState) : RunState :=
  {| rs_model := m; rs_ticks := rs_ticks st |}.
Definition tick (st : RunState) : RunState :=
  {| rs_model := rs_model st; rs_ticks := S (rs_ticks st) |}.

(** [MTDNNPipelineProcess.__init__] *)
Definition init_pipeline (config : MTDNNConfig) (task_defs : TaskDefs)
    (multitask_train_dataloader : TrainDataLoader)
    (dev_dataloaders_list test_dataloaders_list : list (option EvalDataLoader))
    (test_datasets_list : list string) (output_dir log_dir : string)
    : eff Pipeline :=
  lift (py_assert (negb (dataloader_len multitask_train_dataloader =? 0))
          "DataLoader for multiple tasks cannot be None");;
  lift (py_assert (negb (bool_decide (test_datasets_list = [])))
          "Pass a list of test dataset prefixes");;
  emit (EvTensorBoardOpen log_dir);;
  mret {| pp_config := config; pp_task_defs := task_defs;
          pp_multitask_train_dataloader := multitask_train_dataloader;
          pp_dev_dataloaders_list := dev_dataloaders_list;
          pp_test_dataloaders_list := test_dataloaders_list;
          pp_test_datasets_list := test_datasets_list;
          pp_output_dir := output_dir; pp_log_dir := log_dir |}.

(** Lines 308-313: whether the log record is due. *)
Definition log_due (self : Pipeline) (model : Model) : result bool :=
  if local_updates model =? 1 then Ok true
  else
    m ← py_mod (local_updates model)
          (log_per_updates (pp_config self)
           * grad_accumulation_step (pp_config self));
    Ok (m =? 0).

(** Lines 331-335: whether the interval checkpoint is due. *)
Definition save_due (self : Pipeline) (model : Model) : result bool :=
  if save_per_updates_on (pp_config self) then
    m ← py_mod (local_updates model)
          (save_per_updates (pp_config self)
           * grad_accumulation_step (pp_config self));
    Ok (m =? 0)
  else Ok false.

(** Lines 315-319 *)
Definition time_left_of (self : Pipeline) (now start : Z) (idx : nat)
    : result string :=
  elapsed ← datetime_sub now start;
  per_batch ← timedelta_div elapsed (Z.of_nat idx + 1);
  time_left ← timedelta_mul per_batch
                (dataloader_len (pp_multitask_train_dataloader self)
                 - Z.of_nat idx - 1);
  Ok (split_head "." (timedelta_str time_left)).

(** Lines 308-329: the log record and the metric scalar, when due. *)
Definition fit_log (self : Pipeline) (start : Z) (idx : nat) (task_id : nat)
    (model : Model) (st : RunState) : eff RunState :=
  due ← lift (log_due self model);
  if due : bool then
    let now := clock (rs_ticks st) in
    let st := tick st in
    time_left ← lift (time_left_of self now start idx);
    emit (EvPrintTimeLeft time_left);;
    emit (EvInfoTrain task_id (updates model) (train_loss_avg model) time_left);;
    (if use_tensor_board (pp_config self) then
       emit (EvScalar "train/loss" (MNum (train_loss_avg model)) (updates model))
     else mret tt);;
    mret st
  else mret st.

(** Lines 331-340: the interval checkpoint, when due. *)
Definition fit_checkpoint (self : Pipeline) (epoch : Z) (model : Model)
    : eff unit :=
  due ← lift (save_due self model);
  if due : bool then
    output_dir ← lift (global_name "output_dir" (g_output_dir genv));
    let model_file :=
      path_join output_dir
        ("model_" +:+ pretty epoch +:+ "_" +:+ pretty (updates model) +:+ ".pt") in
    emit (EvInfoSaving model_file);;
    emit (EvModelSave model_file)
  else mret tt.

(** The body of the inner loop of [fit], for the batch at position
    [idx] of the epoch that started at [start]. *)
Definition fit_batch (self : Pipeline) (epoch : Z) (start : Z) (idx : nat)
    (batch : Batch) (st : RunState) : eff RunState :=
  emit (EvInfoBatch false idx batch);;
  let batch := patch_data (cuda (pp_config self)) batch in
  emit (EvInfoBatch true idx batch);;
  let task_id := batch_task_id batch in
  model ← lift (model_update (rs_model st) batch);
  let st := with_model model st in
  st ← fit_log self start idx task_id model st;
  fit_checkpoint self epoch model;;
  mret st.

Fixpoint fit_batches (self : Pipeline) (epoch : Z) (start : Z) (idx : nat)
    (batches : list Batch) (st : RunState) : eff RunState :=
  match batches with
  | [] => mret st
  | batch :: rest =>
      st ← fit_batch self epoch start idx batch st;
      fit_batches self epoch start (S idx) rest st
  end.

(** One epoch of [fit]. *)
Definition fit_epoch (self : Pipeline) (epoch : nat) (st : RunState)
    : eff RunState :=
  emit (EvInfoEpoch (Z.of_nat epoch));;
  let start := clock (rs_ticks st) in
  let st := tick st in
  emit (EvPrintLength (dataloader_len (pp_multitask_train_dataloader self)));;
  fit_batches self (Z.of_nat epoch) start 0
    (dataloader_pass (pp_multitask_train_dataloader self) epoch) st.

Fixpoint fit_epochs (self : Pipeline) (epoch count : nat) (st : RunState)
    : eff RunState :=
  match count with
  | O => mret st
  | S count =>
      st ← fit_epoch self epoch st;
      fit_epochs self (S epoch) count st
  end.

(** [fit(epochs)] *)
Definition fit (self : Pipeline) (epochs_arg : Z) (st : RunState)
    : eff RunState :=
  let epochs := if epochs_arg =? 0 then epochs (pp_config self) else epochs_arg in
  emit (EvInfoTotalParams (total_param (rs_model st)));;
  fit_epochs self 0 (Z.to_nat epochs) st.

(** [SummaryWriter.add_scalar(tag, value, global_step=...)] of
    tensorboardX: a number is written to the sink; a string is refused
    with [TypeError] and nothing is written. *)
Definition add_scalar (tag : string) (value : MetricVal) (global_step : Z)
    : eff unit :=
  match value with
  | MNum _ => emit (EvScalar tag value global_step)
  | MStr _ => lift (Raise TypeError)
  end.

(** Lines 357-363: the metrics of the dev split, logged key by key.  The
    scalar is written before the value is tested for being a string. *)
Fixpoint report_dev_metrics (self : Pipeline) (dataset : string)
    (metrics : list (string * MetricVal)) : eff unit :=
  match metrics with
  | [] => mret tt
  | (key, val) :: rest =>
      (if use_tensor_board (pp_config self) then
         epoch ← lift (global_name "epoch" (g_epoch genv));
         add_scalar ("dev/" +:+ dataset +:+ "/" +:+ key) val epoch
       else mret tt);;
      epoch ← lift (global_name "epoch" (g_epoch genv));
      emit (EvWarnDev dataset epoch key val);;
      report_dev_metrics self dataset rest
  end.

(** Lines 349-378: the dev phase of one test dataset. *)
Definition predict_dev (self : Pipeline) (dataset : string)
    (label_dict : option (list string)) (dev_data : EvalDataLoader)
    (st : RunState) : eff RunState :=
  let prefix := split_prefix dataset in
  task_defs ← lift (global_name "task_defs" (g_task_defs genv));
  metric_meta ← lift (getitem (metric_meta_map task_defs) prefix);
  args ← lift (global_name "args" (g_args genv));
  task_type ← lift (getitem (task_type_map task_defs) prefix);
  emit (EvEvalModel dev_data true);;
  '(out, model) ← lift (eval_model (rs_model st) dev_data metric_meta
                          (args_cuda args) true label_dict task_type);
  let st := with_model model st in
  report_dev_metrics self dataset (eo_metrics out);;
  output_dir ← lift (global_name "output_dir" (g_output_dir genv));
  epoch ← lift (global_name "epoch" (g_epoch genv));
  let score_file :=
    path_join output_dir
      (dataset +:+ "_dev_scores_" +:+ pretty epoch +:+ ".json") in
  let results :=
    {| res_metrics := eo_metrics out; res_predictions := eo_predictions out;
       res_uids := eo_ids out; res_scores := eo_scores out |} in
  emit (EvDump score_file results);;
  (if use_glue_format (pp_config self) then
     output_dir ← lift (global_name "output_dir" (g_output_dir genv));
     epoch ← lift (global_name "epoch" (g_epoch genv));
     let official_score_file :=
       path_join output_dir
         (dataset +:+ "_dev_scores_" +:+ pretty epoch +:+ ".tsv") in
     emit (EvSubmit official_score_file results label_dict)
   else mret tt);;
  mret st.

(** Lines 383-405: the test phase of one test dataset. *)
Definition predict_test (self : Pipeline) (dataset : string)
    (label_dict : option (list string)) (test_data : EvalDataLoader)
    (st : RunState) : eff RunState :=
  let prefix := split_prefix dataset in
  task_defs ← lift (global_name "task_defs" (g_task_defs genv));
  metric_meta ← lift (getitem (metric_meta_map task_defs) prefix);
  args ← lift (global_name "args" (g_args genv));
  task_type ← lift (getitem (task_type_map task_defs) prefix);
  emit (EvEvalModel test_data false);;
  '(out, model) ← lift (eval_model (rs_model st) test_data metric_meta
                          (args_cuda args) false label_dict task_type);
  let st := with_model model st in
  output_dir ← lift (global_name "output_dir" (g_output_dir genv));
  epoch ← lift (global_name "epoch" (g_epoch genv));
  let score_file :=
    path_join output_dir
      (dataset +:+ "_test_scores_" +:+ pretty epoch +:+ ".json") in
  let results :=
    {| res_metrics := eo_metrics out; res_predictions := eo_predictions out;
       res_uids := eo_ids out; res_scores := eo_scores out |} in
  emit (EvDump score_file results);;
  args ← lift (global_name "args" (g_args genv));
  (if args_glue_format_on args then
     output_dir ← lift (global_name "output_dir" (g_output_dir genv));
     epoch ← lift (global_name "epoch" (g_epoch genv));
     let official_score_file :=
       path_join output_dir
         (dataset +:+ "_test_scores_" +:+ pretty epoch +:+ ".tsv") in
     emit (EvSubmit official_score_file results label_dict)
   else mret tt);;
  emit EvInfoTestSaved;;
  mret st.

(** The body of the loop of [predict]. *)
Definition predict_iteration (self : Pipeline) (idx : nat) (dataset : string)
    (st : RunState) : eff RunState :=
  let prefix := split_prefix dataset in
  let label_dict := global_map (pp_task_defs self) !! prefix in
  dev_data ← lift (list_getitem (pp_dev_dataloaders_list self) idx);
  st ← match dev_data with
       | Some dev_data => predict_dev self dataset label_dict dev_data st
       | None => mret st
       end;
  test_data ← lift (list_getitem (pp_test_dataloaders_list self) idx);
  match test_data with
  | Some test_data => predict_test self dataset label_dict test_data st
  | None => mret st
  end.

Fixpoint predict_loop (self : Pipeline) (idx : nat) (datasets : list string)
    (st : RunState) : eff RunState :=
  match datasets with
  | [] => mret st
  | dataset :: rest =>
      st ← predict_iteration self idx dataset st;
      predict_loop self (S idx) rest st
  end.

(** [close_connections] *)
Definition close_connections (self : Pipeline) : eff unit :=
  if use_tensor_board (pp_config self) then emit EvTensorBoardClose
  else mret tt.

(** [predict] *)
Definition predict (self : Pipeline) (st : RunState) : eff RunState :=
  st ← predict_loop self 0 (pp_test_datasets_list self) st;
  output_dir ← lift (global_name "output_dir" (g_output_dir genv));
  epoch ← lift (global_name "epoch" (g_epoch genv));
  let model_file := path_join output_dir ("model_" +:+ pretty epoch +:+ ".pt") in
  emit (EvModelSave model_file);;
  close_connections self;;
  mret st.

End PipelineProcess.

Arguments rs_model {Model} _.
Arguments rs_ticks {Model} _.
Arguments with_model {Model} _ _.
Arguments tick {Model} _.

(** ** Vocabulary of the statements

    The notions the lemmas and theorems below are stated with. *)

(** A dict that numbers its keys in insertion order: key [l !! i] has
    value [i].  Both [tasks] and [tasks_class] are filled this way, by
    [d[k] = len(d)] on keys not yet present. *)
Definition indexed `{Countable K} (m : gmap K nat) (l : list K) : Prop :=
  size m = length l ∧ ∀ x i, m !! x = Some i ↔ l !! i = Some x.

(** The distinct elements of a list in first-seen order. *)
Definition see {A} `{EqDecision A} (l : list A) (x : A) : list A :=
  if decide (x ∈ l) then l else l ++ [x].

Definition first_seen {A} `{EqDecision A} (l : list A) : list A :=
  foldl see [] l.

(** The id the loop body picks for a new prefix with label count
    [nclass]. *)
Definition assigned_id (self : Registry) (nclass : Z) : nat :=
  if 0 <? mtl_opt (config self) then
    match tasks_class self !! nclass with
    | Some i => i
    | None => size (tasks_class self)
    end
  else size (tasks self).

(** The registry after the loop body has registered a new prefix, in
    closed form. *)
Definition registered (self : Registry) (prefix : string) (nclass : Z)
    (task_type : TaskType) (dopt : Z) (loss kd_loss : LossType)
    (dropout : pyfloat) : Registry :=
  let task_id := assigned_id self nclass in
  let fresh_class := negb (contains (tasks_class self) nclass) in
  {| config := config self;
     tasks := <[prefix := size (tasks self)]> (tasks self);
     tasks_class :=
       if fresh_class
       then <[nclass := size (tasks_class self)]> (tasks_class self)
       else tasks_class self;
     nclass_list :=
       (if mtl_opt (config self) <? 1 then nclass_list self ++ [nclass]
        else nclass_list self)
       ++ (if (fresh_class && (0 <? mtl_opt (config self)))%bool
           then [nclass] else []);
     decoder_opts :=
       match decoder_opts self !! task_id with
       | Some cur => <[task_id := Z.min cur dopt]> (decoder_opts self)
       | None => decoder_opts self ++ [dopt]
       end;
     task_types := task_types self ++ [task_type];
     dropout_list := dropout_list self ++ [dropout];
     loss_types := loss_types self ++ [loss];
     kd_loss_types := kd_loss_types self ++ [kd_loss] |}.

(** Six sequences in the config, all of length [k]. *)
Definition six_aligned (c : MTDNNConfig) (k : nat) : Prop :=
  ∃ d t dr l kd n,
    cfg_decoder_opts c = Some d ∧ cfg_task_types c = Some t ∧
    cfg_tasks_dropout_p c = Some dr ∧ cfg_loss_types c = Some l ∧
    cfg_kd_loss_types c = Some kd ∧ cfg_tasks_nclass_list c = Some n ∧
    length d = k ∧ length t = k ∧ length dr = k ∧ length l = k ∧
    length kd = k ∧ length n = k.

(** The collater [_process_dev_test_datasets] builds. *)
Definition test_collater_of (self : Registry) : MTDNNCollater :=
  {| col_is_train := Some false; col_dropout_w := None;
     col_encoder_type := encoder_type (config self) |}.

Section RegistrationVocabulary.

Variable task_defs : TaskDefs.

(** What the task definitions and the config give for a prefix. *)
Definition dopt_of (c : MTDNNConfig) (p : string) : option Z :=
  (λ san, generate_decoder_opt san (answer_opt c))
    <$> enable_san_map task_defs !! p.

Definition dropout_of (c : MTDNNConfig) (p : string) : pyfloat :=
  default (dropout_p c) (dropout_p_map task_defs !! p).

(** [d] is the least decoder option among the prefixes of [ps] whose
    label count is [n]. *)
Definition least_dopt (c : MTDNNConfig) (ps : list string) (n d : Z) : Prop :=
  (∃ p, p ∈ ps ∧ n_class_map task_defs !! p = Some n ∧ dopt_of c p = Some d) ∧
  (∀ p d', p ∈ ps → n_class_map task_defs !! p = Some n →
           dopt_of c p = Some d' → d ≤ d').

(** The id [_process_dev_test_datasets] reads back for a prefix
    (lines 162-166), as an option. *)
Definition resolved_id (self : Registry) (p : string) : option nat :=
  if 0 <? mtl_opt (config self) then
    n ← n_class_map task_defs !! p; tasks_class self !! n
  else tasks self !! p.

(** [ps] are the registered prefixes and [cs] their label counts, both
    without repetition and in first-seen order. *)
Record train_inv (ps : list string) (cs : list Z) (r : Registry)
    (tds : list MTDNNSingleTaskDataset) : Prop := {
  inv_tasks : indexed (tasks r) ps;
  inv_tasks_class : indexed (tasks_class r) cs;
  inv_cs_ps : ∀ n, n ∈ cs ↔ ∃ p, p ∈ ps ∧ n_class_map task_defs !! p = Some n;
  inv_task_types :
    Forall2 (λ p t, task_type_map task_defs !! p = Some t) ps (task_types r);
  inv_loss_types :
    Forall2 (λ p l, loss_map task_defs !! p = Some l) ps (loss_types r);
  inv_kd_loss_types :
    Forall2 (λ p l, kd_loss_map task_defs !! p = Some l) ps (kd_loss_types r);
  inv_dropout_list : dropout_list r = dropout_of (config r) <$> ps;
  inv_nclass_list :
    if 0 <? mtl_opt (config r) then nclass_list r = cs
    else Forall2 (λ p n, n_class_map task_defs !! p = Some n) ps (nclass_list r);
  inv_decoder_opts :
    if 0 <? mtl_opt (config r)
    then Forall2 (least_dopt (config r) ps) cs (decoder_opts r)
    else Forall2 (λ p d, dopt_of (config r) p = Some d) ps (decoder_opts r);
  inv_train_datasets :
    Forall2 (λ p ds, resolved_id r p = Some (sd_task_id ds)) ps tds;
}.

(** The label counts of the prefixes [ps], in first-seen order. *)
Definition classes_of (ps : list string) : list Z :=
  first_seen (omap (λ p, n_class_map task_defs !! p) ps).

End RegistrationVocabulary.

Section DevTestVocabulary.

Variable task_defs : TaskDefs.
Variable data_dir : string.
Variable path_exists : string → bool.
Variable readable : string → bool.

(** The entry the loop body appends for one split of a dataset: a
    dataloader over the split file when it exists, [None] otherwise. *)
Definition split_entry (self : Registry) (test_collater : MTDNNCollater)
    (path : string) (task_id : nat) (task_type : TaskType)
    (data_type : DataType) : option EvalDataLoader :=
  if path_exists path then
    Some {| edl_dataset :=
              {| sd_path := path; sd_is_train := false;
                 sd_maxlen := max_seq_len (config self);
                 sd_task_id := task_id; sd_task_type := task_type;
                 sd_data_type := data_type |};
            edl_batch_size := batch_size_eval (config self);
            edl_collater := test_collater;
            edl_pin_memory := cuda (config self) |}
  else None.

Definition dev_path (dataset : string) : string :=
  path_join data_dir (dataset +:+ "_dev.json").
Definition test_path (dataset : string) : string :=
  path_join data_dir (dataset +:+ "_test.json").

(** A test dataset whose iteration cannot raise: its prefix resolves to an
    id and has a task type and a data type, its split files, where
    present, can be read, and where one is present the evaluation batch
    size is positive. *)
Definition loadable (self : Registry) (dataset : string) : Prop :=
  (∃ id, test_task_id task_defs self (split_prefix dataset) = Ok id) ∧
  is_Some (task_type_map task_defs !! split_prefix dataset) ∧
  is_Some (data_type_map task_defs !! split_prefix dataset) ∧
  (path_exists (dev_path dataset) = true → readable (dev_path dataset) = true) ∧
  (path_exists (test_path dataset) = true → readable (test_path dataset) = true) ∧
  (path_exists (dev_path dataset) = true ∨ path_exists (test_path dataset) = true →
   0 < batch_size_eval (config self)).

(** What entry [i] of the two lists is built from. *)
Definition entries_of (self : Registry) (test_collater : MTDNNCollater)
    (dataset : string) (dev test : option EvalDataLoader) : Prop :=
  ∃ id task_type data_type,
    test_task_id task_defs self (split_prefix dataset) = Ok id ∧
    task_type_map task_defs !! split_prefix dataset = Some task_type ∧
    data_type_map task_defs !! split_prefix dataset = Some data_type ∧
    dev = split_entry self test_collater (dev_path dataset) id task_type data_type ∧
    test = split_entry self test_collater (test_path dataset) id task_type data_type.

End DevTestVocabulary.

(** A number of microseconds that a [timedelta] holds: at most 999999999
    days in magnitude. *)
Definition timedelta_in_range (us : Z) : Prop :=
  Z.abs (us / 86400000000) <= 999999999.

(** [q] is the integer nearest to [a / b], and the even one of the two
    nearest when [a / b] lies halfway between them ([0 < b]). *)
Definition nearest_even (a b q : Z) : Prop :=
  2 * Z.abs (a - q * b) <= b ∧
  (2 * Z.abs (a - q * b) = b → Z.even q = true).

(** [str(td).split(".")[0]] *)
Definition time_text (td : Z) : string := split_head "." (timedelta_str td).

Section PipelineVocabulary.

Variable Model : Type.
Variable local_updates : Model → Z.
Variable dataloader_len : TrainDataLoader → Z.
Variable genv : Globals.

(** The remaining-time text of the log record: the time since the epoch
    started, divided by the batches done and rounded to the nearest
    microsecond, times the batches left, printed without its fraction of
    a second; the elapsed time and the estimate are each a timedelta. *)
Definition remaining_time (self : Pipeline) (now start : Z) (idx : nat)
    (text : string) : Prop :=
  let elapsed := now - start in
  let batches_left :=
    dataloader_len (pp_multitask_train_dataloader self) - Z.of_nat idx - 1 in
  ∃ per_batch,
    nearest_even elapsed (Z.of_nat idx + 1) per_batch ∧
    timedelta_in_range elapsed ∧
    timedelta_in_range (per_batch * batches_left) ∧
    text = time_text (per_batch * batches_left).

(** The condition of lines 308-313 as a proposition. *)
Definition log_cadence (self : Pipeline) (model : Model) : Prop :=
  local_updates model = 1 ∨
  py_mod (local_updates model)
    (log_per_updates (pp_config self) * grad_accumulation_step (pp_config self))
  = Ok 0.

(** The condition of lines 331-335 as a proposition. *)
Definition save_cadence (self : Pipeline) (model : Model) : Prop :=
  save_per_updates_on (pp_config self) = true ∧
  py_mod (local_updates model)
    (save_per_updates (pp_config self) * grad_accumulation_step (pp_config self))
  = Ok 0.

(** What the dev phase of [dataset] can emit: the inference call with
    labels, metric scalars and metric log records, and the dev score
    files. *)
Definition dev_split_event (dataset : string) (ev : event) : Prop :=
  match ev with
  | EvEvalModel _ true => True
  | EvScalar _ _ _ | EvWarnDev _ _ _ _ => True
  | EvDump f _ =>
      ∃ dir ep, g_output_dir genv = Some dir ∧ g_epoch genv = Some ep ∧
        f = path_join dir (dataset +:+ "_dev_scores_" +:+ pretty ep +:+ ".json")
  | EvSubmit f _ _ =>
      ∃ dir ep, g_output_dir genv = Some dir ∧ g_epoch genv = Some ep ∧
        f = path_join dir (dataset +:+ "_dev_scores_" +:+ pretty ep +:+ ".tsv")
  | _ => False
  end.

(** What the test phase of [dataset] can emit: the inference call without
    labels, the test score files, and the closing log record. *)
Definition test_split_event (dataset : string) (ev : event) : Prop :=
  match ev with
  | EvEvalModel _ false => True
  | EvInfoTestSaved => True
  | EvDump f _ =>
      ∃ dir ep, g_output_dir genv = Some dir ∧ g_epoch genv = Some ep ∧
        f = path_join dir (dataset +:+ "_test_scores_" +:+ pretty ep +:+ ".json")
  | EvSubmit f _ _ =>
      ∃ dir ep, g_output_dir genv = Some dir ∧ g_epoch genv = Some ep ∧
        f = path_join dir (dataset +:+ "_test_scores_" +:+ pretty ep +:+ ".tsv")
  | _ => False
  end.

End PipelineVocabulary.

(** *** A sample pipeline

    A model that counts its updates, a dataloader of four batches, and a
    clock that advances three seconds per reading. *)
Module PipelineSamples.

Definition local_updates (m : Z) : Z := m.
Definition updates (m : Z) : Z := m.
Definition train_loss_avg (m : Z) : pyfloat := 0.5%float.
Definition model_update (m : Z) (b : Batch) : result Z := Ok (m + 1).
Definition patch_data (cuda : bool) (b : Batch) : Batch := b.
Definition dataloader_len (dl : TrainDataLoader) : Z := 4.
Definition clock (k : nat) : Z := 3000000 * Z.of_nat k.

Definition eval_model (m : Z) (data : EvalDataLoader) (metric_meta : list Z)
    (use_cuda with_label : bool) (label_mapper : option (list string))
    (task_type : TaskType) : result (EvalOutput * Z) :=
  Ok ({| eo_metrics := [("ACC"%string, MNum 0.5%float)];
         eo_predictions := [1]; eo_scores := [0.5%float];
         eo_golds := [1]; eo_ids := ["0"%string] |}, m).

Definition loader : TrainDataLoader :=
  {| tdl_dataset := [];
     tdl_batch_sampler :=
       {| bs_datasets := []; bs_batch_size := 8; bs_mix_opt := 0;
          bs_ratio := 0%float |};
     tdl_collater :=
       {| col_is_train := None; col_dropout_w := Some 0.125%float;
          col_encoder_type := 1 |};
     tdl_pin_memory := false |}.

(** Class sharing off, a checkpoint every update
    ([save_per_updates = 1], [grad_accumulation_step = 1]), and one test
    dataset with neither a dev nor a test file. *)
Definition pipeline : Pipeline :=
  {| pp_config := Samples.cfg 0; pp_task_defs := Samples.defs;
     pp_multitask_train_dataloader := loader;
     pp_dev_dataloaders_list := [None];
     pp_test_dataloaders_list := [None];
     pp_test_datasets_list := ["mnli"%string];
     pp_output_dir := "checkpoint"; pp_log_dir := "tensorboard_logdir" |}.

Definition batch : Batch :=
  {| batch_task_id := 0; batch_meta := []; batch_data := [101; 102] |}.

(** The first batch of an epoch that started at the clock's first
    reading. *)
Definition first_batch (genv : Globals) : eff (RunState Z) :=
  fit_batch Z local_updates updates train_loss_avg model_update patch_data
    dataloader_len clock genv pipeline 0 (clock 0) 0 batch
    {| rs_model := 0; rs_ticks := 1 |}.

Definition total_param (m : Z) : Z := 1000.
Definition dataloader_pass (dl : TrainDataLoader) (k : nat) : list Batch :=
  [batch; batch; batch; batch].

(** [fit()] on a fresh model. *)
Definition training (genv : Globals) : eff (RunState Z) :=
  fit Z local_updates updates train_loss_avg total_param model_update
    patch_data dataloader_len dataloader_pass clock genv pipeline 0
    {| rs_model := 0; rs_ticks := 0 |}.

Definition evaluation (genv : Globals) : eff (RunState Z) :=
  predict Z eval_model genv pipeline {| rs_model := 1; rs_ticks := 2 |}.

(** The same pipeline with a dev dataloader for its test dataset. *)
Definition dev_loader : EvalDataLoader :=
  {| edl_dataset :=
       {| sd_path := "data/mnli_dev.json"; sd_is_train := false;
          sd_maxlen := 512; sd_task_id := 0; sd_task_type := Classification;
          sd_data_type := 1 |};
     edl_batch_size := 8;
     edl_collater := {| col_is_train := Some false; col_dropout_w := None;
                        col_encoder_type := 1 |};
     edl_pin_memory := false |}.

Definition pipeline_with_dev : Pipeline :=
  {| pp_config := Samples.cfg 0; pp_task_defs := Samples.defs;
     pp_multitask_train_dataloader := loader;
     pp_dev_dataloaders_list := [Some dev_loader];
     pp_test_dataloaders_list := [None];
     pp_test_datasets_list := ["mnli"%string];
     pp_output_dir := "checkpoint"; pp_log_dir := "tensorboard_logdir" |}.

Definition evaluation_with_dev (genv : Globals) : eff (RunState Z) :=
  predict Z eval_model genv pipeline_with_dev {| rs_model := 1; rs_ticks := 2 |}.

End PipelineSamples.

(** *** Further vocabulary *)

(** The datasets at which the registration loop meets a new prefix, in
    order. *)
Definition see_dataset (acc : list string) (dataset : string) : list string :=
  if decide (split_prefix dataset ∈ split_prefix <$> acc) then acc
  else acc ++ [dataset].

Definition first_by_prefix (datasets : list string) : list string :=
  foldl see_dataset [] datasets.

Section FurtherRegistrationVocabulary.

Variable task_defs : TaskDefs.
Variable data_dir : string.

(** The training dataset object the loop builds for a dataset: its file,
    its flags, and the task type and data type of its prefix. *)
Definition built_from (c : MTDNNConfig) (dataset : string)
    (td : MTDNNSingleTaskDataset) : Prop :=
  sd_path td = path_join data_dir (dataset +:+ "_train.json") ∧
  sd_is_train td = true ∧
  sd_maxlen td = max_seq_len c ∧
  task_type_map task_defs !! split_prefix dataset = Some (sd_task_type td) ∧
  data_type_map task_defs !! split_prefix dataset = Some (sd_data_type td).

End FurtherRegistrationVocabulary.

Section FurtherPipelineVocabulary.

Variable Model : Type.
Variable model_update : Model → Batch → result Model.
Variable patch_data : bool → Batch → Batch.
Variable dataloader_pass : TrainDataLoader → nat → list Batch.

(** The update step applied to a list of batches in order, each batch
    after [patch_data]. *)
Fixpoint apply_updates (cuda : bool) (batches : list Batch) (m : Model)
    : result Model :=
  match batches with
  | [] => Ok m
  | batch :: rest =>
      m ← model_update m (patch_data cuda batch);
      apply_updates cuda rest m
  end.

(** The batches of [count] passes over the dataloader, from pass
    [first] on. *)
Definition all_batches (dl : TrainDataLoader) (first count : nat) : list Batch :=
  concat (dataloader_pass dl <$> seq first count).

End FurtherPipelineVocabulary.

(** The number of epochs [fit(epochs)] runs: [epochs or config.epochs],
    none when that is negative. *)
Definition epochs_to_run (self : Pipeline) (epochs_arg : Z) : nat :=
  Z.to_nat (if epochs_arg =? 0 then epochs (pp_config self) else epochs_arg).

(** The same pipeline object with other [output_dir] and [log_dir]
    attributes. *)
Definition with_dirs (output_dir log_dir : string) (self : Pipeline) : Pipeline :=
  {| pp_config := pp_config self; pp_task_defs := pp_task_defs self;
     pp_multitask_train_dataloader := pp_multitask_train_dataloader self;
     pp_dev_dataloaders_list := pp_dev_dataloaders_list self;
     pp_test_dataloaders_list := pp_test_dataloaders_list self;
     pp_test_datasets_list := pp_test_datasets_list self;
     pp_output_dir := output_dir; pp_log_dir := log_dir |}.

(** A metric value that is a number, and a dict of metrics that holds
    numbers only. *)
Definition is_number (val : MetricVal) : bool :=
  match val with
  | MNum _ => true
  | MStr _ => false
  end.

Definition numeric (metrics : list (string * MetricVal)) : Prop :=
  Forall (λ metric, is_number (snd metric) = true) metrics.

(** What lines 357-363 emit for one metric of the dev split at epoch
    [ep]. *)
Definition metric_events (self : Pipeline) (dataset : string) (ep : Z)
    (metric : string * MetricVal) : list event :=
  (if use_tensor_board (pp_config self)
   then [EvScalar ("dev/" +:+ dataset +:+ "/" +:+ fst metric) (snd metric) ep]
   else [])
  ++ [EvWarnDev dataset ep (fst metric) (snd metric)].

(** The four names bound as module globals. *)
Definition bound_globals (output_dir : string) (epoch : Z)
    (task_defs : TaskDefs) (args : Args) : Globals :=
  {| g_output_dir := Some output_dir; g_epoch := Some epoch;
     g_task_defs := Some task_defs; g_args := Some args |}.

(** *** Further sample runs *)
Module FurtherSamples.

(** The sample config with other intervals: no interval checkpoints, and
    a log record every [log_per] updates. *)
Definition cfg_quiet (log_per : Z) : MTDNNConfig :=
  {| mtl_opt := 0; answer_opt := 1;
     dropout_p := 0.5%float; dropout_w := 0.125%float;
     max_seq_len := 512; encoder_type := 1;
     batch_size := 8; batch_size_eval := 8; mix_opt := 0;
     ratio := 0%float; cuda := false; epochs := 1;
     grad_accumulation_step := 1; log_per_updates := log_per;
     save_per_updates := 1; save_per_updates_on := false;
     use_tensor_board := false; use_glue_format := false;
     cfg_decoder_opts := None; cfg_task_types := None;
     cfg_tasks_dropout_p := None; cfg_loss_types := None;
     cfg_kd_loss_types := None; cfg_tasks_nclass_list := None |}.

Definition quiet_pipeline (log_per : Z) : Pipeline :=
  {| pp_config := cfg_quiet log_per; pp_task_defs := Samples.defs;
     pp_multitask_train_dataloader := PipelineSamples.loader;
     pp_dev_dataloaders_list := [None];
     pp_test_dataloaders_list := [None];
     pp_test_datasets_list := ["mnli"%string];
     pp_output_dir := "checkpoint"; pp_log_dir := "tensorboard_logdir" |}.

(** The sample config with the tensor board in use and no interval
    checkpoints, and a pipeline under it with a dev dataloader for its
    test dataset. *)
Definition cfg_board : MTDNNConfig :=
  {| mtl_opt := 0; answer_opt := 1;
     dropout_p := 0.5%float; dropout_w := 0.125%float;
     max_seq_len := 512; encoder_type := 1;
     batch_size := 8; batch_size_eval := 8; mix_opt := 0;
     ratio := 0%float; cuda := false; epochs := 1;
     grad_accumulation_step := 1; log_per_updates := 500;
     save_per_updates := 1; save_per_updates_on := false;
     use_tensor_board := true; use_glue_format := false;
     cfg_decoder_opts := None; cfg_task_types := None;
     cfg_tasks_dropout_p := None; cfg_loss_types := None;
     cfg_kd_loss_types := None; cfg_tasks_nclass_list := None |}.

Definition board_pipeline : Pipeline :=
  {| pp_config := cfg_board; pp_task_defs := Samples.defs;
     pp_multitask_train_dataloader := PipelineSamples.loader;
     pp_dev_dataloaders_list := [Some PipelineSamples.dev_loader];
     pp_test_dataloaders_list := [None];
     pp_test_datasets_list := ["mnli"%string];
     pp_output_dir := "checkpoint"; pp_log_dir := "tensorboard_logdir" |}.

(** The sample pipeline with two test datasets and one entry in each
    loader list. *)
Definition short_pipeline : Pipeline :=
  {| pp_config := Samples.cfg 0; pp_task_defs := Samples.defs;
     pp_multitask_train_dataloader := PipelineSamples.loader;
     pp_dev_dataloaders_list := [Some PipelineSamples.dev_loader];
     pp_test_dataloaders_list := [None];
     pp_test_datasets_list := ["mnli_matched"; "mnli_mismatched"]%string;
     pp_output_dir := "checkpoint"; pp_log_dir := "tensorboard_logdir" |}.

Definition args : Args := {| args_cuda := false; args_glue_format_on := false |}.

(** The module after [output_dir], [epoch], [task_defs] and [args] have
    been bound in it. *)
Definition genv : Globals := bound_globals "out" 0 Samples.defs args.

(** [fit()] of the quiet pipeline on a fresh model. *)
Definition quiet_training (log_per : Z) : eff (RunState Z) :=
  fit Z PipelineSamples.local_updates PipelineSamples.updates
    PipelineSamples.train_loss_avg PipelineSamples.total_param
    PipelineSamples.model_update PipelineSamples.patch_data
    PipelineSamples.dataloader_len PipelineSamples.dataloader_pass
    PipelineSamples.clock module_globals (quiet_pipeline log_per) 0
    {| rs_model := 0; rs_ticks := 0 |}.

(** A train dataloader that reports [2 ** 62] batches, and [fit()] over
    it on a fresh model; of a pass the run consumes the first batch. *)
Definition long_len (dl : TrainDataLoader) : Z := 4611686018427387904.
Definition long_pass (dl : TrainDataLoader) (k : nat) : list Batch :=
  [PipelineSamples.batch].

Definition long_training : eff (RunState Z) :=
  fit Z PipelineSamples.local_updates PipelineSamples.updates
    PipelineSamples.train_loss_avg PipelineSamples.total_param
    PipelineSamples.model_update PipelineSamples.patch_data
    long_len long_pass PipelineSamples.clock module_globals
    (quiet_pipeline 500) 0 {| rs_model := 0; rs_ticks := 0 |}.

(** The constructor of the data process on the sample directory. *)
Definition construction (c : MTDNNConfig) (train tests : list string)
    : result MTDNNDataProcess :=
  init_data_process Samples.defs "data" Samples.exists_ Samples.readable_
    PipelineSamples.dataloader_len c train tests.

End FurtherSamples.

(** * Lemmas and theorems *)

(** ** The decoder option *)

(** C9: the decoder option is [max_opt] when [enable_san] holds and
    [max_opt < 3], and [0] otherwise; in particular it is 2 at (True, 2),
    0 at (True, 3) and 0 at (False, 2). *)
Theorem generate_decoder_opt_spec (enable_san : bool) (max_opt : Z) :
  ((enable_san = true ∧ max_opt < 3) →
     generate_decoder_opt enable_san max_opt = max_opt) ∧
  (¬ (enable_san = true ∧ max_opt < 3) →
     generate_decoder_opt enable_san max_opt = 0) ∧
  generate_decoder_opt true 2 = 2 ∧
  generate_decoder_opt true 3 = 0 ∧
  generate_decoder_opt false 2 = 0.
Proof.
  unfold generate_decoder_opt.
  repeat split; try reflexivity.
  - intros [-> Hlt]. cbn. destruct (Z.ltb_spec max_opt 3); [done | lia].
  - intros Hn. destruct enable_san; cbn; [| done].
    destruct (Z.ltb_spec max_opt 3); [| done].
    exfalso. apply Hn. done.
Qed.

(** ** Properties of the registration loop *)

Lemma contains_lookup `{Countable K} {V} (d : gmap K V) (key : K) :
  contains d key = match d !! key with Some _ => true | None => false end.
Proof.
  unfold contains. destruct (d !! key) eqn:E.
  - apply bool_decide_eq_true. eauto.
  - apply bool_decide_eq_false. intros [? ?]. congruence.
Qed.

Section Indexed.
Context `{Countable K}.

#[local] Abbreviation indexed := (indexed (K:=K)).

Lemma indexed_empty : indexed (∅ : gmap K nat) [].
Proof.
  split; [by rewrite map_size_empty |].
  intros x i. by rewrite lookup_empty, lookup_nil.
Qed.

Lemma indexed_elem_of m l x : indexed m l → x ∈ l ↔ is_Some (m !! x).
Proof.
  intros [_ Hm]. rewrite list_elem_of_lookup. unfold is_Some.
  by setoid_rewrite Hm.
Qed.

Lemma indexed_lookup_lt m l x i :
  indexed m l → m !! x = Some i → (i < length l)%nat.
Proof. intros [_ Hm] Hx. apply Hm in Hx. by eapply lookup_lt_Some. Qed.

Lemma indexed_NoDup m l : indexed m l → NoDup l.
Proof.
  intros [_ Hm]. apply NoDup_alt. intros i j x Hi Hj.
  apply Hm in Hi, Hj. congruence.
Qed.

Lemma indexed_insert m l k :
  indexed m l → m !! k = None → indexed (<[k := size m]> m) (l ++ [k]).
Proof.
  intros [Hsz Hm] Hk. split.
  - rewrite map_size_insert_None, length_app by done. cbn. lia.
  - intros x i. destruct (decide (k = x)) as [<- | Hne].
    + rewrite lookup_insert_eq, Hsz. split.
      * intros [= <-]. by rewrite lookup_app_r, Nat.sub_diag.
      * intros Hi. destruct (decide (i < length l)%nat) as [Hlt | Hge].
        -- rewrite lookup_app_l in Hi by done. apply Hm in Hi. congruence.
        -- apply lookup_lt_Some in Hi as Hlen.
           rewrite length_app in Hlen. cbn in Hlen. f_equal. lia.
    + rewrite lookup_insert_ne by done. rewrite Hm.
      destruct (decide (i < length l)%nat) as [Hlt | Hge].
      * by rewrite lookup_app_l.
      * rewrite lookup_app_r by lia. rewrite (lookup_ge_None_2 l i) by lia.
        split; [done |]. intros Hi.
        by destruct (i - length l)%nat as [|[|]]; simplify_eq/=.
Qed.
End Indexed.

Section TrainProperties.

Variable task_defs : TaskDefs.
Variable data_dir : string.
Variable readable : string → bool.

#[local] Abbreviation dopt_of := (dopt_of task_defs).
#[local] Abbreviation dropout_of := (dropout_of task_defs).
#[local] Abbreviation least_dopt := (least_dopt task_defs).
#[local] Abbreviation resolved_id := (resolved_id task_defs).
#[local] Abbreviation train_inv := (train_inv task_defs).
#[local] Abbreviation classes_of := (classes_of task_defs).
#[local] Abbreviation inv_tasks := (inv_tasks task_defs).
#[local] Abbreviation inv_tasks_class := (inv_tasks_class task_defs).
#[local] Abbreviation inv_cs_ps := (inv_cs_ps task_defs).
#[local] Abbreviation inv_task_types := (inv_task_types task_defs).
#[local] Abbreviation inv_loss_types := (inv_loss_types task_defs).
#[local] Abbreviation inv_kd_loss_types := (inv_kd_loss_types task_defs).
#[local] Abbreviation inv_dropout_list := (inv_dropout_list task_defs).
#[local] Abbreviation inv_nclass_list := (inv_nclass_list task_defs).
#[local] Abbreviation inv_decoder_opts := (inv_decoder_opts task_defs).
#[local] Abbreviation inv_train_datasets := (inv_train_datasets task_defs).

Lemma pick_task_id_eq self nclass :
  pick_task_id self nclass = Ok (assigned_id self nclass).
Proof.
  unfold pick_task_id, assigned_id, getitemZ.
  rewrite contains_lookup.
  by destruct (0 <? _), (tasks_class self !! nclass).
Qed.

Lemma reconcile_decoder_opt_eq self task_id dopt :
  reconcile_decoder_opt self task_id dopt =
    Ok (set_decoder_opts
          (match decoder_opts self !! task_id with
           | Some cur => <[task_id := Z.min cur dopt]> (decoder_opts self)
           | None => decoder_opts self ++ [dopt]
           end) self).
Proof.
  unfold reconcile_decoder_opt, list_getitem.
  destruct (Nat.ltb_spec task_id (length (decoder_opts self))) as [Hlt|Hge].
  - destruct (lookup_lt_is_Some_2 _ _ Hlt) as [cur ->]. done.
  - by rewrite (lookup_ge_None_2 _ _ Hge).
Qed.

Lemma train_iteration_skip dataset self tds :
  is_Some (tasks self !! split_prefix dataset) →
  train_iteration task_defs data_dir readable dataset self tds = Ok (self, tds).
Proof.
  intros [i Hi]. unfold train_iteration.
  by rewrite contains_lookup, Hi.
Qed.

(** The loop body on a prefix not yet registered whose entries exist in
    every task-definition map. *)
Lemma train_iteration_eq dataset self tds
    data_type nclass task_type enable_san loss kd_loss :
  let prefix := split_prefix dataset in
  let path := path_join data_dir (dataset +:+ "_train.json") in
  tasks self !! prefix = None →
  data_type_map task_defs !! prefix = Some data_type →
  n_class_map task_defs !! prefix = Some nclass →
  task_type_map task_defs !! prefix = Some task_type →
  enable_san_map task_defs !! prefix = Some enable_san →
  loss_map task_defs !! prefix = Some loss →
  kd_loss_map task_defs !! prefix = Some kd_loss →
  train_iteration task_defs data_dir readable dataset self tds =
    if readable path then
      Ok (registered self prefix nclass task_type
            (generate_decoder_opt enable_san (answer_opt (config self)))
            loss kd_loss
            (default (dropout_p (config self))
               (dropout_p_map task_defs !! prefix)),
          tds ++ [ {| sd_path := path; sd_is_train := true;
                      sd_maxlen := max_seq_len (config self);
                      sd_task_id := assigned_id self nclass;
                      sd_task_type := task_type;
                      sd_data_type := data_type |} ])
    else Raise (ExternalError path).
Proof.
  intros prefix path Hnew Hd Hn Ht Hs Hl Hk.
  unfold train_iteration. fold prefix. fold path.
  unfold getitem, py_assert.
  rewrite !contains_lookup, Hnew, Hd, Hn, Ht, Hs, Hl, Hk.
  cbn [mbind result_bind].
  rewrite pick_task_id_eq. cbn [mbind result_bind].
  rewrite reconcile_decoder_opt_eq. cbn [mbind result_bind].
  unfold new_single_task_dataset.
  destruct (readable path); [| done].
  cbn [mbind result_bind].
  unfold registered.
  remember (match decoder_opts self !! assigned_id self nclass with
            | Some cur => _ | None => _ end) as dl eqn:Hdl. clear Hdl.
  unfold register_task_class, register_task.
  destruct (mtl_opt (config self) <? 1) eqn:E1,
           (0 <? mtl_opt (config self)) eqn:E3,
           (tasks_class self !! nclass) eqn:E2; try lia;
    repeat (progress
      (cbn [tasks tasks_class config nclass_list dropout_list
            set_kd_loss_types set_loss_types set_task_types
            set_decoder_opts set_tasks set_nclass_list set_tasks_class
            set_dropout_list negb andb];
       rewrite ?contains_lookup, ?Hnew, ?E1, ?E2, ?E3));
    cbn; rewrite ?app_nil_r; reflexivity.
Qed.

Lemma train_iteration_new dataset self tds self' tds' :
  let prefix := split_prefix dataset in
  let path := path_join data_dir (dataset +:+ "_train.json") in
  tasks self !! prefix = None →
  train_iteration task_defs data_dir readable dataset self tds = Ok (self', tds') →
  ∃ data_type nclass task_type enable_san loss kd_loss,
    data_type_map task_defs !! prefix = Some data_type ∧
    n_class_map task_defs !! prefix = Some nclass ∧
    task_type_map task_defs !! prefix = Some task_type ∧
    enable_san_map task_defs !! prefix = Some enable_san ∧
    loss_map task_defs !! prefix = Some loss ∧
    kd_loss_map task_defs !! prefix = Some kd_loss ∧
    readable path = true ∧
    self' = registered self prefix nclass task_type
              (generate_decoder_opt enable_san (answer_opt (config self)))
              loss kd_loss
              (default (dropout_p (config self))
                 (dropout_p_map task_defs !! prefix)) ∧
    tds' = tds ++ [ {| sd_path := path; sd_is_train := true;
                       sd_maxlen := max_seq_len (config self);
                       sd_task_id := assigned_id self nclass;
                       sd_task_type := task_type;
                       sd_data_type := data_type |} ].
Proof.
  intros prefix path Hnew H.
  destruct (data_type_map task_defs !! prefix) as [data_type|] eqn:Hd,
           (n_class_map task_defs !! prefix) as [nclass|] eqn:Hn,
           (task_type_map task_defs !! prefix) as [task_type|] eqn:Ht,
           (enable_san_map task_defs !! prefix) as [enable_san|] eqn:Hs,
           (loss_map task_defs !! prefix) as [loss|] eqn:Hl,
           (kd_loss_map task_defs !! prefix) as [kd_loss|] eqn:Hk.
  1: { rewrite (train_iteration_eq _ _ _ _ _ _ _ _ _ Hnew Hd Hn Ht Hs Hl Hk) in H.
       fold prefix path in H.
       destruct (readable path) eqn:Hr; [| done].
       injection H as <- <-.
       exists data_type, nclass, task_type, enable_san, loss, kd_loss.
       done. }
  all: exfalso; revert H; unfold train_iteration; fold prefix;
    unfold getitem, py_assert;
    rewrite ?contains_lookup, ?Hnew, ?Hd, ?Hn, ?Ht, ?Hs, ?Hl, ?Hk;
    cbn [mbind result_bind];
    rewrite ?pick_task_id_eq; cbn [mbind result_bind];
    rewrite ?reconcile_decoder_opt_eq; cbn [mbind result_bind];
    done.
Qed.

(** *** The invariant of the registration loop *)

Lemma train_inv_new c : train_inv [] [] (new_registry c) [].
Proof.
  split; cbn; try by constructor.
  - intros n. split; [by intros ?%not_elem_of_nil |].
    by intros (p & ?%not_elem_of_nil & _).
  - by destruct (0 <? _).
  - by destruct (0 <? _).
Qed.

Lemma least_dopt_other c ps p n n' d :
  n_class_map task_defs !! p = Some n → n' ≠ n →
  least_dopt c ps n' d → least_dopt c (ps ++ [p]) n' d.
Proof.
  intros Hp Hne [(q & Hq & Hqn & Hqd) Hle]. split.
  - exists q. rewrite elem_of_app. auto.
  - intros q' d' [Hq' | ->%list_elem_of_singleton]%elem_of_app Hn' Hd'.
    + eauto.
    + congruence.
Qed.

Lemma least_dopt_min c ps p n cur dopt :
  n_class_map task_defs !! p = Some n → dopt_of c p = Some dopt →
  least_dopt c ps n cur → least_dopt c (ps ++ [p]) n (Z.min cur dopt).
Proof.
  intros Hp Hd [(q & Hq & Hqn & Hqd) Hle]. split.
  - destruct (Z.min_spec cur dopt) as [[_ ->] | [_ ->]].
    + exists q. rewrite elem_of_app. auto.
    + exists p. rewrite elem_of_app, list_elem_of_singleton. auto.
  - intros q' d' [Hq' | ->%list_elem_of_singleton]%elem_of_app Hn' Hd'.
    + specialize (Hle q' d' Hq' Hn' Hd'). lia.
    + assert (d' = dopt) by congruence. lia.
Qed.

Lemma least_dopt_first c ps p n dopt :
  n_class_map task_defs !! p = Some n → dopt_of c p = Some dopt →
  (∀ q, q ∈ ps → n_class_map task_defs !! q ≠ Some n) →
  least_dopt c (ps ++ [p]) n dopt.
Proof.
  intros Hp Hd Hnone. split.
  - exists p. rewrite elem_of_app, list_elem_of_singleton. auto.
  - intros q' d' [Hq' | ->%list_elem_of_singleton]%elem_of_app Hn' Hd'.
    + by destruct (Hnone q' Hq').
    + assert (d' = dopt) by congruence. lia.
Qed.

Lemma resolved_id_registered ps cs r tds p q nclass task_type dopt loss kd dropout :
  train_inv ps cs r tds → tasks r !! p = None → q ∈ ps →
  resolved_id (registered r p nclass task_type dopt loss kd dropout) q
  = resolved_id r q.
Proof.
  intros Hinv Hnew Hq. unfold resolved_id, registered. cbn.
  destruct (0 <? mtl_opt (config r)).
  - destruct (n_class_map task_defs !! q) as [n|] eqn:Hn; [cbn | done].
    rewrite contains_lookup.
    destruct (tasks_class r !! nclass) eqn:Hc; cbn; [done |].
    rewrite lookup_insert_ne; [done |]. intros Heq.
    assert (n ∈ cs) as Hin by (apply (inv_cs_ps _ _ _ _ Hinv); eauto).
    apply (indexed_elem_of _ _ _ (inv_tasks_class _ _ _ _ Hinv)) in Hin.
    destruct Hin. congruence.
  - rewrite lookup_insert_ne; [done |]. intros Heq.
    apply (indexed_elem_of _ _ _ (inv_tasks _ _ _ _ Hinv)) in Hq.
    destruct Hq. congruence.
Qed.

Lemma resolved_id_new ps cs r tds p nclass task_type dopt loss kd dropout :
  train_inv ps cs r tds → n_class_map task_defs !! p = Some nclass →
  resolved_id (registered r p nclass task_type dopt loss kd dropout) p
  = Some (assigned_id r nclass).
Proof.
  intros Hinv Hn. unfold resolved_id, registered, assigned_id. cbn.
  destruct (0 <? mtl_opt (config r)).
  - rewrite Hn. cbn. rewrite contains_lookup.
    destruct (tasks_class r !! nclass) eqn:Hc; cbn; [done |].
    by rewrite lookup_insert_eq.
  - by rewrite lookup_insert_eq.
Qed.

(** The loop body preserves the invariant. *)
Lemma train_inv_registered ps cs r tds p nclass task_type enable_san loss kd ds :
  train_inv ps cs r tds →
  tasks r !! p = None →
  n_class_map task_defs !! p = Some nclass →
  task_type_map task_defs !! p = Some task_type →
  enable_san_map task_defs !! p = Some enable_san →
  loss_map task_defs !! p = Some loss →
  kd_loss_map task_defs !! p = Some kd →
  sd_task_id ds = assigned_id r nclass →
  train_inv (ps ++ [p]) (see cs nclass)
    (registered r p nclass task_type
       (generate_decoder_opt enable_san (answer_opt (config r))) loss kd
       (dropout_of (config r) p))
    (tds ++ [ds]).
Proof.
  intros Hinv Hnew Hn Ht Hs Hl Hk Hid.
  assert (dopt_of (config r) p
          = Some (generate_decoder_opt enable_san (answer_opt (config r))))
    as Hdopt by (unfold dopt_of; by rewrite Hs).
  set (dopt := generate_decoder_opt enable_san (answer_opt (config r))) in *.
  pose proof (inv_tasks _ _ _ _ Hinv) as Hps.
  pose proof (inv_tasks_class _ _ _ _ Hinv) as Hcs.
  pose proof (inv_cs_ps _ _ _ _ Hinv) as Hcp.
  assert (p ∉ ps) as Hpnew.
  { rewrite (indexed_elem_of _ _ _ Hps). intros [? ?]. congruence. }
  assert (contains (tasks_class r) nclass = bool_decide (nclass ∈ cs)) as Hcont.
  { unfold contains. apply bool_decide_ext. symmetry.
    apply (indexed_elem_of _ _ _ Hcs). }
  split.
  - (* tasks *) cbn. by apply indexed_insert.
  - (* tasks_class *) cbn. rewrite Hcont. unfold see.
    destruct (decide (nclass ∈ cs)) as [Hin | Hnin].
    + by rewrite bool_decide_eq_true_2.
    + rewrite bool_decide_eq_false_2 by done. cbn.
      apply indexed_insert; [done |].
      apply eq_None_not_Some. by rewrite <- (indexed_elem_of _ _ _ Hcs).
  - (* label counts of the registered prefixes *)
    intros n. unfold see. setoid_rewrite elem_of_app.
    setoid_rewrite list_elem_of_singleton.
    destruct (decide (nclass ∈ cs)) as [Hin | Hnin].
    + rewrite Hcp. split.
      * intros (q & Hq & Hqn). eauto.
      * intros (q & [Hq | ->] & Hqn); [eauto |].
        apply Hcp. congruence.
    + rewrite elem_of_app, list_elem_of_singleton, Hcp. split.
      * intros [(q & Hq & Hqn) | ->]; eauto.
      * intros (q & [Hq | ->] & Hqn); [eauto |]. right. congruence.
  - cbn. apply Forall2_app; [apply (inv_task_types _ _ _ _ Hinv) |].
    by repeat constructor.
  - cbn. apply Forall2_app; [apply (inv_loss_types _ _ _ _ Hinv) |].
    by repeat constructor.
  - cbn. apply Forall2_app; [apply (inv_kd_loss_types _ _ _ _ Hinv) |].
    by repeat constructor.
  - cbn. rewrite fmap_app. f_equal. apply (inv_dropout_list _ _ _ _ Hinv).
  - (* nclass_list *)
    pose proof (inv_nclass_list _ _ _ _ Hinv) as Hnl. cbn.
    rewrite Hcont. unfold see.
    destruct (Z.ltb_spec 0 (mtl_opt (config r))) as [Hmtl | Hmtl].
    + destruct (Z.ltb_spec (mtl_opt (config r)) 1); [lia |].
      destruct (decide (nclass ∈ cs)) as [Hin | Hnin].
      * rewrite bool_decide_eq_true_2 by done. cbn.
        by rewrite app_nil_r.
      * rewrite bool_decide_eq_false_2 by done. cbn. by f_equal.
    + destruct (Z.ltb_spec (mtl_opt (config r)) 1); [| lia].
      rewrite andb_false_r, app_nil_r.
      apply Forall2_app; [done |]. by repeat constructor.
  - (* decoder_opts *)
    pose proof (inv_decoder_opts _ _ _ _ Hinv) as Hdo. cbn.
    unfold assigned_id, see.
    destruct (Z.ltb_spec 0 (mtl_opt (config r))) as [Hmtl | Hmtl].
    + pose proof (Forall2_length _ _ _ Hdo) as Hlen.
      destruct (decide (nclass ∈ cs)) as [Hin | Hnin].
      * apply (indexed_elem_of _ _ _ Hcs) in Hin as [i Hi].
        rewrite Hi.
        pose proof (indexed_lookup_lt _ _ _ _ Hcs Hi) as Hlt.
        destruct (lookup_lt_is_Some_2 (decoder_opts r) i) as [cur Hcur];
          [lia |].
        rewrite Hcur.
        apply Forall2_same_length_lookup. split.
        { by rewrite length_insert. }
        intros j n d Hj Hd.
        destruct (decide (j = i)) as [-> | Hne].
        -- rewrite list_lookup_insert_eq in Hd by lia.
           injection Hd as <-.
           assert (n = nclass) as ->.
           { apply Hcs in Hi. congruence. }
           apply least_dopt_min; [done .. |].
           eapply Forall2_lookup_lr; [exact Hdo | | exact Hcur].
           by apply Hcs.
        -- rewrite list_lookup_insert_ne in Hd by done.
           eapply least_dopt_other; [exact Hn | |].
           ++ intros ->. apply Hcs in Hj. congruence.
           ++ eapply Forall2_lookup_lr; [exact Hdo | exact Hj | exact Hd].
      * assert (tasks_class r !! nclass = None) as Hnone.
        { apply eq_None_not_Some. by rewrite <- (indexed_elem_of _ _ _ Hcs). }
        rewrite Hnone. destruct Hcs as [Hsz Hcs]. rewrite Hsz.
        rewrite (lookup_ge_None_2 (decoder_opts r)) by lia.
        apply Forall2_app.
        -- apply Forall2_same_length_lookup. split; [done |].
           intros j n d Hj Hd.
           eapply least_dopt_other; [exact Hn | |].
           ++ intros ->. apply Hnin. by eapply list_elem_of_lookup_2.
           ++ eapply Forall2_lookup_lr; [exact Hdo | exact Hj | exact Hd].
        -- constructor; [| constructor].
           apply least_dopt_first; [done .. |].
           intros q Hq Hqn. apply Hnin, Hcp. eauto.
    + pose proof (Forall2_length _ _ _ Hdo) as Hlen.
      destruct Hps as [Hsz _]. rewrite Hsz.
      rewrite (lookup_ge_None_2 (decoder_opts r)) by lia.
      apply Forall2_app; [done |]. by repeat constructor.
  - (* train_datasets *)
    apply Forall2_app.
    + apply Forall2_same_length_lookup. split.
      { apply (Forall2_length _ _ _ (inv_train_datasets _ _ _ _ Hinv)). }
      intros j q d Hj Hd.
      erewrite resolved_id_registered; [| exact Hinv | done |].
      * exact (Forall2_lookup_lr _ _ _ _ _ _
                 (inv_train_datasets _ _ _ _ Hinv) Hj Hd).
      * by eapply list_elem_of_lookup_2.
    + repeat constructor. rewrite Hid.
      by eapply resolved_id_new.
Qed.

Lemma classes_of_snoc ps p nclass :
  n_class_map task_defs !! p = Some nclass →
  classes_of (ps ++ [p]) = see (classes_of ps) nclass.
Proof.
  intros Hn. unfold classes_of, first_seen.
  rewrite omap_app, foldl_app. cbn. by rewrite Hn.
Qed.

Abbreviation train_iteration' := (train_iteration task_defs data_dir readable).
Abbreviation train_loop' := (train_loop task_defs data_dir readable).

(** One loop iteration, by cases: a known prefix is skipped, a new one
    is registered. *)
Lemma train_iteration_inv ps r tds dataset r' tds' :
  train_inv ps (classes_of ps) r tds →
  train_iteration' dataset r tds = Ok (r', tds') →
  let ps' := see ps (split_prefix dataset) in
  train_inv ps' (classes_of ps') r' tds' ∧
  config r' = config r ∧
  (∀ q, q ∈ ps → resolved_id r' q = resolved_id r q).
Proof.
  intros Hinv Hrun ps'. subst ps'. unfold see.
  pose proof (indexed_elem_of _ _ (split_prefix dataset) (inv_tasks _ _ _ _ Hinv))
    as Hmem.
  destruct (decide (split_prefix dataset ∈ ps)) as [Hin | Hnin].
  - rewrite train_iteration_skip in Hrun by (by apply Hmem).
    by injection Hrun as <- <-.
  - assert (tasks r !! split_prefix dataset = None) as Hnew.
    { apply eq_None_not_Some. by rewrite <- Hmem. }
    destruct (train_iteration_new _ _ _ _ _ Hnew Hrun)
      as (dt & n & tt & san & l & k & Hd & Hn & Ht & Hs & Hl & Hk & _ & -> & ->).
    split; [| split].
    + rewrite (classes_of_snoc _ _ _ Hn).
      by eapply train_inv_registered.
    + done.
    + intros q Hq. by eapply resolved_id_registered.
Qed.

Lemma train_loop_inv datasets : ∀ ps r tds r' tds',
  train_inv ps (classes_of ps) r tds →
  train_loop' datasets r tds = Ok (r', tds') →
  let ps' := foldl see ps (split_prefix <$> datasets) in
  train_inv ps' (classes_of ps') r' tds' ∧
  config r' = config r ∧
  (∀ q, q ∈ ps → resolved_id r' q = resolved_id r q).
Proof.
  induction datasets as [| d rest IH]; intros ps r tds r' tds' Hinv Hrun.
  - cbn in Hrun. injection Hrun as <- <-. by cbn.
  - cbn [train_loop] in Hrun.
    destruct (train_iteration' d r tds) as [[r1 tds1] |] eqn:Hstep; [| done].
    cbn in Hrun.
    destruct (train_iteration_inv _ _ _ _ _ _ Hinv Hstep) as (Hinv1 & Hc1 & Hid1).
    destruct (IH _ _ _ _ _ Hinv1 Hrun) as (Hinv' & Hc' & Hid').
    cbn. split; [done |]. split; [congruence |].
    intros q Hq. rewrite Hid'; [by apply Hid1 |].
    unfold see. destruct (decide _); [done |].
    apply elem_of_app. by left.
Qed.

(** The ids handed to the training datasets are exactly [0 .. k-1],
    where [k] counts the label counts under class sharing and the
    prefixes otherwise. *)
Lemma train_ids_set ps cs r tds :
  train_inv ps cs r tds →
  (list_to_set (sd_task_id <$> tds) : gset nat)
  = set_seq 0 (if 0 <? mtl_opt (config r) then length cs else length ps).
Proof.
  intros Hinv.
  pose proof (inv_train_datasets _ _ _ _ Hinv) as Htds.
  pose proof (inv_tasks _ _ _ _ Hinv) as Hps.
  pose proof (inv_tasks_class _ _ _ _ Hinv) as Hcs.
  apply set_eq. intros x.
  rewrite elem_of_list_to_set, list_elem_of_fmap, elem_of_set_seq.
  unfold resolved_id in Htds. split.
  - intros (ds & -> & [j Hj]%list_elem_of_lookup).
    destruct (Forall2_lookup_r _ _ _ _ _ Htds Hj) as (q & Hq & Hres).
    destruct (0 <? mtl_opt (config r)).
    + destruct (n_class_map task_defs !! q) as [n|]; [cbn in Hres | done].
      pose proof (indexed_lookup_lt _ _ _ _ Hcs Hres). lia.
    + pose proof (indexed_lookup_lt _ _ _ _ Hps Hres). lia.
  - intros [_ Hlt]. cbn in Hlt.
    destruct (0 <? mtl_opt (config r)).
    + destruct (lookup_lt_is_Some_2 cs x Hlt) as [n Hn].
      assert (n ∈ cs) as Hin by (by eapply list_elem_of_lookup_2).
      apply (inv_cs_ps _ _ _ _ Hinv) in Hin as (q & [j Hj]%list_elem_of_lookup & Hqn).
      destruct (Forall2_lookup_l _ _ _ _ _ Htds Hj) as (ds & Hds & Hres).
      exists ds. split; [| by eapply list_elem_of_lookup_2].
      rewrite Hqn in Hres. cbn in Hres.
      apply Hcs in Hn. congruence.
    + destruct (lookup_lt_is_Some_2 ps x Hlt) as [q Hq].
      destruct (Forall2_lookup_l _ _ _ _ _ Htds Hq) as (ds & Hds & Hres).
      exists ds. split; [| by eapply list_elem_of_lookup_2].
      apply Hps in Hq. congruence.
Qed.

(** [test_task_id] succeeds exactly where [resolved_id] is defined. *)
Lemma test_task_id_resolved r p i :
  test_task_id task_defs r p = Ok i ↔ resolved_id r p = Some i.
Proof.
  unfold test_task_id, resolved_id, getitem, getitemZ.
  destruct (0 <? mtl_opt (config r)).
  - destruct (n_class_map task_defs !! p) as [n|]; cbn; [| done].
    destruct (tasks_class r !! n); cbn; [| done].
    split; congruence.
  - destruct (tasks r !! p); cbn; [| done]. split; congruence.
Qed.

Lemma train_loop_app a b : ∀ r tds,
  train_loop' (a ++ b) r tds
  = '(r1, tds1) ← train_loop' a r tds; train_loop' b r1 tds1.
Proof.
  induction a as [| d a IH]; intros r tds; [done |].
  cbn [app train_loop].
  destruct (train_iteration' d r tds) as [[r1 tds1] |]; [| done].
  cbn. apply IH.
Qed.

(** Merging the sequences into the config changes none of the fields
    the invariant reads. *)
Lemma train_inv_update_config ps cs r tds :
  train_inv ps cs r tds →
  train_inv ps cs (set_config (update_config r (config r)) r) tds.
Proof.
  intros [H1 H2 H3 H4 H5 H6 H7 H8 H9 H10]. by split.
Qed.

(** [_process_train_datasets] from a fresh object: the invariant holds
    of what it leaves, and the config carries the six sequences. *)
Lemma process_train_datasets_inv c datasets r dl :
  process_train_datasets task_defs data_dir readable datasets (new_registry c)
    = Ok (r, dl) →
  let ps := first_seen (split_prefix <$> datasets) in
  train_inv ps (classes_of ps) r (tdl_dataset dl) ∧
  mtl_opt (config r) = mtl_opt c ∧
  answer_opt (config r) = answer_opt c ∧
  dropout_p (config r) = dropout_p c ∧
  cfg_decoder_opts (config r) = Some (decoder_opts r) ∧
  cfg_task_types (config r) = Some (task_types r) ∧
  cfg_tasks_dropout_p (config r) = Some (dropout_list r) ∧
  cfg_loss_types (config r) = Some (loss_types r) ∧
  cfg_kd_loss_types (config r) = Some (kd_loss_types r) ∧
  cfg_tasks_nclass_list (config r) = Some (nclass_list r).
Proof.
  intros Hrun ps. unfold process_train_datasets in Hrun.
  destruct (train_loop' datasets (new_registry c) []) as [[r0 tds] |] eqn:Hloop;
    [| done].
  cbn [mbind result_bind] in Hrun. injection Hrun as <- <-.
  destruct (train_loop_inv _ _ _ _ _ _ (train_inv_new c) Hloop)
    as (Hinv & Hc & _).
  cbn in Hc. split.
  - by apply train_inv_update_config.
  - cbn. by rewrite Hc.
Qed.

End TrainProperties.

(** In a list without repetition a member occurs exactly once. *)
Lemma filter_eq_absent {A} `{EqDecision A} (l : list A) (x : A) :
  x ∉ l → filter (λ y, y = x) l = [].
Proof.
  induction l as [| y l IH]; [done |].
  intros [Hne Hnin]%not_elem_of_cons.
  rewrite filter_cons. destruct (decide (y = x)); [congruence | auto].
Qed.

Lemma filter_eq_NoDup {A} `{EqDecision A} (l : list A) (x : A) :
  NoDup l → x ∈ l → length (filter (λ y, y = x) l) = 1%nat.
Proof.
  induction 1 as [| y l Hy Hnd IH]; [by intros ?%not_elem_of_nil |].
  intros Hin. rewrite filter_cons. destruct (decide (y = x)) as [-> | Hne].
  - cbn. by rewrite filter_eq_absent.
  - apply IH. apply elem_of_cons in Hin as [-> | Hin]; done.
Qed.

(** ** Theorems about task registration *)

Section TrainTheorems.

Variable task_defs : TaskDefs.
Variable data_dir : string.
Variable readable : string → bool.

Abbreviation process_train' :=
  (process_train_datasets task_defs data_dir readable).

(** C1, amended: after [_process_train_datasets] the config holds the
    six sequences; [task_types], [tasks_dropout_p], [loss_types] and
    [kd_loss_types] have one entry per distinct prefix, entry [i]
    describing the [i]-th prefix in first-seen order; [decoder_opts] and
    [tasks_nclass_list] have one entry per distinct id handed out under
    the active policy, entry [i] describing id [i].  Without class
    sharing the ids are the prefixes' own, so all six are aligned. *)
Theorem config_sequences_after_training c datasets r dl :
  process_train' datasets (new_registry c) = Ok (r, dl) →
  let ps := first_seen (split_prefix <$> datasets) in
  let cs := classes_of task_defs ps in
  let ids : gset nat := list_to_set (sd_task_id <$> tdl_dataset dl) in
  ∃ d t dr l kd n,
    cfg_decoder_opts (config r) = Some d ∧
    cfg_task_types (config r) = Some t ∧
    cfg_tasks_dropout_p (config r) = Some dr ∧
    cfg_loss_types (config r) = Some l ∧
    cfg_kd_loss_types (config r) = Some kd ∧
    cfg_tasks_nclass_list (config r) = Some n ∧
    (* one entry per distinct prefix *)
    Forall2 (λ p x, task_type_map task_defs !! p = Some x) ps t ∧
    dr = dropout_of task_defs c <$> ps ∧
    Forall2 (λ p x, loss_map task_defs !! p = Some x) ps l ∧
    Forall2 (λ p x, kd_loss_map task_defs !! p = Some x) ps kd ∧
    (* one entry per distinct id *)
    length d = size ids ∧ length n = size ids ∧
    (mtl_opt c < 1 →
       size ids = length ps ∧
       Forall2 (λ p x, dopt_of task_defs c p = Some x) ps d ∧
       Forall2 (λ p x, n_class_map task_defs !! p = Some x) ps n ∧
       (∀ p i, tasks r !! p = Some i ↔ ps !! i = Some p) ∧
       six_aligned (config r) (size ids)) ∧
    (0 < mtl_opt c →
       size ids = length cs ∧
       Forall2 (least_dopt task_defs c ps) cs d ∧
       n = cs ∧
       (∀ x i, tasks_class r !! x = Some i ↔ cs !! i = Some x)).
Proof.
  intros Hrun ps cs ids.
  destruct (process_train_datasets_inv _ _ _ _ _ _ _ Hrun)
    as (Hinv & Hmtl & Hans & Hdrop & Hd & Ht & Hdr & Hl & Hkd & Hn).
  fold ps in Hinv. fold cs in Hinv.
  pose proof (train_ids_set _ _ _ _ _ Hinv) as Hids. fold ids in Hids.
  pose proof (inv_decoder_opts _ _ _ _ _ Hinv) as Hdo.
  pose proof (inv_nclass_list _ _ _ _ _ Hinv) as Hnl.
  pose proof (inv_task_types _ _ _ _ _ Hinv) as Htt.
  pose proof (inv_loss_types _ _ _ _ _ Hinv) as Hlt.
  pose proof (inv_kd_loss_types _ _ _ _ _ Hinv) as Hkt.
  pose proof (inv_dropout_list _ _ _ _ _ Hinv) as Hdl.
  assert (dopt_of task_defs (config r) = dopt_of task_defs c) as Hdopt.
  { unfold dopt_of. by rewrite Hans. }
  assert (dropout_of task_defs (config r) = dropout_of task_defs c) as Hdropout.
  { unfold dropout_of. by rewrite Hdrop. }
  assert (least_dopt task_defs (config r) = least_dopt task_defs c) as Hleast.
  { unfold least_dopt. by rewrite Hdopt. }
  rewrite Hmtl in *. rewrite Hdopt, Hleast in Hdo. rewrite Hdropout in Hdl.
  exists (decoder_opts r), (task_types r), (dropout_list r),
    (loss_types r), (kd_loss_types r), (nclass_list r).
  do 10 (split; [done |]).
  rewrite Hids, size_set_seq.
  destruct (Z.ltb_spec 0 (mtl_opt c)) as [Hsh | Hown].
  - split; [by rewrite <- (Forall2_length _ _ _ Hdo) |].
    split; [by rewrite Hnl |].
    split; [lia |]. intros _.
    split; [done |]. split; [done |]. split; [done |].
    apply (inv_tasks_class _ _ _ _ _ Hinv).
  - split; [by rewrite <- (Forall2_length _ _ _ Hdo) |].
    split; [by rewrite <- (Forall2_length _ _ _ Hnl) |].
    split; [| lia]. intros _.
    split; [done |]. split; [done |]. split; [done |].
    split; [apply (inv_tasks _ _ _ _ _ Hinv) |].
    exists (decoder_opts r), (task_types r), (dropout_list r),
      (loss_types r), (kd_loss_types r), (nclass_list r).
    do 6 (split; [done |]).
    rewrite <- (Forall2_length _ _ _ Hdo), <- (Forall2_length _ _ _ Hnl),
      <- (Forall2_length _ _ _ Htt), <- (Forall2_length _ _ _ Hlt),
      <- (Forall2_length _ _ _ Hkt), Hdl, length_fmap.
    done.
Qed.


(** C6: the id [_process_dev_test_datasets] resolves for a test
    dataset equals the id the registration loop picked when it first met
    that prefix, which is also the id it gave the training dataset: the
    class id of the label count under class sharing, the task id
    otherwise. *)
Theorem test_id_is_training_id c before dataset after r1 tds1 r dl :
  train_loop task_defs data_dir readable before (new_registry c) []
    = Ok (r1, tds1) →
  tasks r1 !! split_prefix dataset = None →
  process_train' (before ++ dataset :: after) (new_registry c) = Ok (r, dl) →
  ∃ nclass id r2 ds,
    n_class_map task_defs !! split_prefix dataset = Some nclass ∧
    pick_task_id r1 nclass = Ok id ∧
    train_iteration task_defs data_dir readable dataset r1 tds1
      = Ok (r2, tds1 ++ [ds]) ∧
    sd_task_id ds = id ∧
    (∀ test_dataset,
       split_prefix test_dataset = split_prefix dataset →
       test_task_id task_defs r (split_prefix test_dataset) = Ok id) ∧
    (0 < mtl_opt c → tasks_class r !! nclass = Some id) ∧
    (mtl_opt c <= 0 → tasks r !! split_prefix dataset = Some id).
Proof.
  intros Hbefore Hnew Hrun.
  unfold process_train_datasets in Hrun.
  rewrite train_loop_app, Hbefore in Hrun.
  cbn [mbind result_bind train_loop] in Hrun.
  destruct (train_iteration _ _ _ dataset r1 tds1) as [[r2 tds2] |] eqn:Hstep;
    [| done].
  cbn [mbind result_bind] in Hrun.
  destruct (train_loop _ _ _ after r2 tds2) as [[r3 tds3] |] eqn:Hafter;
    [| done].
  cbn [mbind result_bind] in Hrun. injection Hrun as <- <-.
  destruct (train_loop_inv _ _ _ _ _ _ _ _ _ (train_inv_new _ c) Hbefore)
    as (Hinv1 & Hc1 & _).
  cbn in Hinv1, Hc1.
  set (ps1 := foldl see [] (split_prefix <$> before)) in *.
  destruct (train_iteration_inv _ _ _ _ _ _ _ _ _ Hinv1 Hstep)
    as (Hinv2 & Hc2 & _).
  cbn in Hinv2.
  destruct (train_loop_inv _ _ _ _ _ _ _ _ _ Hinv2 Hafter)
    as (Hinv3 & Hc3 & Hkeep).
  destruct (train_iteration_new _ _ _ _ _ _ _ _ Hnew Hstep)
    as (dt & nclass & tt & san & l & k & Hd & Hn & Ht & Hs & Hl & Hk & _ & Hr2 & Htds2).
  assert (split_prefix dataset ∈ see ps1 (split_prefix dataset)) as Hin.
  { unfold see. destruct (decide _); [done |].
    apply elem_of_app. right. by apply list_elem_of_singleton. }
  assert (resolved_id task_defs r3 (split_prefix dataset)
          = Some (assigned_id r1 nclass)) as Hres.
  { rewrite (Hkeep _ Hin). rewrite Hr2.
    by eapply resolved_id_new. }
  exists nclass, (assigned_id r1 nclass), r2.
  eexists. split; [done |]. split; [apply pick_task_id_eq |].
  split; [by rewrite Htds2 |]. split; [done |].
  assert (mtl_opt (config r3) = mtl_opt c) as Hmtl by congruence.
  split; [| split].
  - intros test_dataset ->. by apply test_task_id_resolved.
  - intros Hsh. unfold resolved_id in Hres. rewrite Hmtl, Hn in Hres.
    destruct (Z.ltb_spec 0 (mtl_opt c)); [done | lia].
  - intros Hown. unfold resolved_id in Hres. rewrite Hmtl in Hres.
    destruct (Z.ltb_spec 0 (mtl_opt c)); [lia | done].
Qed.

(** C8: without class sharing every registered prefix has its own task
    id, the ids run from 0 in first-seen order, the training dataset of
    the [j]-th prefix carries id [j], and [tasks_nclass_list] has one
    entry per prefix, equal label counts included. *)
Theorem own_id_per_prefix c datasets r dl :
  process_train' datasets (new_registry c) = Ok (r, dl) →
  mtl_opt c < 1 →
  let ps := first_seen (split_prefix <$> datasets) in
  NoDup ps ∧
  (∀ p i, tasks r !! p = Some i ↔ ps !! i = Some p) ∧
  (∀ p q i, tasks r !! p = Some i → tasks r !! q = Some i → p = q) ∧
  (∀ p i, tasks r !! p = Some i → test_task_id task_defs r p = Ok i) ∧
  length (tdl_dataset dl) = length ps ∧
  (∀ j ds, tdl_dataset dl !! j = Some ds → sd_task_id ds = j) ∧
  ∃ ncl, cfg_tasks_nclass_list (config r) = Some ncl ∧
         Forall2 (λ p x, n_class_map task_defs !! p = Some x) ps ncl.
Proof.
  intros Hrun Hown ps.
  destruct (process_train_datasets_inv _ _ _ _ _ _ _ Hrun)
    as (Hinv & Hmtl & _ & _ & _ & _ & _ & _ & _ & Hncl).
  fold ps in Hinv.
  pose proof (inv_tasks _ _ _ _ _ Hinv) as Hps.
  pose proof (inv_nclass_list _ _ _ _ _ Hinv) as Hnl.
  pose proof (inv_train_datasets _ _ _ _ _ Hinv) as Htds.
  unfold resolved_id in Htds. rewrite Hmtl in Hnl, Htds.
  destruct (Z.ltb_spec 0 (mtl_opt c)); [lia |].
  split; [by eapply indexed_NoDup |].
  split; [apply Hps |].
  split.
  { intros p q i Hp Hq. apply Hps in Hp, Hq. congruence. }
  split.
  { intros p i Hp. apply test_task_id_resolved. unfold resolved_id.
    rewrite Hmtl. by destruct (Z.ltb_spec 0 (mtl_opt c)); [lia |]. }
  split; [symmetry; apply (Forall2_length _ _ _ Htds) |].
  split; [| eauto].
  intros j ds Hds.
  destruct (Forall2_lookup_r _ _ _ _ _ Htds Hds) as (p & Hp & Hres).
  apply Hps in Hp. congruence.
Qed.

End TrainTheorems.

(** *** The theorems on sample runs *)

(** Two prefixes of three classes under class sharing: one decoder
    option, two task types. *)
Lemma six_aligned_counterexample :
  match Samples.run 1 ["mnli"; "snli"]%string with
  | Ok (r, dl) => ¬ ∃ k, six_aligned (config r) k
  | Raise _ => False
  end.
Proof.
  destruct (Samples.run 1 ["mnli"; "snli"]%string) as [[r dl] |] eqn:E;
    [| by vm_compute in E].
  vm_compute in E. injection E as <- _.
  intros (k & d & t & dr & l & kd & n & Hd & Ht & _ & _ & _ & _ & Hld & Hlt & _).
  cbn in Hd, Ht. injection Hd as <-. injection Ht as <-.
  cbn in Hld, Hlt. congruence.
Qed.

Lemma config_sequences_after_training_witness :
  match Samples.run 1 ["mnli"; "snli_x"; "sst"; "mnli_b"]%string with
  | Ok (r, dl) =>
      ∃ d t, cfg_decoder_opts (config r) = Some d ∧
             cfg_task_types (config r) = Some t ∧
             length d = 2%nat ∧ length t = 3%nat
  | Raise _ => False
  end.
Proof.
  destruct (Samples.run 1 ["mnli"; "snli_x"; "sst"; "mnli_b"]%string)
    as [[r dl] |] eqn:E; [| by vm_compute in E].
  destruct (config_sequences_after_training _ _ _ _ _ _ _ E)
    as (d & t & dr & l & kd & n & Hd & Ht & _ & _ & _ & _ & Htt & _ & _ & _ & Hld & _).
  exists d, t. split; [done |]. split; [done |].
  apply Forall2_length in Htt. rewrite <- Htt, Hld.
  vm_compute in E. injection E as <- <-. by vm_compute.
Defined.


Lemma test_id_is_training_id_witness :
  match train_loop Samples.defs "data" Samples.readable_ ["mnli"%string]
          (new_registry (Samples.cfg 1)) [],
        Samples.run 1 (["mnli"%string] ++ "snli_x"%string :: ["sst"%string])
  with
  | Ok (r1, tds1), Ok (r, dl) =>
      ∃ nclass id r2 ds,
        n_class_map Samples.defs !! split_prefix "snli_x" = Some nclass ∧
        pick_task_id r1 nclass = Ok id ∧
        train_iteration Samples.defs "data" Samples.readable_ "snli_x" r1 tds1
          = Ok (r2, tds1 ++ [ds]) ∧
        sd_task_id ds = id ∧
        (∀ test_dataset,
           split_prefix test_dataset = split_prefix "snli_x" →
           test_task_id Samples.defs r (split_prefix test_dataset) = Ok id) ∧
        (0 < mtl_opt (Samples.cfg 1) → tasks_class r !! nclass = Some id) ∧
        (mtl_opt (Samples.cfg 1) <= 0 → tasks r !! split_prefix "snli_x" = Some id)
  | _, _ => False
  end.
Proof.
  destruct (train_loop Samples.defs "data" Samples.readable_ ["mnli"%string]
              (new_registry (Samples.cfg 1)) []) as [[r1 tds1] |] eqn:E1;
    [| by vm_compute in E1].
  destruct (Samples.run 1 (["mnli"%string] ++ "snli_x"%string :: ["sst"%string]))
    as [[r dl] |] eqn:E2; [| by vm_compute in E2].
  refine (test_id_is_training_id _ _ _ _ _ _ _ _ _ _ _ E1 _ E2).
  pose proof E1 as E. vm_compute in E. injection E as <- _. by vm_compute.
Defined.

Lemma own_id_per_prefix_witness :
  match Samples.run 0 ["mnli"; "snli_x"; "sst"; "mnli_b"]%string with
  | Ok (r, dl) =>
      tasks r !! "snli"%string = Some 1%nat ∧
      ∃ ncl, cfg_tasks_nclass_list (config r) = Some ncl ∧ length ncl = 3%nat
  | Raise _ => False
  end.
Proof.
  destruct (Samples.run 0 ["mnli"; "snli_x"; "sst"; "mnli_b"]%string)
    as [[r dl] |] eqn:E; [| by vm_compute in E].
  assert (mtl_opt (Samples.cfg 0) < 1) as Hown by (cbn; lia).
  destruct (own_id_per_prefix _ _ _ _ _ _ _ E Hown)
    as (_ & Htasks & _ & _ & _ & _ & ncl & Hncl & Hall).
  split.
  - apply Htasks. by vm_compute.
  - exists ncl. split; [done |].
    apply Forall2_length in Hall. rewrite <- Hall. by vm_compute.
Defined.

(** ** Properties of dev/test processing *)

Section DevTestProperties.

Variable task_defs : TaskDefs.
Variable data_dir : string.
Variable path_exists : string → bool.
Variable readable : string → bool.

#[local] Abbreviation split_entry := (split_entry path_exists).
#[local] Abbreviation dev_path := (dev_path data_dir).
#[local] Abbreviation test_path := (test_path data_dir).
#[local] Abbreviation loadable :=
  (loadable task_defs data_dir path_exists readable).
#[local] Abbreviation entries_of :=
  (entries_of task_defs data_dir path_exists).

Abbreviation dev_test_iteration' :=
  (dev_test_iteration task_defs data_dir path_exists readable).
Abbreviation dev_test_loop' :=
  (dev_test_loop task_defs data_dir path_exists readable).

Lemma dev_test_iteration_Ok dataset self devs tests col devs' tests' :
  dev_test_iteration' dataset self devs tests col = Ok (devs', tests') →
  ∃ dev test, entries_of self col dataset dev test ∧
              devs' = devs ++ [dev] ∧ tests' = tests ++ [test].
Proof.
  unfold dev_test_iteration, entries_of, split_entry, new_single_task_dataset,
    new_eval_dataloader.
  fold (dev_path dataset). fold (test_path dataset).
  destruct (test_task_id task_defs self (split_prefix dataset)) as [id |];
    [cbn [mbind result_bind] | done].
  unfold getitem, py_assert. rewrite contains_lookup.
  destruct (task_type_map task_defs !! split_prefix dataset) as [tt |];
    [cbn [mbind result_bind] | done].
  destruct (data_type_map task_defs !! split_prefix dataset) as [dt |];
    [cbn [mbind result_bind] | done].
  destruct (batch_size_eval (config self) <=? 0);
    (destruct (path_exists (dev_path dataset));
      [destruct (readable (dev_path dataset)); [| done] |]);
    (destruct (path_exists (test_path dataset));
      [destruct (readable (test_path dataset)); [| done] |]);
    cbn [mbind result_bind]; try done; intros [= <- <-];
    eexists _, _; (split; [exists id, tt, dt; done | done]).
Qed.

Lemma dev_test_iteration_total dataset self devs tests col :
  loadable self dataset →
  ∃ devs' tests', dev_test_iteration' dataset self devs tests col = Ok (devs', tests').
Proof.
  intros ([id Hid] & [tt Htt] & [dt Hdt] & Hdev & Htest & Hsize).
  unfold dev_test_iteration, new_single_task_dataset, new_eval_dataloader.
  fold (dev_path dataset). fold (test_path dataset).
  rewrite Hid. cbn [mbind result_bind].
  unfold getitem, py_assert. rewrite contains_lookup, Htt, Hdt.
  cbn [mbind result_bind].
  destruct (Z.leb_spec (batch_size_eval (config self)) 0) as [Hle | _];
    (destruct (path_exists (dev_path dataset));
      [rewrite Hdev by done |]);
    (destruct (path_exists (test_path dataset)); [rewrite Htest by done |]);
    cbn [mbind result_bind]; eauto;
    exfalso; (assert (0 < batch_size_eval (config self)) by auto); lia.
Qed.

Lemma dev_test_loop_Ok datasets : ∀ self devs tests col devs' tests',
  dev_test_loop' datasets self devs tests col = Ok (devs', tests') →
  ∃ des tes, devs' = devs ++ des ∧ tests' = tests ++ tes ∧
    length des = length datasets ∧ length tes = length datasets ∧
    ∀ i d, datasets !! i = Some d →
      ∃ dev test, des !! i = Some dev ∧ tes !! i = Some test ∧
                  entries_of self col d dev test.
Proof.
  induction datasets as [| d rest IH]; intros self devs tests col devs' tests' Hrun.
  - cbn in Hrun. injection Hrun as <- <-.
    exists [], []. rewrite !app_nil_r. by repeat split.
  - cbn [dev_test_loop] in Hrun.
    destruct (dev_test_iteration' d self devs tests col) as [[devs1 tests1] |] eqn:Hstep;
      [| done].
    cbn [mbind result_bind] in Hrun.
    apply dev_test_iteration_Ok in Hstep as (dev & test & Hent & -> & ->).
    apply IH in Hrun as (des & tes & -> & -> & Hld & Hlt & Hall).
    exists (dev :: des), (test :: tes).
    rewrite <- !app_assoc. cbn. repeat split; [congruence .. |].
    intros [| i] d' Hd'; cbn in Hd'.
    + injection Hd' as <-. by exists dev, test.
    + by apply Hall.
Qed.

Lemma dev_test_loop_total datasets : ∀ self devs tests col,
  Forall (loadable self) datasets →
  ∃ devs' tests', dev_test_loop' datasets self devs tests col = Ok (devs', tests').
Proof.
  induction datasets as [| d rest IH]; intros self devs tests col Hall.
  - cbn. eauto.
  - apply Forall_cons in Hall as [Hd Hrest].
    destruct (dev_test_iteration_total d self devs tests col Hd)
      as (devs1 & tests1 & Hstep).
    cbn [dev_test_loop]. rewrite Hstep. cbn [mbind result_bind].
    by apply IH.
Qed.

End DevTestProperties.

Section DevTestTheorems.

Variable task_defs : TaskDefs.
Variable data_dir : string.
Variable path_exists : string → bool.
Variable readable : string → bool.

Abbreviation process_dev_test' :=
  (process_dev_test_datasets task_defs data_dir path_exists readable).

(** C10: [_process_dev_test_datasets] returns whenever every test
    dataset can be resolved and loaded, and what it returns are two lists
    as long as the list of test datasets, entry [i] of each built from the
    dataset at position [i]: a dataloader over its split file, or
    [None]. *)
Theorem dev_test_lists_follow_datasets datasets self :
  (Forall (loadable task_defs data_dir path_exists readable self) datasets →
   ∃ devs tests, process_dev_test' datasets self = Ok (devs, tests)) ∧
  (∀ devs tests,
     process_dev_test' datasets self = Ok (devs, tests) →
     length devs = length datasets ∧
     length tests = length datasets ∧
     ∀ i d, datasets !! i = Some d →
       ∃ dev test,
         devs !! i = Some dev ∧ tests !! i = Some test ∧
         entries_of task_defs data_dir path_exists self
           (test_collater_of self) d dev test).
Proof.
  unfold process_dev_test_datasets. fold (test_collater_of self). split.
  - apply dev_test_loop_total.
  - intros devs tests Hrun.
    apply dev_test_loop_Ok in Hrun as (des & tes & -> & -> & Hld & Hlt & Hall).
    cbn. auto.
Qed.

End DevTestTheorems.

Lemma dev_test_lists_follow_datasets_witness :
  match Samples.run 0 ["mnli"%string] with
  | Ok (r, _) =>
      ∃ devs tests,
        process_dev_test_datasets Samples.defs "data" Samples.exists_
          Samples.readable_ ["mnli_matched"; "mnli_mismatched"]%string r
        = Ok (devs, tests) ∧
        length devs = 2%nat ∧ length tests = 2%nat
  | Raise _ => False
  end.
Proof.
  destruct (Samples.run 0 ["mnli"%string]) as [[r dl] |] eqn:E;
    [| by vm_compute in E].
  pose proof (dev_test_lists_follow_datasets Samples.defs "data" Samples.exists_
                Samples.readable_ ["mnli_matched"; "mnli_mismatched"]%string r)
    as [Htotal Hshape].
  destruct Htotal as (devs & tests & Hrun).
  - vm_compute in E. injection E as <- _.
    repeat constructor; try (vm_compute; eauto; done).
  - exists devs, tests. split; [done |].
    destruct (Hshape _ _ Hrun) as (Hd & Ht & _). done.
Defined.

(** ** Properties of the pipeline driver *)

Lemma eff_eta {A} (m : eff A) : Eff (trace m) (outcome m) = m.
Proof. by destruct m. Qed.

Lemma bind_emit {B} (ev : event) (k : unit → eff B) :
  (emit ev ≫= k) = Eff (ev :: trace (k tt)) (outcome (k tt)).
Proof. done. Qed.

Lemma bind_lift_Ok {A B} (a : A) (k : A → eff B) : (lift (Ok a) ≫= k) = k a.
Proof. unfold lift, mbind, eff_bind. cbn. apply eff_eta. Qed.

Lemma bind_lift_Raise {A B} (e : exn) (k : A → eff B) :
  (lift (Raise e) ≫= k) = Eff [] (Raise e).
Proof. done. Qed.

Lemma bind_mret {A B} (a : A) (k : A → eff B) : (mret a ≫= k) = k a.
Proof. unfold mret, eff_ret, mbind, eff_bind. cbn. apply eff_eta. Qed.

Lemma trace_bind {A B} (m : eff A) (k : A → eff B) :
  trace (m ≫= k)
  = trace m ++ match outcome m with Ok a => trace (k a) | Raise _ => [] end.
Proof.
  unfold mbind, eff_bind. destruct (outcome m); cbn; [done |].
  by rewrite app_nil_r.
Qed.

Lemma outcome_bind {A B} (m : eff A) (k : A → eff B) :
  outcome (m ≫= k)
  = match outcome m with Ok a => outcome (k a) | Raise e => Raise e end.
Proof. unfold mbind, eff_bind. by destruct (outcome m). Qed.

(** [x % d == 0] succeeds with [True] exactly when [d] is not zero and
    divides [x]. *)
Lemma py_mod_zero x d :
  py_mod x d = Ok 0 ↔ d ≠ 0 ∧ x mod d = 0.
Proof.
  unfold py_mod. destruct (Z.eqb_spec d 0) as [-> | Hd].
  - split; [done | by intros [? _]].
  - split; [intros [= ->]; done | intros [_ ->]; done].
Qed.

(** ** Properties of timedelta arithmetic *)

Lemma timedelta_in_range_bounds us :
  timedelta_in_range us
  ↔ -999999999 * 86400000000 <= us < 1000000000 * 86400000000.
Proof.
  unfold timedelta_in_range.
  pose proof (Z.div_mod us 86400000000 ltac:(lia)) as Hdm.
  pose proof (Z.mod_pos_bound us 86400000000 ltac:(lia)) as Hb.
  lia.
Qed.

Lemma divide_and_round_nearest a b :
  0 < b → nearest_even a b (divide_and_round a b).
Proof.
  intros Hb. unfold nearest_even, divide_and_round.
  pose proof (Z.div_mod a b ltac:(lia)) as Hdm.
  pose proof (Z.mod_pos_bound a b Hb) as Hm.
  pose proof (Z.mod_pos_bound (a / b) 2 ltac:(lia)) as H2.
  pose proof (Z.div_mod (a / b) 2 ltac:(lia)) as Hq2.
  set (q := a / b) in *. set (m := a mod b) in *.
  destruct (Z.ltb_spec 0 b) as [_ | ?]; [| lia].
  assert (∀ k, a - k * b = m + (q - k) * b) as Hdiff by (intros k; lia).
  destruct (Z.ltb_spec b (2 * m)) as [Hgt | Hle]; cbn [orb].
  - rewrite (Hdiff (q + 1)). replace (m + (q - (q + 1)) * b) with (m - b) by lia.
    split; [lia | lia].
  - destruct (Z.eqb_spec (2 * m) b) as [Heq | Hne]; cbn [andb].
    + destruct (Z.eqb_spec (q mod 2) 1) as [Hodd | Heven].
      * rewrite (Hdiff (q + 1)).
        replace (m + (q - (q + 1)) * b) with (m - b) by lia.
        split; [lia |]. intros _. rewrite Z.even_add, Zeven_mod.
        replace (q mod 2 =? 0) with false by (symmetry; apply Z.eqb_neq; lia).
        done.
      * rewrite (Hdiff q). replace (m + (q - q) * b) with m by lia.
        split; [lia |]. intros _. rewrite Zeven_mod. apply Z.eqb_eq. lia.
    + rewrite (Hdiff q). replace (m + (q - q) * b) with m by lia.
      split; lia.
Qed.

Lemma nearest_even_unique a b q q' :
  0 < b → nearest_even a b q → nearest_even a b q' → q = q'.
Proof.
  intros Hb [H1 E1] [H2 E2].
  set (x := a - q * b) in *. set (y := a - q' * b) in *.
  assert (x - y = (q' - q) * b) as Hxy by (unfold x, y; lia).
  destruct (decide (q = q')) as [| Hne]; [done | exfalso].
  assert (b <= Z.abs ((q' - q) * b)) as Hfar.
  { rewrite Z.abs_mul, (Z.abs_eq b) by lia.
    assert (1 <= Z.abs (q' - q)) by lia. nia. }
  assert (2 * Z.abs x = b ∧ 2 * Z.abs y = b) as [T1 T2] by lia.
  assert (Z.abs (q' - q) = 1) as Hone.
  { rewrite <- Hxy in Hfar.
    assert (Z.abs ((q' - q) * b) = b) as Hb1 by lia.
    rewrite Z.abs_mul, (Z.abs_eq b) in Hb1 by lia. nia. }
  apply E1 in T1. apply E2 in T2.
  apply Z.even_spec in T1 as [k ->]. apply Z.even_spec in T2 as [k' ->]. lia.
Qed.

Lemma nearest_even_between a b q :
  0 < b → nearest_even a b q →
  (0 <= a → 0 <= q <= a) ∧ (a <= 0 → a <= q <= 0).
Proof.
  intros Hb [H _].
  assert (-b <= 2 * (a - q * b) <= b) as Hx by lia. clear H.
  split; intros Ha; split.
  - destruct (Z.le_gt_cases 0 q); [done |]. nia.
  - destruct (Z.le_gt_cases q a); [done |]. nia.
  - destruct (Z.le_gt_cases a q); [done |]. nia.
  - destruct (Z.le_gt_cases q 0); [done |]. nia.
Qed.

Lemma nearest_even_in_range a b q :
  0 < b → nearest_even a b q → timedelta_in_range a → timedelta_in_range q.
Proof.
  intros Hb Hq Ha. apply timedelta_in_range_bounds in Ha.
  apply timedelta_in_range_bounds.
  destruct (nearest_even_between a b q Hb Hq) as [Hpos Hneg].
  destruct (Z.le_ge_cases 0 a);
    [specialize (Hpos ltac:(lia)) | specialize (Hneg ltac:(lia))]; lia.
Qed.

Lemma timedelta_new_Ok us t :
  timedelta_new us = Ok t ↔ t = us ∧ timedelta_in_range us.
Proof.
  unfold timedelta_new, timedelta_in_range.
  destruct (Z.ltb_spec 999999999 (Z.abs (us / 86400000000))).
  - split; [done | lia].
  - split; [intros [= <-]; split; [done | lia] | by intros [-> _]].
Qed.

Lemma timedelta_new_Raise us e :
  timedelta_new us = Raise e ↔ e = OverflowError ∧ ¬ timedelta_in_range us.
Proof.
  unfold timedelta_new, timedelta_in_range.
  destruct (Z.ltb_spec 999999999 (Z.abs (us / 86400000000))).
  - split; [intros [= <-]; split; [done | lia] | by intros [-> _]].
  - split; [done | lia].
Qed.

Section FitProperties.

Variable Model : Type.
Variable local_updates : Model → Z.
Variable updates : Model → Z.
Variable train_loss_avg : Model → pyfloat.
Variable model_update : Model → Batch → result Model.
Variable patch_data : bool → Batch → Batch.
Variable dataloader_len : TrainDataLoader → Z.
Variable clock : nat → Z.
Variable genv : Globals.

#[local] Abbreviation remaining_time := (remaining_time dataloader_len).
#[local] Abbreviation log_cadence := (log_cadence Model local_updates).
#[local] Abbreviation save_cadence := (save_cadence Model local_updates).

Abbreviation fit_log' := (fit_log Model local_updates updates train_loss_avg
                            dataloader_len clock).
Abbreviation fit_checkpoint' := (fit_checkpoint Model local_updates updates genv).
Abbreviation fit_batch' :=
  (fit_batch Model local_updates updates train_loss_avg model_update
     patch_data dataloader_len clock genv).

(** The remaining-time text is produced exactly when the elapsed time
    and the estimate are timedeltas, and is then the estimate of the
    specification; the computation raises nothing but [OverflowError]. *)
Lemma time_left_of_Ok self now start idx text :
  time_left_of dataloader_len self now start idx = Ok text
  ↔ remaining_time self now start idx text.
Proof.
  unfold time_left_of, remaining_time, datetime_sub, timedelta_div, timedelta_mul,
    time_text.
  destruct (Z.eqb_spec (Z.of_nat idx + 1) 0) as [| _]; [lia |].
  assert (0 < Z.of_nat idx + 1) as Hpos by lia.
  pose proof (divide_and_round_nearest (now - start) _ Hpos) as Hq.
  split.
  - destruct (timedelta_new (now - start)) as [elapsed |] eqn:He; [| done].
    apply timedelta_new_Ok in He as [-> He]. cbn [mbind result_bind].
    destruct (timedelta_new (divide_and_round _ _)) as [per_batch |] eqn:Hp;
      [| done].
    apply timedelta_new_Ok in Hp as [-> Hp]. cbn [mbind result_bind].
    destruct (timedelta_new (_ * _)) as [time_left |] eqn:Hl; [| done].
    apply timedelta_new_Ok in Hl as [-> Hl]. cbn [mbind result_bind].
    intros [= <-]. eauto 6.
  - intros (per_batch & Hp & He & Hl & ->).
    rewrite (nearest_even_unique _ _ _ _ Hpos Hp Hq) in *.
    rewrite (proj2 (timedelta_new_Ok (now - start) _) (conj eq_refl He)).
    cbn [mbind result_bind].
    rewrite (proj2 (timedelta_new_Ok (divide_and_round _ _) _)
               (conj eq_refl (nearest_even_in_range _ _ _ Hpos Hq He))).
    cbn [mbind result_bind].
    rewrite (proj2 (timedelta_new_Ok _ _) (conj eq_refl Hl)). done.
Qed.

Lemma time_left_of_Raise self now start idx e :
  time_left_of dataloader_len self now start idx = Raise e → e = OverflowError.
Proof.
  unfold time_left_of, datetime_sub, timedelta_div, timedelta_mul.
  destruct (Z.eqb_spec (Z.of_nat idx + 1) 0) as [| _]; [lia |].
  destruct (timedelta_new (now - start)) as [elapsed |] eqn:He;
    [| intros [= <-]; by apply timedelta_new_Raise in He as [-> _]].
  cbn [mbind result_bind].
  destruct (timedelta_new (divide_and_round _ _)) as [per_batch |] eqn:Hp;
    [| intros [= <-]; by apply timedelta_new_Raise in Hp as [-> _]].
  cbn [mbind result_bind].
  destruct (timedelta_new (_ * _)) as [time_left |] eqn:Hl;
    [done | intros [= <-]; by apply timedelta_new_Raise in Hl as [-> _]].
Qed.

Lemma log_due_true self model :
  log_due Model local_updates self model = Ok true ↔ log_cadence self model.
Proof.
  unfold log_due, log_cadence, py_mod.
  destruct (Z.eqb_spec (local_updates model) 1) as [H1 | H1].
  - split; [by left | done].
  - destruct (_ * _ =? 0); cbn.
    + split; [done | by intros [? | ?]].
    + destruct (Z.eqb_spec (local_updates model `mod`
             (log_per_updates (pp_config self)
              * grad_accumulation_step (pp_config self))) 0) as [H0 | H0].
      * split; [right; by rewrite H0 | done].
      * split; [done |]. intros [? | [= ?]]; done.
Qed.

Lemma save_due_true self model :
  save_due Model local_updates self model = Ok true ↔ save_cadence self model.
Proof.
  unfold save_due, save_cadence, py_mod.
  destruct (save_per_updates_on (pp_config self)); [| split; [done | by intros [? _]]].
  destruct (_ * _ =? 0); cbn.
  - split; [done | by intros [_ ?]].
  - destruct (Z.eqb_spec (local_updates model `mod`
           (save_per_updates (pp_config self)
            * grad_accumulation_step (pp_config self))) 0) as [H0 | H0].
    + split; [by rewrite H0 | done].
    + split; [done |]. intros [_ [= ?]]. done.
Qed.

(** The log stage in closed form. *)
Lemma fit_log_eq self start idx task_id model st :
  fit_log' self start idx task_id model st
  = match log_due Model local_updates self model with
    | Ok true =>
        match time_left_of dataloader_len self (clock (rs_ticks st)) start idx
        with
        | Ok time_left =>
            Eff ([EvPrintTimeLeft time_left;
                  EvInfoTrain task_id (updates model) (train_loss_avg model)
                    time_left]
                 ++ (if use_tensor_board (pp_config self)
                     then [EvScalar "train/loss" (MNum (train_loss_avg model))
                             (updates model)]
                     else []))
                (Ok (tick st))
        | Raise e => Eff [] (Raise e)
        end
    | Ok false => Eff [] (Ok st)
    | Raise e => Eff [] (Raise e)
    end.
Proof.
  unfold fit_log.
  destruct (log_due Model local_updates self model) as [[|] | e]; [| done ..].
  rewrite bind_lift_Ok.
  destruct (time_left_of _ _ _ _ _) as [time_left | e]; [| done].
  rewrite bind_lift_Ok.
  by destruct (use_tensor_board (pp_config self)).
Qed.

(** The checkpoint stage in closed form. *)
Lemma fit_checkpoint_eq self epoch model :
  fit_checkpoint' self epoch model
  = match save_due Model local_updates self model with
    | Ok true =>
        match g_output_dir genv with
        | Some output_dir =>
            let model_file :=
              path_join output_dir
                ("model_" +:+ pretty epoch +:+ "_" +:+ pretty (updates model)
                 +:+ ".pt") in
            Eff [EvInfoSaving model_file; EvModelSave model_file] (Ok tt)
        | None => Eff [] (Raise (NameError "output_dir"))
        end
    | Ok false => Eff [] (Ok tt)
    | Raise e => Eff [] (Raise e)
    end.
Proof.
  unfold fit_checkpoint.
  destruct (save_due Model local_updates self model) as [[|] | e]; [| done ..].
  rewrite bind_lift_Ok. by destruct (g_output_dir genv).
Qed.

(** The events of one batch: the two batch records, the log stage, and,
    unless that raised, the checkpoint stage. *)
Lemma fit_batch_trace self epoch start idx batch st model :
  let batch' := patch_data (cuda (pp_config self)) batch in
  model_update (rs_model st) batch' = Ok model →
  let logged := fit_log' self start idx (batch_task_id batch') model
                  (with_model model st) in
  trace (fit_batch' self epoch start idx batch st)
  = [EvInfoBatch false idx batch; EvInfoBatch true idx batch']
    ++ trace logged
    ++ match outcome logged with
       | Ok _ => trace (fit_checkpoint' self epoch model)
       | Raise _ => []
       end.
Proof.
  intros batch' Hupd logged. unfold fit_batch. fold batch'.
  rewrite !bind_emit. cbn [trace]. rewrite Hupd, bind_lift_Ok.
  fold logged. rewrite trace_bind. cbn [app]. do 3 f_equal.
  destruct (outcome logged); [| done].
  rewrite trace_bind. cbn.
  destruct (outcome _); cbn; by rewrite app_nil_r.
Qed.

Lemma fit_batch_outcome self epoch start idx batch st model :
  let batch' := patch_data (cuda (pp_config self)) batch in
  model_update (rs_model st) batch' = Ok model →
  let logged := fit_log' self start idx (batch_task_id batch') model
                  (with_model model st) in
  outcome (fit_batch' self epoch start idx batch st)
  = match outcome logged with
    | Ok st' =>
        match outcome (fit_checkpoint' self epoch model) with
        | Ok _ => Ok st'
        | Raise e => Raise e
        end
    | Raise e => Raise e
    end.
Proof.
  intros batch' Hupd logged. unfold fit_batch. fold batch'.
  rewrite !bind_emit. cbn [outcome]. rewrite Hupd, bind_lift_Ok.
  fold logged. rewrite outcome_bind.
  destruct (outcome logged); [| done].
  rewrite outcome_bind. by destruct (outcome _).
Qed.

End FitProperties.

(** ** Theorems about the training loop *)

Section FitTheorems.

Variable Model : Type.
Variable local_updates : Model → Z.
Variable updates : Model → Z.
Variable train_loss_avg : Model → pyfloat.
Variable model_update : Model → Batch → result Model.
Variable patch_data : bool → Batch → Batch.
Variable dataloader_len : TrainDataLoader → Z.
Variable clock : nat → Z.

Abbreviation fit_batch_in genv :=
  (fit_batch Model local_updates updates train_loss_avg model_update
     patch_data dataloader_len clock genv).

Ltac split_members :=
  repeat (rewrite elem_of_app || rewrite elem_of_cons || rewrite elem_of_nil).

(** No stage other than the checkpoint stage mentions a model file, and
    the checkpoint stage writes one only when [output_dir] is bound. *)
Lemma fit_batch_saves genv self epoch start idx batch st model f :
  model_update (rs_model st) (patch_data (cuda (pp_config self)) batch)
    = Ok model →
  EvModelSave f ∈ trace (fit_batch_in genv self epoch start idx batch st) →
  save_cadence Model local_updates self model ∧
  ∃ output_dir,
    g_output_dir genv = Some output_dir ∧
    f = path_join output_dir
          ("model_" +:+ pretty epoch +:+ "_" +:+ pretty (updates model) +:+ ".pt").
Proof.
  intros Hupd.
  rewrite (fit_batch_trace _ _ _ _ _ _ _ _ _ _ _ _ _ _ _ _ Hupd).
  rewrite fit_log_eq, fit_checkpoint_eq.
  pose proof (save_due_true Model local_updates self model) as Hsave.
  destruct (log_due Model local_updates self model) as [[|] | e];
    try destruct (time_left_of dataloader_len self _ start idx)
          as [time_left | e''];
    destruct (save_due Model local_updates self model) as [[|] | e'];
    destruct (g_output_dir genv) as [dir |];
    destruct (use_tensor_board (pp_config self));
    cbn [trace outcome]; split_members; naive_solver.
Qed.

End FitTheorems.

(** ** The log cadence within a run of [fit] *)

Lemma eff_bind_assoc {A B C} (m : eff A) (f : A → eff B) (g : B → eff C) :
  ((m ≫= f) ≫= g) = (m ≫= λ a, f a ≫= g).
Proof.
  unfold mbind, eff_bind. destruct (outcome m) as [a |]; cbn; [| done].
  destruct (outcome (f a)) as [b |]; cbn; by rewrite ?app_assoc.
Qed.

Lemma eff_bind_ext {A B} (m : eff A) (k k' : A → eff B) :
  (∀ a, k a = k' a) → (m ≫= k) = (m ≫= k').
Proof.
  intros Hk. unfold mbind, eff_bind. destruct (outcome m); [| done].
  by rewrite Hk.
Qed.

Lemma bind_Ok {A B} (m : eff A) (k : A → eff B) (a : A) :
  outcome m = Ok a → (m ≫= k) = Eff (trace m ++ trace (k a)) (outcome (k a)).
Proof. intros H. unfold mbind, eff_bind. by rewrite H. Qed.

Section FitCadence.

Variable Model : Type.
Variable local_updates : Model → Z.
Variable updates : Model → Z.
Variable train_loss_avg : Model → pyfloat.
Variable total_param : Model → Z.
Variable model_update : Model → Batch → result Model.
Variable patch_data : bool → Batch → Batch.
Variable dataloader_len : TrainDataLoader → Z.
Variable dataloader_pass : TrainDataLoader → nat → list Batch.
Variable clock : nat → Z.
Variable genv : Globals.

#[local] Abbreviation log_cadence := (log_cadence Model local_updates).
#[local] Abbreviation remaining_time := (remaining_time dataloader_len).

Abbreviation fit_log_at :=
  (fit_log Model local_updates updates train_loss_avg dataloader_len clock).
Abbreviation fit_batch_at :=
  (fit_batch Model local_updates updates train_loss_avg model_update
     patch_data dataloader_len clock genv).
Abbreviation fit_batches_at :=
  (fit_batches Model local_updates updates train_loss_avg model_update
     patch_data dataloader_len clock genv).
Abbreviation fit_epochs_at :=
  (fit_epochs Model local_updates updates train_loss_avg model_update
     patch_data dataloader_len dataloader_pass clock genv).
Abbreviation fit_at :=
  (fit Model local_updates updates train_loss_avg total_param model_update
     patch_data dataloader_len dataloader_pass clock genv).

Ltac split_members :=
  repeat (rewrite elem_of_app || rewrite elem_of_cons || rewrite elem_of_nil).

(** The loops split at any position. *)
Lemma fit_batches_app self epoch start a : ∀ b idx st,
  fit_batches_at self epoch start idx (a ++ b) st
  = (fit_batches_at self epoch start idx a st
     ≫= fit_batches_at self epoch start (idx + length a) b).
Proof.
  induction a as [| x a IH]; intros b idx st; cbn [app fit_batches length].
  - by rewrite bind_mret, Nat.add_0_r.
  - rewrite eff_bind_assoc. apply eff_bind_ext. intros st1.
    rewrite IH. by rewrite Nat.add_succ_r.
Qed.

Lemma fit_epochs_app self a : ∀ b epoch st,
  fit_epochs_at self epoch (a + b) st
  = (fit_epochs_at self epoch a st ≫= fit_epochs_at self (epoch + a) b).
Proof.
  induction a as [| a IH]; intros b epoch st; cbn [Nat.add fit_epochs].
  - by rewrite bind_mret, Nat.add_0_r.
  - rewrite eff_bind_assoc. apply eff_bind_ext. intros st1.
    rewrite IH. by rewrite Nat.add_succ_r.
Qed.

(** The log record and the metric scalar of the log stage. *)
Lemma fit_log_record self start idx task_id model st a b c d :
  EvInfoTrain a b c d ∈ trace (fit_log_at self start idx task_id model st)
  ↔ a = task_id ∧ b = updates model ∧ c = train_loss_avg model ∧
    log_cadence self model ∧
    remaining_time self (clock (rs_ticks st)) start idx d.
Proof.
  rewrite fit_log_eq.
  pose proof (log_due_true Model local_updates self model) as Hdue.
  pose proof (time_left_of_Ok dataloader_len self (clock (rs_ticks st)) start idx)
    as Htime.
  destruct (log_due Model local_updates self model) as [[|] | e].
  - destruct (time_left_of _ _ _ _ _) as [text | e].
    + assert (log_cadence self model) as Hc by (by apply Hdue).
      destruct (use_tensor_board (pp_config self)); cbn [trace];
        split_members; (split;
          [intros H;
           assert (a = task_id ∧ b = updates model ∧ c = train_loss_avg model
                   ∧ d = text) as (-> & -> & -> & ->) by naive_solver;
           repeat split; [done | by apply Htime]
          |intros (-> & -> & -> & _ & Hd%Htime); injection Hd as ->; tauto]).
    + cbn [trace]. rewrite elem_of_nil. split; [done |].
      intros (_ & _ & _ & _ & Hd%Htime). done.
  - cbn [trace]. rewrite elem_of_nil. split; [done |].
    intros (_ & _ & _ & Hc%Hdue & _). done.
  - cbn [trace]. rewrite elem_of_nil. split; [done |].
    intros (_ & _ & _ & Hc%Hdue & _). done.
Qed.

Lemma fit_log_scalar self start idx task_id model st tag value step :
  EvScalar tag value step ∈ trace (fit_log_at self start idx task_id model st)
  ↔ tag = "train/loss"%string ∧ value = MNum (train_loss_avg model) ∧
    step = updates model ∧
    log_cadence self model ∧
    (∃ text, remaining_time self (clock (rs_ticks st)) start idx text) ∧
    use_tensor_board (pp_config self) = true.
Proof.
  rewrite fit_log_eq.
  pose proof (log_due_true Model local_updates self model) as Hdue.
  pose proof (time_left_of_Ok dataloader_len self (clock (rs_ticks st)) start idx)
    as Htime.
  destruct (log_due Model local_updates self model) as [[|] | e].
  - destruct (time_left_of _ _ _ _ _) as [text | e].
    + assert (log_cadence self model) as Hc by (by apply Hdue).
      assert (∃ t, remaining_time self (clock (rs_ticks st)) start idx t) as Hex
        by (exists text; by apply Htime).
      destruct (use_tensor_board (pp_config self)); cbn [trace];
        split_members; naive_solver.
    + cbn [trace]. rewrite elem_of_nil. split; [done |].
      intros (_ & _ & _ & _ & [text Hd%Htime] & _). done.
  - cbn [trace]. rewrite elem_of_nil. split; [done |].
    intros (_ & _ & _ & Hc%Hdue & _). done.
  - cbn [trace]. rewrite elem_of_nil. split; [done |].
    intros (_ & _ & _ & Hc%Hdue & _). done.
Qed.

(** The checkpoint stage emits the saving record and the save. *)
Lemma fit_checkpoint_events self epoch model ev :
  ev ∈ trace (fit_checkpoint Model local_updates updates genv self epoch model) →
  ∃ f, ev = EvInfoSaving f ∨ ev = EvModelSave f.
Proof.
  rewrite fit_checkpoint_eq.
  destruct (save_due Model local_updates self model) as [[|] | e];
    [destruct (g_output_dir genv) as [dir |] | |];
    cbn [trace]; split_members; naive_solver.
Qed.

(** The events of one batch that are no batch records and no checkpoint
    events are those of its log stage. *)
Lemma fit_batch_logged self epoch start idx batch st model ev :
  model_update (rs_model st) (patch_data (cuda (pp_config self)) batch) = Ok model →
  (∀ p i b, ev ≠ EvInfoBatch p i b) →
  (∀ f, ev ≠ EvInfoSaving f ∧ ev ≠ EvModelSave f) →
  ev ∈ trace (fit_batch_at self epoch start idx batch st)
  ↔ ev ∈ trace (fit_log_at self start idx
                  (batch_task_id (patch_data (cuda (pp_config self)) batch))
                  model (with_model model st)).
Proof.
  intros Hupd Hbatch Hsave.
  rewrite (fit_batch_trace _ _ _ _ _ _ _ _ _ _ _ _ _ _ _ _ Hupd).
  rewrite !elem_of_app. split; [| auto].
  intros [H | [H | H]]; [| done |].
  - apply elem_of_cons in H as [-> | ->%list_elem_of_singleton].
    + by destruct (Hbatch false idx batch).
    + by destruct (Hbatch true idx (patch_data (cuda (pp_config self)) batch)).
  - destruct (outcome _); [| by apply elem_of_nil in H].
    apply fit_checkpoint_events in H as [f [-> | ->]];
      by destruct (Hsave f).
Qed.

(** The run of [fit] up to and including the batch at position [idx] of
    epoch [epoch]. *)
Lemma fit_reaches_batch self epochs_arg st0 epoch idx batch st_e st_b :
  let dl := pp_multitask_train_dataloader self in
  let start := clock (rs_ticks st_e) in
  (epoch < epochs_to_run self epochs_arg)%nat →
  dataloader_pass dl epoch !! idx = Some batch →
  outcome (fit_epochs_at self 0 epoch st0) = Ok st_e →
  outcome (fit_batches_at self (Z.of_nat epoch) start 0
             (take idx (dataloader_pass dl epoch)) (tick st_e)) = Ok st_b →
  ∃ rest : RunState Model → eff (RunState Model),
    fit_at self epochs_arg st0
    = Eff (EvInfoTotalParams (total_param (rs_model st0))
           :: trace (fit_epochs_at self 0 epoch st0)
           ++ [EvInfoEpoch (Z.of_nat epoch); EvPrintLength (dataloader_len dl)]
           ++ trace (fit_batches_at self (Z.of_nat epoch) start 0
                       (take idx (dataloader_pass dl epoch)) (tick st_e))
           ++ trace (fit_batch_at self (Z.of_nat epoch) start idx batch st_b
                     ≫= rest))
          (outcome (fit_batch_at self (Z.of_nat epoch) start idx batch st_b
                    ≫= rest)).
Proof.
  intros dl start Hepoch Hbatch He Hb.
  pose proof (take_drop_middle _ _ _ Hbatch) as Hsplit.
  assert (length (take idx (dataloader_pass dl epoch)) = idx) as Hlen.
  { apply length_take_le. apply lookup_lt_Some in Hbatch. lia. }
  set (pre := take idx (dataloader_pass dl epoch)) in *.
  set (post := drop (S idx) (dataloader_pass dl epoch)) in *.
  unfold fit. fold (epochs_to_run self epochs_arg).
  replace (epochs_to_run self epochs_arg)
    with (epoch + S (epochs_to_run self epochs_arg - epoch - 1))%nat by lia.
  set (later := (epochs_to_run self epochs_arg - epoch - 1)%nat).
  rewrite fit_epochs_app. cbn [Nat.add fit_epochs].
  exists (λ st1,
    st2 ← fit_batches_at self (Z.of_nat epoch) start (S idx) post st1;
    fit_epochs_at self (S epoch) later st2).
  rewrite bind_emit, (bind_Ok _ _ _ He). cbn [trace outcome].
  unfold fit_epoch. fold dl start. rewrite <- Hsplit.
  rewrite !eff_bind_assoc, !bind_emit. cbn [trace outcome].
  rewrite fit_batches_app, eff_bind_assoc, (bind_Ok _ _ _ Hb).
  cbn [trace outcome Nat.add fit_batches]. rewrite Hlen.
  rewrite eff_bind_assoc. done.
Qed.


End FitCadence.


(** C3 as the claim states it fails where the estimate is no timedelta:
    over a dataloader of [2 ** 62] batches the first batch leaves
    [local_updates] at 1, so that the log record is due, and three
    seconds into the epoch the estimate exceeds 999999999 days; the run
    emits no log record and ends in [OverflowError]. *)
Lemma log_cadence_counterexample :
  PipelineSamples.model_update 0 PipelineSamples.batch = Ok 1 ∧
  log_cadence Z PipelineSamples.local_updates
    (FurtherSamples.quiet_pipeline 500) 1 ∧
  FurtherSamples.long_training
  = Eff [EvInfoTotalParams 1000; EvInfoEpoch 0;
         EvPrintLength 4611686018427387904;
         EvInfoBatch false 0 PipelineSamples.batch;
         EvInfoBatch true 0 PipelineSamples.batch]
        (Raise OverflowError) ∧
  ∀ task_id upd loss text,
    EvInfoTrain task_id upd loss text ∉ trace FurtherSamples.long_training.
Proof.
  assert (FurtherSamples.long_training
          = Eff [EvInfoTotalParams 1000; EvInfoEpoch 0;
                 EvPrintLength 4611686018427387904;
                 EvInfoBatch false 0 PipelineSamples.batch;
                 EvInfoBatch true 0 PipelineSamples.batch]
                (Raise OverflowError)) as Hrun by (by vm_compute).
  split; [done |]. split; [by left |]. split; [done |].
  intros task_id upd loss text. rewrite Hrun. cbn [trace].
  intros H. repeat (apply elem_of_cons in H as [[=] | H]).
  by apply elem_of_nil in H.
Qed.

(** ** Properties of evaluation *)

Lemma string_app_inv_head (a b b' : string) : a +:+ b = a +:+ b' → b = b'.
Proof.
  induction a as [| c a IH]; cbn; [done |].
  intros [= H]. by apply IH.
Qed.

(** The dev and the test score files of one dataset are different
    files. *)
Lemma score_files_differ (dir dataset x y : string) :
  path_join dir (dataset +:+ "_test_scores_" +:+ x)
  ≠ path_join dir (dataset +:+ "_dev_scores_" +:+ y).
Proof.
  unfold path_join.
  assert (starts_with_sep (dataset +:+ "_test_scores_" +:+ x)
          = starts_with_sep (dataset +:+ "_dev_scores_" +:+ y)) as ->
    by (by destruct dataset).
  destruct (starts_with_sep _); [| destruct (_ || _)%bool].
  - intros H%string_app_inv_head. lazy in H. discriminate.
  - intros H%string_app_inv_head%string_app_inv_head. lazy in H. discriminate.
  - intros H%string_app_inv_head.
    change ("/" +:+ ?s) with (String "/" s) in H.
    injection H as H%string_app_inv_head. lazy in H. discriminate.
Qed.

Section PredictProperties.

Variable Model : Type.
Variable eval_model :
  Model → EvalDataLoader → list Z → bool → bool → option (list string) →
  TaskType → result (EvalOutput * Model).
Variable genv : Globals.

#[local] Abbreviation dev_split_event := (dev_split_event genv).
#[local] Abbreviation test_split_event := (test_split_event genv).

Abbreviation predict_dev' := (predict_dev Model eval_model genv).
Abbreviation predict_test' := (predict_test Model eval_model genv).
Abbreviation predict_iteration' := (predict_iteration Model eval_model genv).

Lemma split_events_disjoint dataset ev :
  test_split_event dataset ev → dev_split_event dataset ev → False.
Proof.
  destruct ev as [| | | | | | | | | | ? [|] | | | | |]; cbn; try done.
  - intros (dir & ep & Hd & He & ->) (dir' & ep' & Hd' & He' & H).
    assert (dir' = dir) as -> by congruence.
    by apply score_files_differ in H.
  - intros (dir & ep & Hd & He & ->) (dir' & ep' & Hd' & He' & H).
    assert (dir' = dir) as -> by congruence.
    by apply score_files_differ in H.
Qed.

Ltac split_members :=
  repeat (rewrite elem_of_app || rewrite elem_of_cons || rewrite elem_of_nil).

Lemma report_dev_metrics_events self dataset metrics ev :
  ev ∈ trace (report_dev_metrics genv self dataset metrics) →
  dev_split_event dataset ev.
Proof.
  induction metrics as [| [key val] rest IH]; cbn [report_dev_metrics].
  - cbn. by intros ?%not_elem_of_nil.
  - destruct (use_tensor_board (pp_config self)), (g_epoch genv) as [ep |],
      val as [x | x];
      cbn [global_name add_scalar];
      rewrite ?bind_lift_Ok, ?bind_lift_Raise, ?bind_emit, ?bind_mret;
      rewrite ?bind_lift_Ok, ?bind_lift_Raise, ?bind_emit, ?bind_mret;
      cbn [trace]; split_members; naive_solver.
Qed.

Ltac run_eff :=
  repeat progress
    (cbn [global_name trace outcome mret eff_ret];
     rewrite ?bind_lift_Ok, ?bind_lift_Raise, ?bind_emit, ?bind_mret).

Ltac finish_events :=
  split_members;
  let H := fresh in
  intros H; decompose [or] H; subst; cbn; auto; try done; naive_solver.

Lemma predict_test_events self dataset label_dict data st ev :
  ev ∈ trace (predict_test' self dataset label_dict data st) →
  test_split_event dataset ev.
Proof.
  unfold predict_test, getitem.
  destruct (g_task_defs genv) as [td |]; run_eff;
    [| by intros ?%not_elem_of_nil].
  destruct (metric_meta_map td !! split_prefix dataset) as [mm |]; run_eff;
    [| by intros ?%not_elem_of_nil].
  destruct (g_args genv) as [args |]; run_eff;
    [| by intros ?%not_elem_of_nil].
  destruct (task_type_map td !! split_prefix dataset) as [tt |]; run_eff;
    [| by intros ?%not_elem_of_nil].
  destruct (eval_model _ _ _ _ _ _ _) as [[out model] |]; run_eff;
    [| split_members; naive_solver].
  destruct (g_output_dir genv) as [dir |] eqn:Hdir; run_eff;
    [| split_members; naive_solver].
  destruct (g_epoch genv) as [ep |] eqn:Hep; run_eff;
    [| split_members; naive_solver].
  destruct (args_glue_format_on args); run_eff;
    split_members; intros H; decompose [or] H; subst; cbn;
    naive_solver.
Qed.

Lemma predict_dev_events self dataset label_dict data st ev :
  ev ∈ trace (predict_dev' self dataset label_dict data st) →
  dev_split_event dataset ev.
Proof.
  unfold predict_dev, getitem.
  destruct (g_task_defs genv) as [td |]; run_eff;
    [| by intros ?%not_elem_of_nil].
  destruct (metric_meta_map td !! split_prefix dataset) as [mm |]; run_eff;
    [| by intros ?%not_elem_of_nil].
  destruct (g_args genv) as [args |]; run_eff;
    [| by intros ?%not_elem_of_nil].
  destruct (task_type_map td !! split_prefix dataset) as [tt |]; run_eff;
    [| by intros ?%not_elem_of_nil].
  destruct (eval_model _ _ _ _ _ _ _) as [[out model] |]; run_eff;
    [| finish_events].
  rewrite trace_bind.
  pose proof (report_dev_metrics_events self dataset (eo_metrics out) ev) as Hrep.
  destruct (outcome (report_dev_metrics genv self dataset (eo_metrics out)));
    [| finish_events].
  destruct (g_output_dir genv) as [dir |] eqn:Hdir; run_eff;
    [| finish_events].
  destruct (g_epoch genv) as [ep |] eqn:Hep; run_eff;
    [| finish_events].
  destruct (use_glue_format (pp_config self)); run_eff;
    finish_events.
Qed.

(** With no dev dataloader the loop body is its test phase alone, and
    with no test dataloader its dev phase alone. *)
Lemma predict_iteration_no_dev self idx dataset st :
  pp_dev_dataloaders_list self !! idx = Some None →
  predict_iteration' self idx dataset st
  = (test_data ← lift (list_getitem (pp_test_dataloaders_list self) idx);
     match test_data with
     | Some test_data =>
         predict_test' self dataset
           (global_map (pp_task_defs self) !! split_prefix dataset) test_data st
     | None => mret st
     end).
Proof.
  intros Hdev. unfold predict_iteration, list_getitem.
  rewrite Hdev. by rewrite bind_lift_Ok, bind_mret.
Qed.

Lemma predict_iteration_no_test self idx dataset st :
  pp_test_dataloaders_list self !! idx = Some None →
  trace (predict_iteration' self idx dataset st)
  = match pp_dev_dataloaders_list self !! idx with
    | Some (Some dev_data) =>
        trace (predict_dev' self dataset
                 (global_map (pp_task_defs self) !! split_prefix dataset)
                 dev_data st)
    | _ => []
    end.
Proof.
  intros Htest. unfold predict_iteration, list_getitem.
  rewrite Htest.
  destruct (pp_dev_dataloaders_list self !! idx) as [[dev_data |] |];
    run_eff; [| done ..].
  rewrite trace_bind. destruct (outcome _); run_eff; by rewrite app_nil_r.
Qed.

(** Events of the loop body when one of the two dataloaders is absent. *)
Lemma predict_iteration_no_dev_events self idx dataset st ev :
  pp_dev_dataloaders_list self !! idx = Some None →
  ev ∈ trace (predict_iteration' self idx dataset st) →
  test_split_event dataset ev.
Proof.
  intros Hdev. rewrite predict_iteration_no_dev by done.
  unfold list_getitem.
  destruct (pp_test_dataloaders_list self !! idx) as [[test_data |] |];
    run_eff; [| by intros ?%not_elem_of_nil ..].
  apply predict_test_events.
Qed.

Lemma predict_iteration_no_test_events self idx dataset st ev :
  pp_test_dataloaders_list self !! idx = Some None →
  ev ∈ trace (predict_iteration' self idx dataset st) →
  dev_split_event dataset ev.
Proof.
  intros Htest. rewrite predict_iteration_no_test by done.
  destruct (pp_dev_dataloaders_list self !! idx) as [[dev_data |] |];
    [| by intros ?%not_elem_of_nil ..].
  apply predict_dev_events.
Qed.

End PredictProperties.

(** With none of the four names bound, the loop of [predict] emits
    nothing: it passes over absent dataloaders and stops at the first one
    present. *)
Section PredictUnbound.

Variable Model : Type.
Variable eval_model :
  Model → EvalDataLoader → list Z → bool → bool → option (list string) →
  TaskType → result (EvalOutput * Model).

Lemma predict_iteration_unbound self idx dataset st :
  trace (predict_iteration Model eval_model module_globals self idx dataset st) = [] ∧
  (outcome (predict_iteration Model eval_model module_globals self idx dataset st) = Ok st ∨
   ∃ e, outcome (predict_iteration Model eval_model module_globals self idx dataset st)
        = Raise e).
Proof.
  unfold predict_iteration, list_getitem.
  destruct (pp_dev_dataloaders_list self !! idx) as [[dev_data |] |];
    [cbn; eauto | | cbn; eauto].
  rewrite bind_lift_Ok, bind_mret.
  destruct (pp_test_dataloaders_list self !! idx) as [[test_data |] |];
    cbn; eauto.
Qed.

Lemma predict_loop_unbound self datasets : ∀ idx st,
  trace (predict_loop Model eval_model module_globals self idx datasets st) = [] ∧
  (outcome (predict_loop Model eval_model module_globals self idx datasets st) = Ok st ∨
   ∃ e, outcome (predict_loop Model eval_model module_globals self idx datasets st)
        = Raise e).
Proof.
  induction datasets as [| d rest IH]; intros idx st; [cbn; eauto |].
  cbn [predict_loop]. rewrite trace_bind, outcome_bind.
  destruct (predict_iteration_unbound self idx d st) as [-> [-> | [e ->]]].
  - apply IH.
  - eauto.
Qed.

Lemma predict_unbound self st :
  ∃ e, predict Model eval_model module_globals self st = Eff [] (Raise e).
Proof.
  unfold predict.
  destruct (predict_loop_unbound self (pp_test_datasets_list self) 0%nat st)
    as [Htr [Hout | [e Hout]]].
  - exists (NameError "output_dir").
    unfold mbind at 1, eff_bind. rewrite Hout, Htr. done.
  - exists e. unfold mbind at 1, eff_bind. by rewrite Hout, Htr.
Qed.

End PredictUnbound.

(** C4, at the first batch of the sample pipeline, where the interval
    checkpoint is due: the log record is emitted, no model file is
    written, and the batch, and with it [fit], ends in [NameError] on
    [output_dir], which [fit] reads as a module-level name. *)
Theorem interval_checkpoint_raises_name_error :
  PipelineSamples.first_batch module_globals
  = Eff [EvInfoBatch false 0 PipelineSamples.batch;
         EvInfoBatch true 0 PipelineSamples.batch;
         EvPrintTimeLeft "0:00:09";
         EvInfoTrain 0 1 0.5%float "0:00:09"]
        (Raise (NameError "output_dir")) ∧
  PipelineSamples.training module_globals
  = Eff [EvInfoTotalParams 1000; EvInfoEpoch 0; EvPrintLength 4;
         EvInfoBatch false 0 PipelineSamples.batch;
         EvInfoBatch true 0 PipelineSamples.batch;
         EvPrintTimeLeft "0:00:09";
         EvInfoTrain 0 1 0.5%float "0:00:09"]
        (Raise (NameError "output_dir")).
Proof. split; by vm_compute. Qed.

(** C7, on the sample pipeline and on every other: with the module's
    own globals [predict] emits nothing and raises; where no dataloader is
    present it raises [NameError] on [output_dir] before the final
    checkpoint and before the monitoring sink is closed, and where one is
    present it raises on [task_defs] at the first of them. *)
Theorem final_checkpoint_raises_name_error :
  PipelineSamples.evaluation module_globals
    = Eff [] (Raise (NameError "output_dir")) ∧
  PipelineSamples.evaluation_with_dev module_globals
    = Eff [] (Raise (NameError "task_defs")) ∧
  ∀ Model eval_model self st,
    ∃ e, predict Model eval_model module_globals self st = Eff [] (Raise e).
Proof.
  split; [by vm_compute |]. split; [by vm_compute |].
  intros. apply predict_unbound.
Qed.

(** ** Theorems about missing split files *)

Section MissingSplit.

Variable task_defs : TaskDefs.
Variable data_dir : string.
Variable path_exists : string → bool.
Variable readable : string → bool.
Variable Model : Type.
Variable eval_model :
  Model → EvalDataLoader → list Z → bool → bool → option (list string) →
  TaskType → result (EvalOutput * Model).
Variable genv : Globals.

(** C5: a test dataset whose dev (test) file is absent gets [None] as its
    dev (test) dataloader, and its absence alone raises nothing; for a
    position whose dev (test) dataloader is [None] the loop body of
    [predict] emits nothing of the dev (test) phase: no inference call, no
    metric event, no score file of that split. *)
Theorem missing_split_is_skipped :
  (∀ datasets self devs tests i d,
     process_dev_test_datasets task_defs data_dir path_exists readable
       datasets self = Ok (devs, tests) →
     datasets !! i = Some d →
     (path_exists (dev_path data_dir d) = false → devs !! i = Some None) ∧
     (path_exists (test_path data_dir d) = false → tests !! i = Some None)) ∧
  (∀ datasets self,
     Forall (loadable task_defs data_dir path_exists readable self) datasets →
     ∃ devs tests,
       process_dev_test_datasets task_defs data_dir path_exists readable
         datasets self = Ok (devs, tests)) ∧
  (∀ self idx dataset st ev,
     pp_dev_dataloaders_list self !! idx = Some None →
     ev ∈ trace (predict_iteration Model eval_model genv self idx dataset st) →
     ¬ dev_split_event genv dataset ev) ∧
  (∀ self idx dataset st ev,
     pp_test_dataloaders_list self !! idx = Some None →
     ev ∈ trace (predict_iteration Model eval_model genv self idx dataset st) →
     ¬ test_split_event genv dataset ev).
Proof.
  split; [| split; [| split]].
  - intros datasets self devs tests i d Hrun Hd.
    unfold process_dev_test_datasets in Hrun.
    apply dev_test_loop_Ok in Hrun as (des & tes & -> & -> & _ & _ & Hall).
    destruct (Hall i d Hd)
      as (dev & test & Hdev & Htest & id & tt & dt & _ & _ & _ & -> & ->).
    cbn. rewrite Hdev, Htest. unfold split_entry.
    split; intros ->; done.
  - intros datasets self. apply dev_test_loop_total.
  - intros self idx dataset st ev Hnone Hev Hdev.
    eapply split_events_disjoint; [| exact Hdev].
    by eapply predict_iteration_no_dev_events.
  - intros self idx dataset st ev Hnone Hev Htest.
    eapply split_events_disjoint; [exact Htest |].
    by eapply predict_iteration_no_test_events.
Qed.

End MissingSplit.

Lemma missing_split_is_skipped_witness :
  match Samples.run 0 ["mnli"%string] with
  | Ok (r, _) =>
      match process_dev_test_datasets Samples.defs "data" Samples.exists_
              Samples.readable_ ["mnli_matched"; "mnli_mismatched"]%string r
      with
      | Ok (devs, tests) => devs !! 1%nat = Some None ∧ tests !! 0%nat = Some None
      | Raise _ => False
      end
  | Raise _ => False
  end.
Proof.
  destruct (Samples.run 0 ["mnli"%string]) as [[r dl] |] eqn:E;
    [| by vm_compute in E].
  destruct (process_dev_test_datasets Samples.defs "data" Samples.exists_
              Samples.readable_ ["mnli_matched"; "mnli_mismatched"]%string r)
    as [[devs tests] |] eqn:E2.
  - pose proof (missing_split_is_skipped Samples.defs "data" Samples.exists_
                  Samples.readable_ Z PipelineSamples.eval_model module_globals)
      as [Hnone _].
    split.
    + by apply (Hnone _ _ _ _ 1%nat "mnli_mismatched"%string E2).
    + by apply (Hnone _ _ _ _ 0%nat "mnli_matched"%string E2).
  - vm_compute in E. injection E as <- _. by vm_compute in E2.
Defined.

(** * Further properties *)

(** ** Registration: duplicates and failures *)

Lemma elem_of_foldl_see {A} `{EqDecision A} (l : list A) : ∀ acc x,
  x ∈ foldl see acc l ↔ x ∈ acc ∨ x ∈ l.
Proof.
  induction l as [| y l IH]; intros acc x; cbn.
  - rewrite elem_of_nil. tauto.
  - rewrite IH, elem_of_cons. unfold see.
    destruct (decide (y ∈ acc)) as [Hin | Hnin].
    + split; [tauto |]. intros [? | [-> | ?]]; auto.
    + rewrite elem_of_app, list_elem_of_singleton. tauto.
Qed.

Section RegistrationFailures.

Variable task_defs : TaskDefs.
Variable data_dir : string.
Variable readable : string → bool.

Abbreviation train_iteration_at := (train_iteration task_defs data_dir readable).
Abbreviation train_loop_at := (train_loop task_defs data_dir readable).
Abbreviation process_train_at :=
  (process_train_datasets task_defs data_dir readable).

(** After a run of the loop from a fresh registry, the registered
    prefixes are those of the datasets met. *)
Lemma train_loop_registered c datasets r tds p :
  train_loop_at datasets (new_registry c) [] = Ok (r, tds) →
  is_Some (tasks r !! p) ↔ p ∈ split_prefix <$> datasets.
Proof.
  intros Hrun.
  destruct (train_loop_inv _ _ _ _ _ _ _ _ _ (train_inv_new _ c) Hrun)
    as (Hinv & _ & _).
  rewrite <- (indexed_elem_of _ _ _ (inv_tasks _ _ _ _ _ Hinv)).
  rewrite elem_of_foldl_see, elem_of_nil. tauto.
Qed.

(** X1: a dataset whose prefix an earlier dataset of the list already
    has changes nothing: the run with it equals the run without it, in
    its result or in its exception. *)
Theorem repeated_prefix_is_ignored c before dataset after :
  split_prefix dataset ∈ split_prefix <$> before →
  process_train_at (before ++ dataset :: after) (new_registry c)
  = process_train_at (before ++ after) (new_registry c).
Proof.
  intros Hin. unfold process_train_datasets. f_equal.
  rewrite !train_loop_app.
  destruct (train_loop_at before (new_registry c) []) as [[r1 tds1] |] eqn:Hrun;
    [| done].
  cbn [mbind result_bind train_loop].
  rewrite train_iteration_skip; [done |].
  by apply (train_loop_registered _ _ _ _ _ Hrun).
Qed.

(** X2: on a prefix not yet registered the loop body succeeds exactly
    when the prefix has an entry in each of the six maps [n_class_map],
    [data_type_map], [task_type_map], [enable_san_map], [loss_map] and
    [kd_loss_map] and the train file can be read; [dropout_p_map] is not
    needed.  A prefix missing from [n_class_map] or [data_type_map] fails
    the assertions; one missing only from [task_type_map] raises
    [KeyError] on the prefix. *)
Theorem registration_needs_six_maps dataset self tds :
  let prefix := split_prefix dataset in
  tasks self !! prefix = None →
  ((∃ self' tds', train_iteration_at dataset self tds = Ok (self', tds')) ↔
   is_Some (n_class_map task_defs !! prefix) ∧
   is_Some (data_type_map task_defs !! prefix) ∧
   is_Some (task_type_map task_defs !! prefix) ∧
   is_Some (enable_san_map task_defs !! prefix) ∧
   is_Some (loss_map task_defs !! prefix) ∧
   is_Some (kd_loss_map task_defs !! prefix) ∧
   readable (path_join data_dir (dataset +:+ "_train.json")) = true) ∧
  (n_class_map task_defs !! prefix = None ∨
   data_type_map task_defs !! prefix = None →
   train_iteration_at dataset self tds = Raise (AssertionError "")) ∧
  (is_Some (n_class_map task_defs !! prefix) →
   is_Some (data_type_map task_defs !! prefix) →
   task_type_map task_defs !! prefix = None →
   train_iteration_at dataset self tds = Raise (KeyError prefix)).
Proof.
  intros prefix Hnew. split; [| split].
  - split.
    + intros (self' & tds' & Hrun).
      destruct (train_iteration_new _ _ _ _ _ _ _ _ Hnew Hrun)
        as (dt & n & tt & san & l & k & Hd & Hn & Ht & Hs & Hl & Hk & Hr & _).
      fold prefix in Hd, Hn, Ht, Hs, Hl, Hk. rewrite Hd, Hn, Ht, Hs, Hl, Hk.
      eauto 10.
    + intros ([n Hn] & [dt Hd] & [tt Ht] & [san Hs] & [l Hl] & [k Hk] & Hr).
      rewrite (train_iteration_eq _ _ _ _ _ _ _ _ _ _ _ _ Hnew Hd Hn Ht Hs Hl Hk).
      rewrite Hr. eauto.
  - intros Hmiss. unfold train_iteration. fold prefix.
    rewrite !contains_lookup, Hnew.
    destruct Hmiss as [-> | Hd]; [done |].
    destruct (n_class_map task_defs !! prefix); [| done].
    by rewrite Hd.
  - intros [n Hn] [dt Hd] Ht. unfold train_iteration. fold prefix.
    rewrite !contains_lookup, Hnew, Hn, Hd. unfold getitem.
    rewrite Hn, Hd, Ht. cbn [py_assert mbind result_bind].
    rewrite pick_task_id_eq. done.
Qed.

End RegistrationFailures.

(** ** Registration: what the sequences hold *)

Lemma length_foldl_see {A} `{EqDecision A} (l : list A) : ∀ acc,
  (length (foldl see acc l) ≤ length acc + length l)%nat.
Proof.
  induction l as [| y l IH]; intros acc; cbn; [lia |].
  etrans; [apply IH |]. unfold see.
  destruct (decide (y ∈ acc)); [lia |].
  rewrite length_app. cbn. lia.
Qed.

Lemma length_omap_le {A B} (f : A → option B) (l : list A) :
  (length (omap f l) ≤ length l)%nat.
Proof.
  induction l as [| x l IH]; cbn; [lia |].
  destruct (f x); cbn; lia.
Qed.

Section RegistrationContents.

Variable task_defs : TaskDefs.
Variable data_dir : string.
Variable readable : string → bool.

Abbreviation process_train_in :=
  (process_train_datasets task_defs data_dir readable).

Lemma dopt_of_range c p d :
  dopt_of task_defs c p = Some d → d < 3 ∧ (d = 0 ∨ d = answer_opt c).
Proof.
  unfold dopt_of, generate_decoder_opt.
  destruct (enable_san_map task_defs !! p) as [[|] |]; cbn; [| | done].
  - destruct (Z.ltb_spec (answer_opt c) 3); intros [= <-]; lia.
  - intros [= <-]. lia.
Qed.

(** Every entry of [decoder_opts] is the decoder option of some
    registered prefix. *)
Lemma decoder_opts_from_prefix c datasets r dl d :
  process_train_in datasets (new_registry c) = Ok (r, dl) →
  d ∈ decoder_opts r →
  ∃ p, is_Some (tasks r !! p) ∧ dopt_of task_defs c p = Some d.
Proof.
  intros Hrun [i Hi]%list_elem_of_lookup.
  destruct (process_train_datasets_inv _ _ _ _ _ _ _ Hrun)
    as (Hinv & Hmtl & Hans & _).
  pose proof (inv_decoder_opts _ _ _ _ _ Hinv) as Hdo.
  pose proof (inv_tasks _ _ _ _ _ Hinv) as Hps.
  assert (dopt_of task_defs (config r) = dopt_of task_defs c) as Hdopt.
  { unfold dopt_of. by rewrite Hans. }
  destruct (0 <? mtl_opt (config r)).
  - destruct (Forall2_lookup_r _ _ _ _ _ Hdo Hi) as (n & _ & [(p & Hp & _ & Hd) _]).
    exists p. rewrite <- Hdopt. split; [| done].
    by apply (indexed_elem_of _ _ _ Hps).
  - destruct (Forall2_lookup_r _ _ _ _ _ Hdo Hi) as (p & Hp & Hd).
    exists p. rewrite <- Hdopt. split; [| done].
    apply (indexed_elem_of _ _ _ Hps). by eapply list_elem_of_lookup_2.
Qed.

(** X3: whatever the sharing policy, every entry of the [decoder_opts]
    the config receives is below 3, and is either 0 or the config's
    [answer_opt]. *)
Theorem decoder_opts_are_bounded c datasets r dl :
  process_train_in datasets (new_registry c) = Ok (r, dl) →
  ∃ ds, cfg_decoder_opts (config r) = Some ds ∧
        Forall (λ d, d < 3 ∧ (d = 0 ∨ d = answer_opt c)) ds.
Proof.
  intros Hrun. exists (decoder_opts r). split.
  - by destruct (process_train_datasets_inv _ _ _ _ _ _ _ Hrun)
      as (_ & _ & _ & _ & -> & _).
  - apply Forall_forall. intros d Hd.
    destruct (decoder_opts_from_prefix _ _ _ _ _ Hrun Hd) as (p & _ & Hp).
    by eapply dopt_of_range.
Qed.

(** X4: under class sharing with [0 <= answer_opt < 3], the decoder
    option of a shared id is [answer_opt] when every registered prefix of
    that label count enables SAN, and 0 as soon as one of them does
    not. *)
Theorem shared_id_needs_san_everywhere c datasets r dl n i :
  process_train_in datasets (new_registry c) = Ok (r, dl) →
  0 < mtl_opt c →
  0 <= answer_opt c < 3 →
  tasks_class r !! n = Some i →
  ∃ d, decoder_opts r !! i = Some d ∧
    ((∀ p, is_Some (tasks r !! p) → n_class_map task_defs !! p = Some n →
           enable_san_map task_defs !! p = Some true) → d = answer_opt c) ∧
    ((∃ p, is_Some (tasks r !! p) ∧ n_class_map task_defs !! p = Some n ∧
           enable_san_map task_defs !! p = Some false) → d = 0).
Proof.
  intros Hrun Hsh Hans Hi.
  destruct (process_train_datasets_inv _ _ _ _ _ _ _ Hrun)
    as (Hinv & Hmtl & Ha & _).
  pose proof (inv_decoder_opts _ _ _ _ _ Hinv) as Hdo.
  pose proof (inv_tasks _ _ _ _ _ Hinv) as Hps.
  pose proof (inv_tasks_class _ _ _ _ _ Hinv) as Hcs.
  rewrite Hmtl in Hdo. destruct (Z.ltb_spec 0 (mtl_opt c)); [| lia].
  apply Hcs in Hi.
  destruct (Forall2_lookup_l _ _ _ _ _ Hdo Hi)
    as (d & Hd & [(p0 & Hp0 & Hn0 & Hd0) Hle]).
  exists d. split; [done |].
  unfold dopt_of in Hd0, Hle. rewrite Ha in Hd0, Hle.
  split.
  - intros Hall.
    rewrite (Hall p0) in Hd0; [| by apply (indexed_elem_of _ _ _ Hps) | done].
    cbn in Hd0. injection Hd0 as <-. unfold generate_decoder_opt. cbn.
    destruct (Z.ltb_spec (answer_opt c) 3); [done | lia].
  - intros (p & Hp & Hn & Hs).
    apply (indexed_elem_of _ _ _ Hps) in Hp.
    specialize (Hle p 0 Hp Hn). rewrite Hs in Hle. cbn in Hle.
    specialize (Hle eq_refl).
    destruct (enable_san_map task_defs !! p0) as [san |]; [| done].
    cbn in Hd0. injection Hd0 as <-. unfold generate_decoder_opt in *.
    destruct (san && (answer_opt c <? 3))%bool; lia.
Qed.

(** X5: [decoder_opts] and [nclass_list] have one common length, which
    never exceeds that of [task_types], [loss_types], [kd_loss_types] and
    [dropout_list]; and these are never longer than the list of train
    datasets. *)
Theorem sequence_lengths_are_ordered c datasets r dl :
  process_train_in datasets (new_registry c) = Ok (r, dl) →
  length (decoder_opts r) = length (nclass_list r) ∧
  (length (decoder_opts r) ≤ length (task_types r))%nat ∧
  length (task_types r) = length (loss_types r) ∧
  length (task_types r) = length (kd_loss_types r) ∧
  length (task_types r) = length (dropout_list r) ∧
  length (task_types r) = size (tasks r) ∧
  length (task_types r) = length (tdl_dataset dl) ∧
  (length (task_types r) ≤ length datasets)%nat.
Proof.
  intros Hrun.
  destruct (process_train_datasets_inv _ _ _ _ _ _ _ Hrun) as (Hinv & _).
  set (ps := first_seen (split_prefix <$> datasets)) in *.
  pose proof (inv_decoder_opts _ _ _ _ _ Hinv) as Hdo.
  pose proof (inv_nclass_list _ _ _ _ _ Hinv) as Hnl.
  pose proof (Forall2_length _ _ _ (inv_task_types _ _ _ _ _ Hinv)) as Htt.
  pose proof (Forall2_length _ _ _ (inv_loss_types _ _ _ _ _ Hinv)) as Hlt.
  pose proof (Forall2_length _ _ _ (inv_kd_loss_types _ _ _ _ _ Hinv)) as Hkt.
  pose proof (Forall2_length _ _ _ (inv_train_datasets _ _ _ _ _ Hinv)) as Htd.
  pose proof (inv_dropout_list _ _ _ _ _ Hinv) as Hdl.
  destruct (inv_tasks _ _ _ _ _ Hinv) as [Hsz _].
  assert (length (classes_of task_defs ps) ≤ length ps)%nat as Hcs.
  { unfold classes_of, first_seen.
    etrans; [apply length_foldl_see |]. cbn. apply length_omap_le. }
  assert (length ps ≤ length datasets)%nat as Hps.
  { unfold ps, first_seen. etrans; [apply length_foldl_see |].
    cbn. by rewrite length_fmap. }
  rewrite Hdl, length_fmap, <- Htt, <- Hlt, <- Hkt, <- Htd, Hsz.
  destruct (0 <? mtl_opt (config r)).
  - apply Forall2_length in Hdo. rewrite Hnl, <- Hdo. repeat split; lia.
  - apply Forall2_length in Hdo, Hnl. rewrite <- Hdo, <- Hnl. repeat split; lia.
Qed.

End RegistrationContents.

(** ** Registration: the training files *)

(** A prefix never holds an underscore, and a name built from a prefix,
    an underscore and anything has that prefix. *)
Lemma split_head_no_sep sep s : ∀ x, split_head sep (split_head sep s +:+ String sep x)
                                     = split_head sep s.
Proof.
  assert (∀ t, "" +:+ t = t) as Hnil by done.
  assert (∀ c s t, String c s +:+ t = String c (s +:+ t)) as Hcons by done.
  induction s as [| c s IH]; intros x; cbn [split_head].
  - rewrite Hnil. cbn [split_head]. by rewrite Ascii.eqb_refl.
  - destruct (Ascii.eqb c sep) eqn:E.
    + rewrite Hnil. cbn [split_head]. by rewrite Ascii.eqb_refl.
    + rewrite Hcons. cbn [split_head]. by rewrite E, IH.
Qed.

(** X6: names that agree up to their first underscore are one task:
    the prefix of [prefix_variant] is the prefix, and taking the prefix
    twice changes nothing. *)
Theorem split_prefix_of_variant (dataset variant : string) :
  split_prefix (split_prefix dataset +:+ "_" +:+ variant) = split_prefix dataset ∧
  split_prefix (split_prefix dataset) = split_prefix dataset.
Proof.
  unfold split_prefix. split; [apply split_head_no_sep |].
  induction dataset as [| c s IH]; cbn; [done |].
  destruct (Ascii.eqb c "_") eqn:E; cbn; [done |]. by rewrite E, IH.
Qed.

Section TrainingFiles.

Variable task_defs : TaskDefs.
Variable data_dir : string.
Variable readable : string → bool.

Lemma train_loop_files datasets : ∀ acc r tds r' tds',
  train_inv task_defs (split_prefix <$> acc)
    (classes_of task_defs (split_prefix <$> acc)) r tds →
  Forall2 (built_from task_defs data_dir (config r)) acc tds →
  train_loop task_defs data_dir readable datasets r tds = Ok (r', tds') →
  Forall2 (built_from task_defs data_dir (config r))
    (foldl see_dataset acc datasets) tds'.
Proof.
  induction datasets as [| d rest IH]; intros acc r tds r' tds' Hinv Hacc Hrun.
  - cbn in Hrun. by injection Hrun as <- <-.
  - cbn [train_loop] in Hrun.
    destruct (train_iteration task_defs data_dir readable d r tds)
      as [[r1 tds1] |] eqn:Hstep; [| done].
    cbn [mbind result_bind] in Hrun. cbn [foldl].
    destruct (train_iteration_inv _ _ _ _ _ _ _ _ _ Hinv Hstep) as (Hinv1 & Hc1 & _).
    cbn in Hinv1.
    pose proof (indexed_elem_of _ _ (split_prefix d) (inv_tasks _ _ _ _ _ Hinv))
      as Hmem.
    unfold see_dataset. unfold see in Hinv1.
    destruct (decide (split_prefix d ∈ split_prefix <$> acc)) as [Hin | Hnin].
    + rewrite train_iteration_skip in Hstep by (by apply Hmem).
      injection Hstep as <- <-. by eapply IH.
    + assert (tasks r !! split_prefix d = None) as Hnew.
      { apply eq_None_not_Some. by rewrite <- Hmem. }
      destruct (train_iteration_new _ _ _ _ _ _ _ _ Hnew Hstep)
        as (dt & n & tt & san & l & k & Hd & Hn & Ht & _ & _ & _ & _ & _ & ->).
      rewrite <- Hc1. eapply IH; [| | exact Hrun].
      * by rewrite fmap_app.
      * rewrite Hc1. apply Forall2_app; [done |].
        constructor; [| constructor]. by repeat split.
Qed.

(** X7: the train dataloader holds one dataset object per prefix, built
    from the first dataset of the list with that prefix: its file is
    [<data_dir>/<dataset>_train.json], it is a training set cut at
    [max_seq_len], and it has the task type and data type of the prefix.
    The sampler runs over the same objects with the config's batch size,
    mix option and ratio. *)
Theorem train_files_are_first_listed c datasets r dl :
  process_train_datasets task_defs data_dir readable datasets (new_registry c)
    = Ok (r, dl) →
  Forall2 (built_from task_defs data_dir c) (first_by_prefix datasets)
    (tdl_dataset dl) ∧
  bs_datasets (tdl_batch_sampler dl) = tdl_dataset dl ∧
  bs_batch_size (tdl_batch_sampler dl) = batch_size c ∧
  bs_mix_opt (tdl_batch_sampler dl) = mix_opt c ∧
  bs_ratio (tdl_batch_sampler dl) = ratio c ∧
  tdl_pin_memory dl = cuda c.
Proof.
  intros Hrun. unfold process_train_datasets in Hrun.
  destruct (train_loop task_defs data_dir readable datasets (new_registry c) [])
    as [[r0 tds] |] eqn:Hloop; [| done].
  cbn [mbind result_bind] in Hrun. injection Hrun as <- <-.
  destruct (train_loop_inv _ _ _ _ _ _ _ _ _ (train_inv_new _ c) Hloop)
    as (_ & Hc & _).
  cbn in Hc. cbn. rewrite Hc. split; [| done].
  by apply (train_loop_files datasets [] (new_registry c) [] r0 tds
              (train_inv_new _ c)).
Qed.

End TrainingFiles.

(** ** Construction: which test datasets are accepted *)

Section TestTasks.

Variable task_defs : TaskDefs.
Variable data_dir : string.
Variable path_exists : string → bool.
Variable readable : string → bool.
Variable dataloader_len : TrainDataLoader → Z.

(** X8: when the constructor succeeds, every test dataset belongs to a
    trained task.  Without class sharing its prefix is the prefix of some
    train dataset; with class sharing it is enough that some train dataset
    has the same label count, whatever the prefix. *)
Theorem test_tasks_are_trained c train tests obj :
  init_data_process task_defs data_dir path_exists readable dataloader_len
    c train tests = Ok obj →
  train ≠ [] ∧ tests ≠ [] ∧
  ∀ d, d ∈ tests →
    (mtl_opt c < 1 → split_prefix d ∈ split_prefix <$> train) ∧
    (0 < mtl_opt c →
       ∃ t n, t ∈ train ∧
              n_class_map task_defs !! split_prefix t = Some n ∧
              n_class_map task_defs !! split_prefix d = Some n).
Proof.
  unfold init_data_process, py_assert. intros Hrun.
  destruct train as [| t0 train]; [done |].
  destruct tests as [| d0 tests]; [done |].
  cbn [length Nat.leb mbind result_bind] in Hrun.
  split; [done |]. split; [done |].
  destruct (process_train_datasets _ _ _ _ _) as [[r dl] |] eqn:Htrain; [| done].
  cbn [mbind result_bind] in Hrun.
  destruct (process_dev_test_datasets _ _ _ _ _ _) as [[devs tsts] |] eqn:Htest;
    [| done].
  clear Hrun.
  destruct (process_train_datasets_inv _ _ _ _ _ _ _ Htrain)
    as (Hinv & Hmtl & _).
  set (ps := first_seen (split_prefix <$> t0 :: train)) in *.
  pose proof (inv_tasks _ _ _ _ _ Hinv) as Hps.
  pose proof (inv_tasks_class _ _ _ _ _ Hinv) as Hcs.
  assert (∀ p, p ∈ ps ↔ p ∈ split_prefix <$> t0 :: train) as Hmem.
  { intros p. unfold ps, first_seen. rewrite elem_of_foldl_see, elem_of_nil. tauto. }
  unfold process_dev_test_datasets in Htest.
  apply dev_test_loop_Ok in Htest as (des & tes & _ & _ & _ & _ & Hall).
  intros d [i Hi]%list_elem_of_lookup.
  destruct (Hall i d Hi) as (_ & _ & _ & _ & id & tt & dt & Hid & _).
  apply test_task_id_resolved in Hid. unfold resolved_id in Hid.
  rewrite Hmtl in Hid.
  destruct (Z.ltb_spec 0 (mtl_opt c)) as [Hsh | Hown]; (split; [| ]); try lia.
  - intros _.
    destruct (n_class_map task_defs !! split_prefix d) as [n |] eqn:Hn;
      [cbn in Hid | done].
    assert (n ∈ classes_of task_defs ps) as Hin.
    { apply (indexed_elem_of _ _ _ Hcs). eauto. }
    apply (inv_cs_ps _ _ _ _ _ Hinv) in Hin as (q & Hq & Hqn).
    apply Hmem, list_elem_of_fmap in Hq as (t & -> & Ht).
    by exists t, n.
  - intros _. apply Hmem, (indexed_elem_of _ _ _ Hps). eauto.
Qed.

End TestTasks.

(** ** Training: every batch, once, in order *)

Section FitRuns.

Variable Model : Type.
Variable local_updates : Model → Z.
Variable updates : Model → Z.
Variable train_loss_avg : Model → pyfloat.
Variable total_param : Model → Z.
Variable model_update : Model → Batch → result Model.
Variable patch_data : bool → Batch → Batch.
Variable dataloader_len : TrainDataLoader → Z.
Variable dataloader_pass : TrainDataLoader → nat → list Batch.
Variable clock : nat → Z.
Variable genv : Globals.

Abbreviation fit_batch_run :=
  (fit_batch Model local_updates updates train_loss_avg model_update
     patch_data dataloader_len clock genv).
Abbreviation fit_batches_run :=
  (fit_batches Model local_updates updates train_loss_avg model_update
     patch_data dataloader_len clock genv).
Abbreviation fit_epochs_run :=
  (fit_epochs Model local_updates updates train_loss_avg model_update
     patch_data dataloader_len dataloader_pass clock genv).
Abbreviation fit_run :=
  (fit Model local_updates updates train_loss_avg total_param model_update
     patch_data dataloader_len dataloader_pass clock genv).
Abbreviation apply_updates_run := (apply_updates Model model_update patch_data).

Lemma fit_batch_raises self epoch start idx batch st e :
  model_update (rs_model st) (patch_data (cuda (pp_config self)) batch) = Raise e →
  fit_batch_run self epoch start idx batch st
  = Eff [EvInfoBatch false idx batch;
         EvInfoBatch true idx (patch_data (cuda (pp_config self)) batch)]
        (Raise e).
Proof.
  intros Hupd. unfold fit_batch. rewrite !bind_emit. by rewrite Hupd.
Qed.

Lemma fit_batch_Ok self epoch start idx batch st st1 :
  outcome (fit_batch_run self epoch start idx batch st) = Ok st1 →
  model_update (rs_model st) (patch_data (cuda (pp_config self)) batch)
  = Ok (rs_model st1).
Proof.
  destruct (model_update (rs_model st)
              (patch_data (cuda (pp_config self)) batch)) as [model | e] eqn:Hupd.
  - rewrite (fit_batch_outcome _ _ _ _ _ _ _ _ _ _ _ _ _ _ _ _ Hupd).
    rewrite fit_log_eq.
    destruct (log_due _ _ _ _) as [[|] | ?]; cbn [outcome]; [| | done].
    + destruct (time_left_of _ _ _ _ _); cbn [outcome]; [| done].
      destruct (outcome _); [| done]. by intros [= <-].
    + destruct (outcome _); [| done]. by intros [= <-].
  - by rewrite (fit_batch_raises _ _ _ _ _ _ _ Hupd).
Qed.

Lemma log_due_total self model :
  log_per_updates (pp_config self) * grad_accumulation_step (pp_config self) ≠ 0 →
  ∃ b, log_due Model local_updates self model = Ok b.
Proof.
  intros Hd. unfold log_due, py_mod.
  destruct (local_updates model =? 1); [eauto |].
  destruct (Z.eqb_spec (log_per_updates (pp_config self)
                        * grad_accumulation_step (pp_config self)) 0);
    [done | cbn; eauto].
Qed.

Lemma fit_batches_Ok self epoch start batches : ∀ idx st st',
  outcome (fit_batches_run self epoch start idx batches st) = Ok st' →
  apply_updates_run (cuda (pp_config self)) batches (rs_model st)
  = Ok (rs_model st').
Proof.
  induction batches as [| b rest IH]; intros idx st st'; cbn [fit_batches apply_updates].
  - by intros [= <-].
  - rewrite outcome_bind.
    destruct (outcome (fit_batch_run self epoch start idx b st)) as [st1 |] eqn:H1;
      [| done].
    intros Hrest. rewrite (fit_batch_Ok _ _ _ _ _ _ _ H1). cbn.
    by eapply IH.
Qed.

Lemma apply_updates_app cuda a : ∀ b m,
  apply_updates_run cuda (a ++ b) m
  = (m1 ← apply_updates_run cuda a m; apply_updates_run cuda b m1).
Proof.
  induction a as [| x a IH]; intros b m; cbn; [done |].
  destruct (model_update m (patch_data cuda x)); cbn; [apply IH | done].
Qed.

Lemma fit_epochs_Ok self count : ∀ epoch st st',
  outcome (fit_epochs_run self epoch count st) = Ok st' →
  apply_updates_run (cuda (pp_config self))
    (all_batches dataloader_pass (pp_multitask_train_dataloader self) epoch count)
    (rs_model st)
  = Ok (rs_model st').
Proof.
  induction count as [| count IH]; intros epoch st st'; cbn [fit_epochs].
  - by intros [= <-].
  - rewrite outcome_bind. unfold fit_epoch at 1.
    rewrite !bind_emit. cbn [outcome].
    destruct (outcome (fit_batches_run self _ _ 0%nat _ (tick st)))
      as [st1 |] eqn:H1; [| done].
    intros Hrest. apply fit_batches_Ok in H1. apply IH in Hrest.
    unfold all_batches. cbn [seq fmap list_fmap concat].
    rewrite apply_updates_app. cbn [rs_model tick] in H1.
    by rewrite H1.
Qed.

(** X9: when [fit] returns, the model it leaves is the one obtained by
    applying the update step to every batch of every epoch, once each, in
    the order the dataloader yields them, each batch after [patch_data];
    the epochs are [epochs or config.epochs] many. *)
Theorem fit_updates_every_batch_once self epochs_arg st st' :
  outcome (fit_run self epochs_arg st) = Ok st' →
  apply_updates_run (cuda (pp_config self))
    (all_batches dataloader_pass (pp_multitask_train_dataloader self) 0
       (epochs_to_run self epochs_arg))
    (rs_model st)
  = Ok (rs_model st').
Proof.
  unfold fit. rewrite bind_emit. cbn [outcome]. apply fit_epochs_Ok.
Qed.

(** *** Runs whose time estimates are timedeltas *)

Section TimeFits.

Variable self : Pipeline.
Variable n T : nat.
Variable span : Z.

Hypothesis checkpoints_off : save_per_updates_on (pp_config self) = false.
Hypothesis log_interval :
  log_per_updates (pp_config self) * grad_accumulation_step (pp_config self) ≠ 0.
Hypothesis pass_bound :
  ∀ e, (length (dataloader_pass (pp_multitask_train_dataloader self) e) ≤ n)%nat.
Hypothesis len_nonneg : 0 <= dataloader_len (pp_multitask_train_dataloader self).
Hypothesis clock_span :
  ∀ i j, (i ≤ j ≤ T)%nat → Z.abs (clock j - clock i) <= span.
Hypothesis span_fits :
  span * Z.max 1 (Z.max (dataloader_len (pp_multitask_train_dataloader self))
                    (Z.of_nat n))
  <= 999999999 * 86400000000.

Lemma estimate_exists i j idx :
  (i ≤ j ≤ T)%nat → (idx < n)%nat →
  ∃ text, time_left_of dataloader_len self (clock j) (clock i) idx = Ok text.
Proof.
  intros Hij Hidx.
  pose proof (clock_span i j Hij) as Hspan.
  set (elapsed := clock j - clock i) in *.
  assert (0 < Z.of_nat idx + 1) as Hpos by lia.
  pose proof (divide_and_round_nearest elapsed _ Hpos) as Hq.
  destruct (nearest_even_between _ _ _ Hpos Hq) as [Hp Hn].
  set (q := divide_and_round elapsed (Z.of_nat idx + 1)) in *.
  set (len := dataloader_len (pp_multitask_train_dataloader self)) in *.
  set (M := Z.max 1 (Z.max len (Z.of_nat n))) in *.
  assert (Z.abs q <= span) as Hqs.
  { destruct (Z.le_ge_cases 0 elapsed);
      [specialize (Hp ltac:(lia)) | specialize (Hn ltac:(lia))]; lia. }
  assert (Z.abs (len - Z.of_nat idx - 1) <= M) as Hleft by lia.
  assert (1 <= M) as HM by lia.
  assert (0 <= span) as Hs0 by lia.
  assert (Z.abs (q * (len - Z.of_nat idx - 1)) <= span * M) as Hprod.
  { rewrite Z.abs_mul. apply Z.mul_le_mono_nonneg; lia. }
  assert (span <= span * M) as HsM by nia.
  exists (time_text (q * (len - Z.of_nat idx - 1))).
  apply (time_left_of_Ok dataloader_len). exists q.
  split; [done |]. split; [| split; [| done]];
    apply timedelta_in_range_bounds; fold elapsed len; lia.
Qed.

Lemma fit_batch_total epoch i idx batch st model :
  (i ≤ rs_ticks st ≤ T)%nat → (idx < n)%nat →
  model_update (rs_model st) (patch_data (cuda (pp_config self)) batch) = Ok model →
  ∃ st1, outcome (fit_batch_run self epoch (clock i) idx batch st) = Ok st1 ∧
         rs_model st1 = model ∧
         (rs_ticks st1 ≤ S (rs_ticks st))%nat ∧ (rs_ticks st ≤ rs_ticks st1)%nat.
Proof.
  intros Hi Hidx Hupd.
  rewrite (fit_batch_outcome _ _ _ _ _ _ _ _ _ _ _ _ _ _ _ _ Hupd).
  rewrite fit_log_eq, fit_checkpoint_eq.
  destruct (log_due_total self model log_interval) as [b ->].
  unfold save_due. rewrite checkpoints_off. cbn [rs_ticks with_model].
  destruct b; cbn [outcome].
  - destruct (estimate_exists i (rs_ticks st) idx Hi Hidx) as [text ->].
    cbn. eexists. split; [done |]. cbn. split; [done | lia].
  - eexists. split; [done |]. cbn. split; [done | lia].
Qed.

Lemma fit_batches_total epoch i batches : ∀ idx st m,
  (i ≤ rs_ticks st)%nat →
  (rs_ticks st + length batches ≤ T)%nat →
  (idx + length batches ≤ n)%nat →
  apply_updates_run (cuda (pp_config self)) batches (rs_model st) = Ok m →
  ∃ st', outcome (fit_batches_run self epoch (clock i) idx batches st) = Ok st' ∧
         rs_model st' = m ∧
         (rs_ticks st' ≤ rs_ticks st + length batches)%nat.
Proof.
  induction batches as [| b rest IH]; intros idx st m Hi HT Hn;
    cbn [fit_batches apply_updates length] in *.
  - intros [= <-]. exists st. split; [done |]. split; [done | lia].
  - destruct (model_update (rs_model st)
                (patch_data (cuda (pp_config self)) b)) as [model |] eqn:Hupd;
      [cbn [mbind result_bind] | done].
    intros Hrest.
    destruct (fit_batch_total epoch i idx b st model) as (st1 & H1 & Hm & Ht & Ht');
      [lia | lia | done |].
    rewrite outcome_bind, H1.
    destruct (IH (S idx) st1 m) as (st' & Hst' & Hm' & Htk);
      [lia | lia | lia | by rewrite Hm |].
    exists st'. split; [done |]. split; [done | lia].
Qed.

Lemma fit_epochs_total count : ∀ epoch st m,
  (rs_ticks st + count * (n + 1) ≤ T)%nat →
  apply_updates_run (cuda (pp_config self))
    (all_batches dataloader_pass (pp_multitask_train_dataloader self) epoch count)
    (rs_model st) = Ok m →
  ∃ st', outcome (fit_epochs_run self epoch count st) = Ok st' ∧ rs_model st' = m.
Proof.
  induction count as [| count IH]; intros epoch st m HT; cbn [fit_epochs].
  - intros [= <-]. by exists st.
  - unfold all_batches. cbn [seq fmap list_fmap concat].
    rewrite apply_updates_app.
    destruct (apply_updates_run _ (dataloader_pass _ epoch) (rs_model st))
      as [m1 |] eqn:H1; [cbn [mbind result_bind] | done].
    intros Hrest.
    pose proof (pass_bound epoch) as Hlen.
    destruct (fit_batches_total (Z.of_nat epoch) (rs_ticks st)
                (dataloader_pass (pp_multitask_train_dataloader self) epoch)
                0%nat (tick st) m1) as (st1 & Hst1 & Hm1 & Htk);
      [cbn; lia | cbn; lia | lia | done |].
    rewrite outcome_bind. unfold fit_epoch at 1.
    rewrite !bind_emit. cbn [outcome]. rewrite Hst1.
    apply IH; [cbn in Htk; lia |]. by rewrite Hm1.
Qed.

End TimeFits.



End FitRuns.

(** ** Training: the remaining time *)

Section RemainingTime.

Variable dataloader_len : TrainDataLoader → Z.


End RemainingTime.

(** ** Evaluation: what a run emits *)

Section PredictRuns.

Variable Model : Type.
Variable eval_model :
  Model → EvalDataLoader → list Z → bool → bool → option (list string) →
  TaskType → result (EvalOutput * Model).
Variable genv : Globals.

Abbreviation predict_iteration_run := (predict_iteration Model eval_model genv).
Abbreviation predict_loop_run := (predict_loop Model eval_model genv).
Abbreviation predict_run := (predict Model eval_model genv).

Ltac split_members :=
  repeat (rewrite elem_of_app || rewrite elem_of_cons || rewrite elem_of_nil).

Lemma report_dev_metrics_cons self dataset ep key val rest :
  g_epoch genv = Some ep →
  use_tensor_board (pp_config self) = false ∨ is_number val = true →
  report_dev_metrics genv self dataset ((key, val) :: rest)
  = Eff (metric_events self dataset ep (key, val)
         ++ trace (report_dev_metrics genv self dataset rest))
        (outcome (report_dev_metrics genv self dataset rest)).
Proof.
  intros Hep Hval. cbn [report_dev_metrics]. rewrite Hep.
  unfold metric_events. cbn [fst snd global_name].
  destruct (use_tensor_board (pp_config self)).
  - destruct Hval as [| Hval]; [done |]. by destruct val.
  - done.
Qed.


(** Every event of the loop body belongs to the dev phase or to the test
    phase of its dataset. *)
Lemma predict_iteration_events self idx dataset st ev :
  ev ∈ trace (predict_iteration_run self idx dataset st) →
  dev_split_event genv dataset ev ∨ test_split_event genv dataset ev.
Proof.
  unfold predict_iteration. rewrite !trace_bind. cbn [lift trace outcome].
  unfold list_getitem.
  destruct (pp_dev_dataloaders_list self !! idx) as [dev_data |];
    [| by intros ?%not_elem_of_nil].
  cbn [app]. rewrite trace_bind. rewrite elem_of_app.
  intros [Hdev | Hrest].
  - left. destruct dev_data as [dev_data |]; [| by apply not_elem_of_nil in Hdev].
    by eapply predict_dev_events.
  - right. destruct (outcome _) as [st1 |]; [| by apply not_elem_of_nil in Hrest].
    rewrite trace_bind in Hrest. cbn [lift trace outcome app] in Hrest.
    destruct (pp_test_dataloaders_list self !! idx) as [[test_data |] |];
      [| by apply not_elem_of_nil in Hrest ..].
    by eapply predict_test_events.
Qed.

Lemma predict_loop_events self datasets : ∀ idx st ev,
  ev ∈ trace (predict_loop_run self idx datasets st) →
  ∃ dataset, dataset ∈ datasets ∧
    (dev_split_event genv dataset ev ∨ test_split_event genv dataset ev).
Proof.
  induction datasets as [| d rest IH]; intros idx st ev; cbn [predict_loop].
  - by intros ?%not_elem_of_nil.
  - rewrite trace_bind, elem_of_app. intros [Hd | Hrest].
    + exists d. split; [by left |]. by eapply predict_iteration_events.
    + destruct (outcome _) as [st1 |]; [| by apply not_elem_of_nil in Hrest].
      destruct (IH _ _ _ Hrest) as (d' & Hd' & Hev).
      exists d'. split; [by right | done].
Qed.

(** X14: the monitoring sink is closed by nothing but the last step of
    [predict], and only when [use_tensor_board] is set: with the flag off
    no run of [predict] closes it; and the model is saved by nothing but
    the step before. *)
Theorem sink_is_closed_only_on_request self st :
  (use_tensor_board (pp_config self) = false →
   EvTensorBoardClose ∉ trace (predict Model eval_model genv self st)) ∧
  (EvTensorBoardClose
   ∉ trace (predict_loop Model eval_model genv self 0
              (pp_test_datasets_list self) st)) ∧
  (∀ f, EvModelSave f
        ∉ trace (predict_loop Model eval_model genv self 0
                   (pp_test_datasets_list self) st)).
Proof.
  assert (∀ ev, (∀ d, ¬ dev_split_event genv d ev) →
                (∀ d, ¬ test_split_event genv d ev) →
                ev ∉ trace (predict_loop_run self 0 (pp_test_datasets_list self) st))
    as Hloop.
  { intros ev Hdev Htest Hin.
    destruct (predict_loop_events _ _ _ _ _ Hin) as (d & _ & [H | H]).
    - by apply (Hdev d). - by apply (Htest d). }
  split; [| split].
  - intros Hoff. unfold predict, close_connections. rewrite Hoff.
    rewrite trace_bind, elem_of_app. intros [Hin | Hin].
    + exfalso. revert Hin. apply Hloop; intros d; cbn; tauto.
    + destruct (outcome _) as [st1 |]; [| by apply not_elem_of_nil in Hin].
      revert Hin.
      destruct (g_output_dir genv), (g_epoch genv); cbn; split_members;
        naive_solver.
  - apply Hloop; intros d; cbn; tauto.
  - intros f. apply Hloop; intros d; cbn; tauto.
Qed.

End PredictRuns.

(** ** Evaluation: with the four names bound *)

Section PredictBound.

Variable Model : Type.
Variable eval_model :
  Model → EvalDataLoader → list Z → bool → bool → option (list string) →
  TaskType → result (EvalOutput * Model).
Variable output_dir : string.
Variable epoch : Z.
Variable task_defs : TaskDefs.
Variable args : Args.
Variable self : Pipeline.

Abbreviation genv_bound := (bound_globals output_dir epoch task_defs args).
Abbreviation predict_dev_bound := (predict_dev Model eval_model genv_bound).
Abbreviation predict_test_bound := (predict_test Model eval_model genv_bound).
Abbreviation predict_iteration_bound :=
  (predict_iteration Model eval_model genv_bound).
Abbreviation predict_loop_bound := (predict_loop Model eval_model genv_bound).
Abbreviation predict_bound := (predict Model eval_model genv_bound).

(** The prefix of a dataset has its entries in the two maps that
    [predict] reads through the global [task_defs]. *)
Abbreviation known dataset :=
  (is_Some (metric_meta_map task_defs !! split_prefix dataset) ∧
   is_Some (task_type_map task_defs !! split_prefix dataset)).

(** The inference step returns on every input. *)
Hypothesis eval_model_returns : ∀ m data meta use_cuda with_label label_dict tt,
  ∃ out m', eval_model m data meta use_cuda with_label label_dict tt = Ok (out, m').

(** Where the tensor board is in use, the metrics of a dev split are
    numbers. *)
Hypothesis dev_metrics_suit_the_sink :
  use_tensor_board (pp_config self) = true →
  ∀ m data meta use_cuda label_dict tt out m',
    eval_model m data meta use_cuda true label_dict tt = Ok (out, m') →
    numeric (eo_metrics out).

Lemma report_dev_metrics_outcome dataset metrics :
  (use_tensor_board (pp_config self) = true → numeric metrics) →
  outcome (report_dev_metrics genv_bound self dataset metrics) = Ok tt.
Proof.
  intros Hnum.
  induction metrics as [| [key val] rest IH]; [done |].
  cbn [report_dev_metrics]. rewrite !outcome_bind.
  destruct (use_tensor_board (pp_config self)) eqn:Htb.
  - specialize (Hnum eq_refl). apply Forall_cons in Hnum as [Hval Hrest].
    destruct val as [x | x]; [| done]. cbn. by rewrite IH.
  - cbn. by rewrite IH.
Qed.

Lemma predict_dev_total dataset label_dict data st :
  known dataset →
  ∃ st', outcome (predict_dev_bound self dataset label_dict data st) = Ok st'.
Proof.
  intros [[mm Hm] [tt Ht]]. unfold predict_dev, getitem.
  cbn [bound_globals g_task_defs g_args g_output_dir g_epoch global_name].
  rewrite bind_lift_Ok, Hm, !bind_lift_Ok, Ht, bind_lift_Ok, bind_emit.
  cbn [outcome].
  destruct (eval_model_returns (rs_model st) data mm (args_cuda args) true
              label_dict tt) as (out & m' & Heval).
  rewrite Heval.
  rewrite bind_lift_Ok, outcome_bind, report_dev_metrics_outcome;
    [| intros Htb; by eapply dev_metrics_suit_the_sink].
  rewrite !bind_lift_Ok, bind_emit. cbn [outcome].
  destruct (use_glue_format (pp_config self)); cbn; eauto.
Qed.

Lemma predict_test_total dataset label_dict data st :
  known dataset →
  ∃ st', outcome (predict_test_bound self dataset label_dict data st) = Ok st'.
Proof.
  intros [[mm Hm] [tt Ht]]. unfold predict_test, getitem.
  cbn [bound_globals g_task_defs g_args g_output_dir g_epoch global_name].
  rewrite bind_lift_Ok, Hm, !bind_lift_Ok, Ht, bind_lift_Ok, bind_emit.
  cbn [outcome].
  destruct (eval_model_returns (rs_model st) data mm (args_cuda args) false
              label_dict tt) as (out & m' & ->).
  rewrite !bind_lift_Ok, bind_emit. cbn [outcome].
  destruct (args_glue_format_on args); cbn; eauto.
Qed.

Lemma predict_iteration_total idx dataset st :
  known dataset →
  (idx < length (pp_dev_dataloaders_list self))%nat →
  (idx < length (pp_test_dataloaders_list self))%nat →
  ∃ st', outcome (predict_iteration_bound self idx dataset st) = Ok st'.
Proof.
  intros Hk [dev Hdev]%lookup_lt_is_Some_2 [test Htest]%lookup_lt_is_Some_2.
  unfold predict_iteration, list_getitem. rewrite Hdev, Htest.
  rewrite bind_lift_Ok, outcome_bind.
  assert (∃ st1, outcome match dev with
                         | Some dev_data =>
                             predict_dev_bound self dataset
                               (global_map (pp_task_defs self) !! split_prefix dataset)
                               dev_data st
                         | None => mret st
                         end = Ok st1) as [st1 ->].
  { destruct dev; [by apply predict_dev_total | by exists st]. }
  rewrite bind_lift_Ok.
  destruct test; [by apply predict_test_total | by exists st1].
Qed.

Lemma predict_iteration_short idx dataset st :
  known dataset →
  (length (pp_dev_dataloaders_list self) ≤ idx)%nat
  ∨ (length (pp_test_dataloaders_list self) ≤ idx)%nat →
  outcome (predict_iteration_bound self idx dataset st) = Raise IndexError.
Proof.
  intros Hk Hshort. unfold predict_iteration, list_getitem.
  destruct (pp_dev_dataloaders_list self !! idx) as [dev |] eqn:Hdev; [| done].
  destruct Hshort as [Hshort | Hshort].
  { apply lookup_ge_None_2 in Hshort. congruence. }
  apply lookup_ge_None_2 in Hshort. rewrite Hshort.
  rewrite bind_lift_Ok, outcome_bind.
  assert (∃ st1, outcome match dev with
                         | Some dev_data =>
                             predict_dev_bound self dataset
                               (global_map (pp_task_defs self) !! split_prefix dataset)
                               dev_data st
                         | None => mret st
                         end = Ok st1) as [st1 ->].
  { destruct dev; [by apply predict_dev_total | by exists st]. }
  done.
Qed.

Lemma predict_loop_total datasets : ∀ idx st,
  (∀ d, d ∈ datasets → known d) →
  (idx + length datasets ≤ length (pp_dev_dataloaders_list self))%nat →
  (idx + length datasets ≤ length (pp_test_dataloaders_list self))%nat →
  ∃ st', outcome (predict_loop_bound self idx datasets st) = Ok st'.
Proof.
  induction datasets as [| d rest IH]; intros idx st Hk Hdev Htest;
    cbn [predict_loop].
  - by exists st.
  - cbn [length] in Hdev, Htest. rewrite outcome_bind.
    destruct (predict_iteration_total idx d st) as [st1 ->];
      [apply Hk; by left | lia | lia |].
    apply IH; [| lia | lia]. intros d' Hd'. apply Hk. by right.
Qed.

Lemma predict_loop_short datasets : ∀ idx st,
  (∀ d, d ∈ datasets → known d) →
  datasets ≠ [] →
  (length (pp_dev_dataloaders_list self) < idx + length datasets)%nat
  ∨ (length (pp_test_dataloaders_list self) < idx + length datasets)%nat →
  outcome (predict_loop_bound self idx datasets st) = Raise IndexError.
Proof.
  induction datasets as [| d rest IH]; intros idx st Hk Hne Hshort; [done |].
  cbn [predict_loop]. cbn [length] in Hshort. rewrite outcome_bind.
  destruct (decide (idx < length (pp_dev_dataloaders_list self)
                    ∧ idx < length (pp_test_dataloaders_list self))%nat)
    as [[Hd Ht] | Hout].
  - destruct (predict_iteration_total idx d st) as [st1 ->];
      [apply Hk; by left | done | done |].
    apply IH; [| | lia].
    + intros d' Hd'. apply Hk. by right.
    + destruct rest; [cbn in Hshort; lia | done].
  - rewrite predict_iteration_short; [done | apply Hk; by left | lia].
Qed.



End PredictBound.

(** ** The directories given to the pipeline constructor *)

Section DirectoriesUnused.

Variable Model : Type.
Variable local_updates : Model → Z.
Variable updates : Model → Z.
Variable train_loss_avg : Model → pyfloat.
Variable total_param : Model → Z.
Variable model_update : Model → Batch → result Model.
Variable eval_model :
  Model → EvalDataLoader → list Z → bool → bool → option (list string) →
  TaskType → result (EvalOutput * Model).
Variable patch_data : bool → Batch → Batch.
Variable dataloader_len : TrainDataLoader → Z.
Variable dataloader_pass : TrainDataLoader → nat → list Batch.
Variable clock : nat → Z.
Variable genv : Globals.
Variable output_dir log_dir : string.

Abbreviation fit_batches_of :=
  (fit_batches Model local_updates updates train_loss_avg model_update
     patch_data dataloader_len clock genv).
Abbreviation fit_epochs_of :=
  (fit_epochs Model local_updates updates train_loss_avg model_update
     patch_data dataloader_len dataloader_pass clock genv).
Abbreviation fit_of :=
  (fit Model local_updates updates train_loss_avg total_param model_update
     patch_data dataloader_len dataloader_pass clock genv).
Abbreviation predict_loop_of := (predict_loop Model eval_model genv).
Abbreviation predict_of := (predict Model eval_model genv).

Lemma fit_batches_dirs self epoch start batches : ∀ idx st,
  fit_batches_of (with_dirs output_dir log_dir self) epoch start idx batches st
  = fit_batches_of self epoch start idx batches st.
Proof.
  induction batches as [| b rest IH]; intros idx st; [done |].
  cbn [fit_batches]. apply eff_bind_ext. intros st1. apply IH.
Qed.

Lemma fit_epochs_dirs self count : ∀ epoch st,
  fit_epochs_of (with_dirs output_dir log_dir self) epoch count st
  = fit_epochs_of self epoch count st.
Proof.
  induction count as [| count IH]; intros epoch st; [done |].
  cbn [fit_epochs]. unfold fit_epoch. rewrite fit_batches_dirs.
  apply eff_bind_ext. intros st1. apply IH.
Qed.

Lemma report_dev_metrics_dirs self dataset metrics :
  report_dev_metrics genv (with_dirs output_dir log_dir self) dataset metrics
  = report_dev_metrics genv self dataset metrics.
Proof.
  induction metrics as [| [key val] rest IH]; [done |].
  cbn [report_dev_metrics]. by rewrite IH.
Qed.

Lemma predict_loop_dirs self datasets : ∀ idx st,
  predict_loop_of (with_dirs output_dir log_dir self) idx datasets st
  = predict_loop_of self idx datasets st.
Proof.
  induction datasets as [| d rest IH]; intros idx st; [done |].
  cbn [predict_loop].
  assert (predict_iteration Model eval_model genv
            (with_dirs output_dir log_dir self) idx d st
          = predict_iteration Model eval_model genv self idx d st) as ->.
  { unfold predict_iteration. cbn [with_dirs pp_dev_dataloaders_list pp_task_defs].
    apply eff_bind_ext. intros [dev_data |]; [| done].
    f_equal. unfold predict_dev.
    do 5 (apply eff_bind_ext; intros ?).
    apply eff_bind_ext. intros [out model].
    by rewrite report_dev_metrics_dirs. }
  apply eff_bind_ext. intros st1. apply IH.
Qed.

(** X17: the [output_dir] and [log_dir] the constructor stores on the
    object are read by neither [fit] nor [predict]: two pipelines that
    differ in these attributes only train, evaluate, log and save
    alike. *)
Theorem stored_directories_are_not_read self epochs_arg st :
  fit_of (with_dirs output_dir log_dir self) epochs_arg st
  = fit_of self epochs_arg st ∧
  predict_of (with_dirs output_dir log_dir self) st = predict_of self st.
Proof.
  split.
  - unfold fit. cbn [with_dirs pp_config]. by rewrite fit_epochs_dirs.
  - unfold predict. cbn [with_dirs pp_test_datasets_list].
    by rewrite predict_loop_dirs.
Qed.

End DirectoriesUnused.

(** ** Construction: the batch count *)

Section BatchCount.

Variable task_defs : TaskDefs.
Variable data_dir : string.
Variable path_exists : string → bool.
Variable readable : string → bool.
Variable dataloader_len : TrainDataLoader → Z.

(** X18: the constructor ends by dividing by [grad_accumulation_step].
    When it succeeds that step is not zero, and the batch count it keeps is
    [epochs * len(dataloader) // grad_accumulation_step] with the values
    of the config it was given; with a step of zero it never succeeds,
    whatever the datasets are. *)
Theorem constructor_counts_batches c train tests obj :
  init_data_process task_defs data_dir path_exists readable dataloader_len
    c train tests = Ok obj →
  grad_accumulation_step c ≠ 0 ∧
  dp_num_all_batches obj
  = epochs c * dataloader_len (dp_multitask_train_dataloader obj)
    / grad_accumulation_step c.
Proof.
  unfold init_data_process, py_assert. intros Hrun.
  destruct train as [| t0 train]; [done |].
  destruct tests as [| d0 tests]; [done |].
  cbn [length Nat.leb mbind result_bind] in Hrun.
  destruct (process_train_datasets _ _ _ _ _) as [[r dl] |] eqn:Htrain; [| done].
  cbn [mbind result_bind] in Hrun.
  destruct (process_dev_test_datasets _ _ _ _ _ _) as [[devs tsts] |]; [| done].
  cbn [mbind result_bind] in Hrun.
  assert (grad_accumulation_step (config r) = grad_accumulation_step c
          ∧ epochs (config r) = epochs c) as [Hg He].
  { unfold process_train_datasets in Htrain.
    destruct (train_loop task_defs data_dir readable (t0 :: train)
                (new_registry c) []) as [[r0 tds] |] eqn:Hloop; [| done].
    cbn [mbind result_bind] in Htrain. injection Htrain as <- _.
    destruct (train_loop_inv _ _ _ _ _ _ _ _ _ (train_inv_new _ c) Hloop)
      as (_ & Hc & _).
    cbn in Hc. cbn. by rewrite Hc. }
  rewrite Hg, He in Hrun.
  destruct (Z.eqb_spec (grad_accumulation_step c) 0) as [| Hne]; [done |].
  cbn [mbind result_bind] in Hrun. injection Hrun as <-. by cbn.
Qed.

End BatchCount.

(** ** The further properties on the sample runs *)

Lemma repeated_prefix_is_ignored_witness :
  Samples.run 0 (["mnli"; "sst"]%string ++ "mnli_b"%string :: ["snli"%string])
  = Samples.run 0 (["mnli"; "sst"]%string ++ ["snli"%string]).
Proof.
  unfold Samples.run. apply repeated_prefix_is_ignored.
  cbn. by left.
Defined.

Lemma registration_needs_six_maps_witness :
  train_iteration Samples.defs "data" Samples.readable_ "qqp_x"
    (new_registry (Samples.cfg 0)) []
  = Raise (AssertionError "").
Proof.
  destruct (registration_needs_six_maps Samples.defs "data" Samples.readable_
              "qqp_x"%string (new_registry (Samples.cfg 0)) [] eq_refl)
    as (_ & Hassert & _).
  apply Hassert. by left.
Defined.

Lemma decoder_opts_are_bounded_witness :
  match Samples.run 1 ["mnli"; "snli_x"; "sst"]%string with
  | Ok (r, dl) =>
      ∃ ds, cfg_decoder_opts (config r) = Some ds ∧
            Forall (λ d, d < 3 ∧ (d = 0 ∨ d = 1)) ds
  | Raise _ => False
  end.
Proof.
  destruct (Samples.run 1 ["mnli"; "snli_x"; "sst"]%string)
    as [[r dl] |] eqn:E; [| by vm_compute in E].
  exact (decoder_opts_are_bounded _ _ _ _ _ _ _ E).
Defined.

Lemma shared_id_needs_san_everywhere_witness :
  match Samples.run 1 ["mnli"; "snli_x"; "sst"]%string with
  | Ok (r, dl) => decoder_opts r !! 0%nat = Some 0
  | Raise _ => False
  end.
Proof.
  destruct (Samples.run 1 ["mnli"; "snli_x"; "sst"]%string)
    as [[r dl] |] eqn:E; [| by vm_compute in E].
  destruct (shared_id_needs_san_everywhere _ _ _ _ _ _ _ 3 0%nat E)
    as (d & Hd & _ & Hzero).
  - cbn. lia.
  - cbn. lia.
  - vm_compute in E. injection E as <- _. by vm_compute.
  - rewrite Hd. f_equal. apply Hzero. exists "snli"%string.
    vm_compute in E. injection E as <- _.
    split; [| split]; vm_compute; eauto.
Defined.

Lemma sequence_lengths_are_ordered_witness :
  match Samples.run 1 ["mnli"; "snli_x"; "sst"; "mnli_b"]%string with
  | Ok (r, dl) =>
      length (decoder_opts r) = length (nclass_list r) ∧
      (length (decoder_opts r) ≤ length (task_types r))%nat ∧
      (length (task_types r) ≤ 4)%nat
  | Raise _ => False
  end.
Proof.
  destruct (Samples.run 1 ["mnli"; "snli_x"; "sst"; "mnli_b"]%string)
    as [[r dl] |] eqn:E; [| by vm_compute in E].
  destruct (sequence_lengths_are_ordered _ _ _ _ _ _ _ E)
    as (H1 & H2 & _ & _ & _ & _ & _ & H3).
  done.
Defined.

Lemma train_files_are_first_listed_witness :
  match Samples.run 0 ["mnli"; "mnli_b"; "sst"]%string with
  | Ok (r, dl) =>
      Forall2 (built_from Samples.defs "data" (Samples.cfg 0))
        ["mnli"; "sst"]%string (tdl_dataset dl)
  | Raise _ => False
  end.
Proof.
  destruct (Samples.run 0 ["mnli"; "mnli_b"; "sst"]%string)
    as [[r dl] |] eqn:E; [| by vm_compute in E].
  exact (proj1 (train_files_are_first_listed _ _ _ _ _ _ _ E)).
Defined.

Lemma test_tasks_are_trained_witness :
  match FurtherSamples.construction (Samples.cfg 0) ["mnli"; "sst"]%string
          ["mnli_matched"]%string with
  | Ok obj => split_prefix "mnli_matched" ∈ split_prefix <$> ["mnli"; "sst"]%string
  | Raise _ => False
  end.
Proof.
  destruct (FurtherSamples.construction (Samples.cfg 0) ["mnli"; "sst"]%string
              ["mnli_matched"]%string) as [obj |] eqn:E; [| by vm_compute in E].
  destruct (test_tasks_are_trained _ _ _ _ _ _ _ _ _ E) as (_ & _ & Hall).
  apply (Hall "mnli_matched"%string); [by left | cbn; lia].
Defined.

Lemma fit_updates_every_batch_once_witness :
  match outcome (FurtherSamples.quiet_training 500) with
  | Ok st' => rs_model st' = 4
  | Raise _ => False
  end.
Proof.
  destruct (outcome (FurtherSamples.quiet_training 500)) as [st' |] eqn:E;
    [| by vm_compute in E].
  apply fit_updates_every_batch_once in E.
  vm_compute in E. by injection E.
Defined.





Lemma sink_is_closed_only_on_request_witness :
  EvTensorBoardClose
  ∉ trace (predict Z PipelineSamples.eval_model FurtherSamples.genv
             PipelineSamples.pipeline_with_dev {| rs_model := 1; rs_ticks := 2 |}).
Proof.
  apply sink_is_closed_only_on_request. reflexivity.
Defined.



Lemma constructor_counts_batches_witness :
  match FurtherSamples.construction (Samples.cfg 0) ["mnli"; "sst"]%string
          ["mnli_matched"]%string with
  | Ok obj => dp_num_all_batches obj = 4
  | Raise _ => False
  end.
Proof.
  destruct (FurtherSamples.construction (Samples.cfg 0) ["mnli"; "sst"]%string
              ["mnli_matched"]%string) as [obj |] eqn:E; [| by vm_compute in E].
  by destruct (constructor_counts_batches _ _ _ _ _ _ _ _ _ E) as [_ ->].
Defined.
